(** * ExeTera core: field arrays, fields and data frames

  A shallow embedding of [exetera/core/fields.py] and
  [exetera/core/dataframe.py], with the properties of the field storage
  model, the buffered writers and the data-frame entry points.

  Conventions of the embedding
  - A Python exception is a value of [PyErr]; a call that may raise
    returns a [result]; a method that mutates its object runs in the
    state-and-exception monad [M].
  - A Python [str] is the [string] of its UTF-8 bytes, so [s.encode()] is
    [list_byte_of_string] and [bytes.decode()] is [string_of_list_byte].
  - Offsets and lengths are unbounded integers: the [int64] store is
    exact below [2^63] bytes, far beyond any input this model can meet.
  - An array of a fixed-width field carries the name of its dtype.  What
    numpy, h5py and the data writer make of a value that is stored in an
    array of another dtype is the class [Conversion]: the methods take any
    instance of it, and the examples are run with [example_conversion]. *)

From Stdlib Require Import ZArith Lia List.
From Stdlib Require Import Strings.String Strings.Byte.
From stdpp Require Import base option list strings pretty gmap.

Open Scope Z_scope.

(** ** Python exceptions and results *)

Inductive PyErr :=
| TypeError | ValueError | IndexError | KeyError | PermissionError
| AttributeError | NotImplementedError.

Inductive result (A : Type) :=
| Ok (a : A)
| Raise (e : PyErr).
Arguments Ok {A} a.
Arguments Raise {A} e.

Definition rbind {A B} (r : result A) (k : A → result B) : result B :=
match r with
| Ok a => k a
| Raise e => Raise e
end.

Notation "'let?' x ':=' e 'in' k" := (rbind e (λ x, k))
  (at level 10, x pattern, e at level 100, k at level 200).

(** A loop [for x in xs: body] over a fallible body. *)
Fixpoint for_each {A S} (body : S → A → result S) (xs : list A) (s : S)
: result S :=
match xs with
| [] => Ok s
| x :: xs => let? s' := body s x in for_each body xs s'
end.

(** ** Python sequences *)

(** [l[i] = v] on a fixed-size array: out of range raises. *)
Definition setitem {A} (l : list A) (i : nat) (v : A) : result (list A) :=
if decide (i < length l)%nat then Ok (<[i:=v]> l) else Raise IndexError.

(** Slice bounds as Python normalises them for a sequence of length [n]. *)
Definition slice_bound (n x : Z) : Z :=
if decide (x < 0) then Z.max (x + n) 0 else Z.min x n.

(** [l[start:stop]] *)
Definition py_slice {A} (l : list A) (start stop : Z) : list A :=
let n := Z.of_nat (length l) in
let a := slice_bound n start in
let b := slice_bound n stop in
take (Z.to_nat (b - a)) (drop (Z.to_nat a) l).

(** [np.zeros(n, dtype)] *)
Definition np_zeros {A} (zero : A) (n : nat) : list A := replicate n zero.

(** ** DataWriter *)

Module DataWriter.

(** Modelled from the spec: [DataWriter.write(group, name, data, count)]
    of [exetera/core/data_writer.py], which is not among the sources.  The
    storage collaborator offers "append/resize of a flat array": the
    first [count] entries of [data] are appended to the named array,
    which is created on the first write. *)
Definition write {A} (dataset : list A) (data : list A) (count : nat)
  : list A :=
  dataset ++ take count data.

(** Modelled from the spec: [DataWriter.clear_dataset], which "truncates
    backing storage to zero length". *)
Definition clear_dataset {A} (dataset : list A) : list A := [].

(** Modelled from the spec: [DataWriter.flush] forces the array to the
    file and leaves its contents as they are. *)
Definition flush {A} (dataset : list A) : list A := dataset.

End DataWriter.

(** ** WriteableIndexedFieldArray *)

Module WriteableIndexedFieldArray.

(** The object together with the two arrays of its field,
    [field['index']] and [field['values']]. *)
Record t := mk {
  _index_dataset : list Z;
  _values_dataset : list byte;
  _chunksize : nat;
  _raw_values : list byte;
  _raw_indices : list Z;
  _accumulated : Z;
  _index_index : nat;
  _value_index : nat;
}.

Definition set_index_dataset (w : t) (x : list Z) : t :=
  mk x (_values_dataset w) (_chunksize w) (_raw_values w) (_raw_indices w)
     (_accumulated w) (_index_index w) (_value_index w).
Definition set_values_dataset (w : t) (x : list byte) : t :=
  mk (_index_dataset w) x (_chunksize w) (_raw_values w) (_raw_indices w)
     (_accumulated w) (_index_index w) (_value_index w).
Definition set_raw_values (w : t) (x : list byte) : t :=
  mk (_index_dataset w) (_values_dataset w) (_chunksize w) x (_raw_indices w)
     (_accumulated w) (_index_index w) (_value_index w).
Definition set_raw_indices (w : t) (x : list Z) : t :=
  mk (_index_dataset w) (_values_dataset w) (_chunksize w) (_raw_values w) x
     (_accumulated w) (_index_index w) (_value_index w).
Definition set_accumulated (w : t) (x : Z) : t :=
  mk (_index_dataset w) (_values_dataset w) (_chunksize w) (_raw_values w)
     (_raw_indices w) x (_index_index w) (_value_index w).
Definition set_index_index (w : t) (x : nat) : t :=
  mk (_index_dataset w) (_values_dataset w) (_chunksize w) (_raw_values w)
     (_raw_indices w) (_accumulated w) x (_value_index w).
Definition set_value_index (w : t) (x : nat) : t :=
  mk (_index_dataset w) (_values_dataset w) (_chunksize w) (_raw_values w)
     (_raw_indices w) (_accumulated w) (_index_index w) x.

(** [__init__(field, 'index', 'values')] over the arrays of [field] and its
    [chunksize] attribute. *)
Definition init (index : list Z) (values : list byte) (chunksize : nat) : t :=
  {| _index_dataset := index;
     _values_dataset := values;
     _chunksize := chunksize;
     _raw_values := np_zeros "000"%byte chunksize;
     _raw_indices := np_zeros 0 chunksize;
     _accumulated := if decide (length index = 0%nat) then 0
                     else default 0 (last index);
     _index_index := 0;
     _value_index := 0 |}.

(** [__len__] *)
Definition len (w : t) : Z := Z.of_nat (length (_index_dataset w)) - 1.

(** [__getitem__(item)] for an [int]. *)
Definition getitem (w : t) (item : Z) : result string :=
  if decide (item >= Z.of_nat (length (_index_dataset w)) - 1)
  then Raise ValueError
  else match py_slice (_index_dataset w) item (item + 2) with
       | [start; stop] =>
           if decide (start = stop) then Ok EmptyString
           else Ok (string_of_list_byte
                      (py_slice (_values_dataset w) start stop))
       | _ => Raise ValueError
       end.

(** [__setitem__] *)
Definition setitem_ (w : t) (key : Z) (value : string) : result t :=
  Raise PermissionError.

(** [clear()] *)
Definition clear (w : t) : t :=
  let w := set_accumulated w 0 in
  let w := set_index_dataset w
             (DataWriter.write (DataWriter.clear_dataset (_index_dataset w)) [] 0) in
  let w := set_values_dataset w
             (DataWriter.write (DataWriter.clear_dataset (_values_dataset w)) [] 0) in
  set_accumulated w 0.

(** The flush of the staged offsets, shared by [write_part] and
    [complete]: the leading [0] is written when the index array is still
    empty. *)
Definition flush_indices (w : t) : t :=
  let w := if decide (length (_index_dataset w) = 0%nat)
           then set_index_dataset w (DataWriter.write (_index_dataset w) [0] 1)
           else w in
  let w := set_index_dataset w
             (DataWriter.write (_index_dataset w) (_raw_indices w) (_index_index w)) in
  set_index_index w 0.

Definition flush_values (w : t) : t :=
  let w := set_values_dataset w
             (DataWriter.write (_values_dataset w) (_raw_values w) (_value_index w)) in
  set_value_index w 0.

(** Body of [for v in evalue]. *)
Definition write_byte (w : t) (v : byte) : result t :=
  let? raw := setitem (_raw_values w) (_value_index w) v in
  let w := set_raw_values w raw in
  let w := set_value_index w (S (_value_index w)) in
  let w := if decide (_value_index w = _chunksize w) then flush_values w
           else w in
  Ok (set_accumulated w (_accumulated w + 1)).

(** Body of [for s in part]. *)
Definition write_string (w : t) (s : string) : result t :=
  let evalue := list_byte_of_string s in
  let? w := for_each write_byte evalue w in
  let? raw := setitem (_raw_indices w) (_index_index w) (_accumulated w) in
  let w := set_raw_indices w raw in
  let w := set_index_index w (S (_index_index w)) in
  Ok (if decide (_index_index w = _chunksize w) then flush_indices w else w).

(** [write_part(part)] *)
Definition write_part (w : t) (part : list string) : result t :=
  for_each write_string part w.

(** [complete()] *)
Definition complete (w : t) : t :=
  let w := if decide (_value_index w ≠ 0%nat) then flush_values w else w in
  if decide (_index_index w ≠ 0%nat) then flush_indices w else w.

(** [write(part)] *)
Definition write (w : t) (part : list string) : result t :=
  let? w := write_part w part in Ok (complete w).

End WriteableIndexedFieldArray.

Module WIFA := WriteableIndexedFieldArray.

(** ** Vocabulary of the indexed-string properties *)

(** The payload of a sequence of strings: their encodings, concatenated in
    row order. *)
Definition flat (ss : list string) : list byte :=
concat (map list_byte_of_string ss).

(** The running end offsets of the strings of [ss], for a payload that
    already holds [acc] bytes. *)
Fixpoint offsets_from (acc : Z) (ss : list string) : list Z :=
match ss with
| [] => []
| s :: ss =>
    let acc := acc + Z.of_nat (length (list_byte_of_string s)) in
    acc :: offsets_from acc ss
end.

(** One call on a writable indexed array. *)
Inductive call :=
| WritePart (part : list string)
| Complete.

Definition step (w : WIFA.t) (c : call) : result WIFA.t :=
match c with
| WritePart part => WIFA.write_part w part
| Complete => Ok (WIFA.complete w)
end.

(** A sequence of calls, in order. *)
Definition run (cs : list call) (w : WIFA.t) : result WIFA.t :=
for_each step cs w.

(** The strings a sequence of calls has written. *)
Definition written (cs : list call) : list string :=
concat (map (λ c, match c with WritePart part => part | Complete => [] end) cs).

(** The array object of a field that [indexed_string_field_constructor] has
    just created: both arrays are empty. *)
Definition fresh (chunksize : nat) : WIFA.t :=
WIFA.init (DataWriter.write [] [] 0) (DataWriter.write [] [] 0) chunksize.

(** [indices] is non-decreasing. *)
Definition non_decreasing (l : list Z) : Prop :=
∀ (i : nat) a b, l !! i = Some a → l !! S i = Some b → a ≤ b.

(** The invariant of the indexed-string encoding, as the arrays show it. *)
Definition indexed_invariant (w : WIFA.t) : Prop :=
WIFA._index_dataset w !! 0%nat = Some 0
∧ non_decreasing (WIFA._index_dataset w)
∧ last (WIFA._index_dataset w) = Some (Z.of_nat (length (WIFA._values_dataset w)))
∧ WIFA.len w = Z.of_nat (length (WIFA._index_dataset w)) - 1.

(** Reading an indexed array back row by row:
    [[w[i] for i in range(w.__len__())]]. *)
Definition read_rows (w : WIFA.t) : list (result string) :=
map (WIFA.getitem w) (seqZ 0 (WIFA.len w)).

(** * Fields *)

(** ** The state-and-exception monad of mutating methods *)

Definition M (S A : Type) : Type := S → result A * S.

Definition ret {S A} (a : A) : M S A := λ s, (Ok a, s).
Definition raise {S A} (e : PyErr) : M S A := λ s, (Raise e, s).
Definition bind {S A B} (m : M S A) (k : A → M S B) : M S B :=
λ s, match m s with
     | (Ok a, s') => k a s'
     | (Raise e, s') => (Raise e, s')
     end.
Definition get {S} : M S S := λ s, (Ok s, s).
Definition put {S} (s : S) : M S unit := λ _, (Ok tt, s).
Definition lift {S A} (r : result A) : M S A := λ s, (r, s).

Notation "'let*' x ':=' e 'in' k" := (bind e (λ x, k))
  (at level 10, x pattern, e at level 100, k at level 200).

(** [for x in xs: body(x)] *)
Fixpoint for_ {S A} (xs : list A) (body : A → M S unit) : M S unit :=
match xs with
| [] => ret tt
| x :: xs => let* _ := body x in for_ xs body
end.

(** ** numpy indexing *)

(** [array[mask]] for a boolean [mask]: the rows where the mask is true, in
    order; numpy raises [IndexError] when the lengths differ. *)
Fixpoint select {A} (l : list A) (mask : list bool) : list A :=
match l, mask with
| x :: l, b :: mask => if b then x :: select l mask else select l mask
| _, _ => []
end.

Definition np_mask {A} (array : list A) (mask : list bool) : result (list A) :=
if decide (length mask = length array) then Ok (select array mask)
else Raise IndexError.

(** [array[i]] for one integer of an index array: numpy counts a negative
    index from the end and raises [IndexError] outside [[-n, n)]. *)
Definition np_item {A} (array : list A) (i : Z) : result A :=
let n := Z.of_nat (length array) in
if decide (- n ≤ i < n) then
  match array !! Z.to_nat (if decide (i < 0) then i + n else i) with
  | Some x => Ok x
  | None => Raise IndexError
  end
else Raise IndexError.

Fixpoint traverse {A B} (f : A → result B) (xs : list A) : result (list B) :=
match xs with
| [] => Ok []
| x :: xs => let? y := f x in let? ys := traverse f xs in Ok (y :: ys)
end.

(** [array[index]] for an integer array [index]: a gather. *)
Definition np_take {A} (array : list A) (index : list Z) : result (list A) :=
traverse (np_item array) index.

(** ** Storage *)

Inductive attr :=
| AttrInt (z : Z)
| AttrStr (s : string).

(** One element of a fixed-width array, whatever its dtype. *)
Inductive cell :=
| CInt (z : Z)
| CBool (b : bool)
| CBytes (b : list byte)
| CFloat (bits : Z).

Global Instance byte_eq_dec : EqDecision byte := Byte.byte_eq_dec.

Global Instance cell_eq_dec : EqDecision cell.
Proof. solve_decision. Defined.

(** ** Dtypes

    Every array, of numpy or of the file, has a dtype, written here by the
    name the sources give it ([int8], [float64], [S10]).  A value that is
    stored in an array is converted to the dtype of the array: by numpy in
    [array[i] = value], by h5py in [dataset[:] = value], by
    [DataWriter.write], which is handed the dtype.  None of the three is
    among the sources.  What they make of a value of another dtype is left
    open: the definitions below are written for any conversion, each of which
    may raise, and what is proved of them holds for every one. *)
Class Conversion := {
  (** [dataset[:] = value] of h5py for an element of an array [value] of
      dtype [src], the dtype of the dataset being [dst] *)
  h5py_setitem : string → string → cell → result cell;
  (** [DataWriter.write(..., data, ..., dtype=dst)] for an element of an
      array [data] of dtype [src] *)
  writer_astype : string → string → cell → result cell;
  (** [array[i] = value] of numpy for a Python value, the dtype of the array
      being [dst] *)
  np_assign : string → cell → result cell;
}.

(** An array of dtype [src] as an array of dtype [dst] takes it: as it is
    when the two dtypes are the same, element by element through the
    conversion otherwise. *)
Definition as_dtype (convert : string → string → cell → result cell)
    (src dst : string) (array : list cell) : result (list cell) :=
if decide (src = dst) then Ok array else traverse (convert src dst) array.

(** [array[i] = value] of numpy: the position is looked up first, then the
    value is converted to the dtype of the array. *)
Definition np_setitem `{!Conversion} (dtype : string) (array : list cell)
    (i : nat) (value : cell) : result (list cell) :=
if decide (i < length array)%nat then
  let? v := np_assign dtype value in setitem array i v
else Raise IndexError.

(** The integer dtypes of numpy: signed or not, and their width in bits. *)
Definition int_dtypes : list (string * (bool * Z)) :=
[("int8", (true, 8)); ("int16", (true, 16)); ("int32", (true, 32));
 ("int64", (true, 64)); ("uint8", (false, 8)); ("uint16", (false, 16));
 ("uint32", (false, 32)); ("uint64", (false, 64))].

Definition int_dtype (dtype : string) : option (bool * Z) :=
(λ found, found.2.2) <$> list_find (λ p, p.1 = dtype) int_dtypes.

(** The bounds of an integer dtype. *)
Definition int_min (signed : bool) (bits : Z) : Z :=
if signed then - 2 ^ (bits - 1) else 0.

Definition int_max (signed : bool) (bits : Z) : Z :=
if signed then 2 ^ (bits - 1) - 1 else 2 ^ bits - 1.

(** A Python [int] stored in an array of an integer dtype, as numpy 1.x
    stores it: cast as C casts, so that a value beyond the bounds of the
    dtype wraps around (numpy 2 raises [OverflowError] there instead).  An
    array of another dtype is taken to hold the integer itself. *)
Definition cast_int (dtype : string) (z : Z) : Z :=
match int_dtype dtype with
| Some (signed, bits) =>
    (z - int_min signed bits) mod 2 ^ bits + int_min signed bits
| None => z
end.

(** The arrays of a field's group: none yet in a group just created;
    [index] (of dtype [int64]) and [values] (of dtype [uint8]) of an indexed
    string; [values], with its dtype, of a fixed-width field; [values] with
    its dtype, [key_values] (of dtype [int8]) and [key_names] of a
    categorical field. *)
Inductive arrays :=
| NoArrays
| Indexed (index : list Z) (values : list byte)
| Flat (dtype : string) (values : list cell)
| Keyed (dtype : string) (values : list cell) (key_values : list Z)
    (key_names : list string).

(** The HDF5 group of one field. *)
Record H5Group := mkGroup {
  attrs : gmap string attr;
  dsets : arrays;
}.

(** [field['values']] of a fixed-width field, and its update. *)
Definition flat_values (g : H5Group) : result (list cell) :=
match dsets g with
| Flat _ v | Keyed _ v _ _ => Ok v
| Indexed _ _ => Raise TypeError
| NoArrays => Raise KeyError
end.

Definition set_flat_values (g : H5Group) (v : list cell) : H5Group :=
match dsets g with
| Flat dtype _ => mkGroup (attrs g) (Flat dtype v)
| Keyed dtype _ kv kn => mkGroup (attrs g) (Keyed dtype v kv kn)
| Indexed _ _ | NoArrays => g
end.

(** [field['values'].dtype] of a fixed-width field. *)
Definition flat_dtype (g : H5Group) : result string :=
match dsets g with
| Flat dtype _ | Keyed dtype _ _ _ => Ok dtype
| Indexed _ _ => Raise TypeError
| NoArrays => Raise KeyError
end.

(** [field['index']] and [field['values']] of an indexed string. *)
Definition indexed_arrays (g : H5Group) : result (list Z * list byte) :=
match dsets g with
| Indexed i v => Ok (i, v)
| _ => Raise KeyError
end.

Definition set_indexed_arrays (g : H5Group) (i : list Z) (v : list byte)
  : H5Group :=
match dsets g with
| Indexed _ _ => mkGroup (attrs g) (Indexed i v)
| _ => g
end.

(** The file: the groups of the fields, by path. *)
Abbreviation Store := (gmap string H5Group).

(** [file[path]] *)
Definition group (path : string) : M Store H5Group :=
λ st, match st !! path with
      | Some g => (Ok g, st)
      | None => (Raise KeyError, st)
      end.

Definition set_group (path : string) (g : H5Group) : M Store unit :=
λ st, (Ok tt, <[path := g]> st).

(** ** ReadOnlyFieldArray and WriteableFieldArray *)

(** A key of [__getitem__] and [__setitem__]: an integer or the full slice
    [[:]]. *)
Inductive key :=
| KInt (i : Z)
| KAll.

Module ReadOnlyFieldArray.
Section ops.
Context {A : Type}.

Definition len : M (list A) Z := λ ds, (Ok (Z.of_nat (length ds)), ds).
Definition getitem_all : M (list A) (list A) := get.
Definition getitem (i : Z) : M (list A) A := λ ds, (np_item ds i, ds).
Definition setitem (k : key) (value : list A) : M (list A) unit :=
raise PermissionError.
Definition clear : M (list A) unit := raise PermissionError.
Definition write_part (part : list A) : M (list A) unit :=
raise PermissionError.
Definition write (part : list A) : M (list A) unit := raise PermissionError.
Definition complete : M (list A) unit := raise PermissionError.

End ops.
End ReadOnlyFieldArray.

Module WriteableFieldArray.
Section ops.
Context {A : Type}.

Definition len : M (list A) Z := λ ds, (Ok (Z.of_nat (length ds)), ds).
Definition getitem_all : M (list A) (list A) := get.
Definition getitem (i : Z) : M (list A) A := λ ds, (np_item ds i, ds).

(** [self._dataset[key] = value]: one element, or all of them by [[:]] (the
    shapes must agree). *)
Definition setitem (k : key) (value : list A) : M (list A) unit :=
λ ds, match k, value with
      | KAll, _ =>
          if decide (length value = length ds) then (Ok tt, value)
          else (Raise TypeError, ds)
      | KInt i, [x] =>
          let n := Z.of_nat (length ds) in
          if decide (- n ≤ i < n)
          then (Ok tt, <[Z.to_nat (if decide (i < 0) then i + n else i) := x]> ds)
          else (Raise IndexError, ds)
      | KInt _, _ => (Raise TypeError, ds)
      end.

Definition clear : M (list A) unit :=
λ ds, (Ok tt, DataWriter.write (DataWriter.clear_dataset ds) [] 0).

Definition write_part (part : list A) : M (list A) unit :=
λ ds, (Ok tt, DataWriter.write ds part (length part)).

Definition complete : M (list A) unit :=
λ ds, (Ok tt, DataWriter.flush ds).

Definition write (part : list A) : M (list A) unit :=
let* _ := (λ ds, (Ok tt, DataWriter.write ds part (length part))) in
complete.

End ops.
End WriteableFieldArray.

(** The array object a field hands out: the class follows the field's
    [_write_enabled]. *)
Module FieldArray.
Section ops.
Context {A : Type}.

Definition len (write_enabled : bool) : M (list A) Z :=
if write_enabled then WriteableFieldArray.len else ReadOnlyFieldArray.len.
Definition getitem_all (write_enabled : bool) : M (list A) (list A) :=
if write_enabled then WriteableFieldArray.getitem_all
else ReadOnlyFieldArray.getitem_all.
Definition getitem (write_enabled : bool) (i : Z) : M (list A) A :=
if write_enabled then WriteableFieldArray.getitem i
else ReadOnlyFieldArray.getitem i.
Definition setitem (write_enabled : bool) (k : key) (value : list A)
  : M (list A) unit :=
if write_enabled then WriteableFieldArray.setitem k value
else ReadOnlyFieldArray.setitem k value.
Definition clear (write_enabled : bool) : M (list A) unit :=
if write_enabled then WriteableFieldArray.clear else ReadOnlyFieldArray.clear.
Definition write_part (write_enabled : bool) (part : list A) : M (list A) unit :=
if write_enabled then WriteableFieldArray.write_part part
else ReadOnlyFieldArray.write_part part.
Definition write (write_enabled : bool) (part : list A) : M (list A) unit :=
if write_enabled then WriteableFieldArray.write part
else ReadOnlyFieldArray.write part.
Definition complete (write_enabled : bool) : M (list A) unit :=
if write_enabled then WriteableFieldArray.complete
else ReadOnlyFieldArray.complete.

End ops.
End FieldArray.

(** ** ReadOnlyIndexedFieldArray *)

Module ReadOnlyIndexedFieldArray.

(** The two arrays the object reads: [field['index']], [field['values']]. *)
Record t := mk {
  _index_dataset : list Z;
  _values_dataset : list byte;
}.

(** [__len__] *)
Definition len (a : t) : Z :=
Z.max (Z.of_nat (length (_index_dataset a)) - 1) 0.

(** [__getitem__(item)] for an [int]. *)
Definition getitem (a : t) (item : Z) : result string :=
if decide (item >= Z.of_nat (length (_index_dataset a)) - 1)
then Raise ValueError
else match py_slice (_index_dataset a) item (item + 2) with
     | [start; stop] =>
         if decide (start = stop) then Ok EmptyString
         else Ok (string_of_list_byte
                    (py_slice (_values_dataset a) start stop))
     | _ => Raise ValueError
     end.

Definition setitem_ (a : t) (k : key) (value : list string) : result t :=
Raise PermissionError.
Definition clear (a : t) : result t := Raise PermissionError.
Definition write_part (a : t) (part : list string) : result t :=
Raise PermissionError.
Definition write (a : t) (part : list string) : result t :=
Raise PermissionError.
Definition complete (a : t) : result t := Raise PermissionError.

End ReadOnlyIndexedFieldArray.

Module ROIFA := ReadOnlyIndexedFieldArray.

(** ** Field handles *)

(** The classes of [fields.py]. *)
Inductive field_class :=
| IndexedString
| FixedString
| Numeric
| Categorical
| Timestamp.

Global Instance field_class_eq_dec : EqDecision field_class.
Proof. solve_decision. Defined.

(** An [HDF5Field] object: its class, the group it is bound to (by path) and
    whether it was opened for writing.  Two handles on one path share the
    group. *)
Record HDF5Field := mkField {
  cls : field_class;
  _field : string;
  _write_enabled : bool;
}.

(** [field.attrs[k]] *)
Definition attr_of (g : H5Group) (k : string) : result attr :=
match attrs g !! k with
| Some a => Ok a
| None => Raise KeyError
end.

Module Field.

(** [HDF5Field.__init__(session, group, name=None, write_enabled=False)],
    with [group] given by path: the handle is bound to [group] itself or to
    [group[name]], whose [fieldtype] attribute it reads. *)
Definition init (c : field_class) (grp : string) (name : option string)
    (write_enabled : bool) : M Store HDF5Field :=
let path := match name with
            | None => grp
            | Some n => grp +:+ "/" +:+ n
            end in
let* g := group path in
let* _ := lift (attr_of g "fieldtype") in
ret (mkField c path write_enabled).

(** [writeable()]: a new handle of the same class on the same group. *)
Definition writeable (self : HDF5Field) : M Store HDF5Field :=
init (cls self) (_field self) None true.

(** The [timestamp] and [chunksize] properties. *)
Definition timestamp (self : HDF5Field) : M Store attr :=
let* g := group (_field self) in lift (attr_of g "timestamp").

Definition chunksize (self : HDF5Field) : M Store attr :=
let* g := group (_field self) in lift (attr_of g "chunksize").

(** A method of the array object [WriteableFieldArray(field, 'values')] or
    [ReadOnlyFieldArray(field, 'values')], run on the [values] array of the
    field's group; a method that raises leaves the file as it was. *)
Definition on_values {A} (self : HDF5Field) (m : M (list cell) A)
  : M Store A :=
λ st, match st !! _field self with
      | None => (Raise KeyError, st)
      | Some g =>
          match flat_values g with
          | Raise e => (Raise e, st)
          | Ok v =>
              match m v with
              | (Ok a, v') => (Ok a, <[_field self := set_flat_values g v']> st)
              | (Raise e, _) => (Raise e, st)
              end
          end
      end.

(** The same for the array objects on [index] and on [values] of an indexed
    string ([self.indices], [self.values]). *)
Definition on_indices {A} (self : HDF5Field) (m : M (list Z) A) : M Store A :=
λ st, match st !! _field self with
      | None => (Raise KeyError, st)
      | Some g =>
          match indexed_arrays g with
          | Raise e => (Raise e, st)
          | Ok (i, v) =>
              match m i with
              | (Ok a, i') => (Ok a, <[_field self := set_indexed_arrays g i' v]> st)
              | (Raise e, _) => (Raise e, st)
              end
          end
      end.

Definition on_bytes {A} (self : HDF5Field) (m : M (list byte) A) : M Store A :=
λ st, match st !! _field self with
      | None => (Raise KeyError, st)
      | Some g =>
          match indexed_arrays g with
          | Raise e => (Raise e, st)
          | Ok (i, v) =>
              match m v with
              | (Ok a, v') => (Ok a, <[_field self := set_indexed_arrays g i v']> st)
              | (Raise e, _) => (Raise e, st)
              end
          end
      end.

End Field.

(** ** operations (ops) *)

Module ops.

(** The rows of an indexed string, as the offsets delimit them. *)
Definition row_count (indices : list Z) : nat := pred (length indices).

Definition row_span (indices : list Z) (values : list byte) (i : nat)
  : list byte :=
py_slice values (default 0 (indices !! i)) (default 0 (indices !! S i)).

(** Fresh offsets, starting at 0, for the spans in their new order. *)
Fixpoint span_offsets (acc : Z) (spans : list (list byte)) : list Z :=
match spans with
| [] => []
| s :: spans =>
    let acc := acc + Z.of_nat (length s) in acc :: span_offsets acc spans
end.

(** Modelled from the spec: [ops.apply_indices_to_index_values] of
    [exetera/core/operations.py], which is not among the sources.  The
    indexed encoding "must recompute offsets: select/gather the per-row byte
    spans indicated by old offsets, concatenate in new order, emit fresh
    offsets starting at 0"; "out-of-range positions fail with IndexError". *)
Definition apply_indices_to_index_values (indices_to_apply : list Z)
    (indices : list Z) (values : list byte) : result (list Z * list byte) :=
let? spans :=
  traverse (λ i, if decide (0 ≤ i < Z.of_nat (row_count indices))
                 then Ok (row_span indices values (Z.to_nat i))
                 else Raise IndexError) indices_to_apply in
Ok (0 :: span_offsets 0 spans, concat spans).

(** Modelled from the spec: [ops.apply_filter_to_index_values], absent as
    well: the rows where the mask is true, in order, with fresh offsets; a
    mask whose length is not the row count is an [IndexError]. *)
Definition apply_filter_to_index_values (filter_to_apply : list bool)
    (indices : list Z) (values : list byte) : result (list Z * list byte) :=
if decide (length filter_to_apply = row_count indices) then
  let spans := select (map (row_span indices values)
                         (seq 0 (row_count indices))) filter_to_apply in
  Ok (0 :: span_offsets 0 spans, concat spans)
else Raise IndexError.

End ops.

(** ** The fixed-width field classes *)

(** [FixedStringField], [NumericField], [CategoricalField] and
    [TimestampField] define [data], [__len__], [apply_filter] and
    [apply_index] with the same bodies; they are written once here and named
    per class below. *)
Module FlatField.

(** [len(self.data)] *)
Definition data_len (self : HDF5Field) : M Store Z :=
Field.on_values self (FieldArray.len (_write_enabled self)).

(** [self.data[:]] *)
Definition data_all (self : HDF5Field) : M Store (list cell) :=
Field.on_values self (FieldArray.getitem_all (_write_enabled self)).

(** [self.data[item]] for an [int] *)
Definition data_getitem (self : HDF5Field) (item : Z) : M Store cell :=
Field.on_values self (FieldArray.getitem (_write_enabled self) item).

(** [self.data.dtype] *)
Definition data_dtype (self : HDF5Field) : M Store string :=
let* g := group (_field self) in lift (flat_dtype g).

(** The tail that [apply_filter] and [apply_index] share: write [result],
    an array of dtype [dtype], into [dstfld] (or into [self]), through a
    writable handle.  Both ways of writing store the elements in the dtype
    of the array of the destination: [dstfld.data[:] = result] hands them to
    h5py, [dstfld.data.write(result)] to [DataWriter.write] with that
    dtype, and this once the array has been cleared. *)
Definition store_result `{!Conversion} (self : HDF5Field) (dtype : string)
    (result : list cell) (dstfld : option HDF5Field) : M Store HDF5Field :=
let dstfld := match dstfld with None => self | Some d => d end in
let* dstfld := if negb (_write_enabled dstfld) then Field.writeable dstfld
               else ret dstfld in
let* n := data_len dstfld in
let* dst := data_dtype dstfld in
let* _ :=
  if decide (n = Z.of_nat (length result)) then
    let* value := lift (as_dtype h5py_setitem dtype dst result) in
    Field.on_values dstfld
      (FieldArray.setitem (_write_enabled dstfld) KAll value)
  else
    let* _ := Field.on_values dstfld
                (FieldArray.clear (_write_enabled dstfld)) in
    let* part := lift (as_dtype writer_astype dtype dst result) in
    Field.on_values dstfld (FieldArray.write (_write_enabled dstfld) part) in
ret dstfld.

(** [apply_filter(filter_to_apply, dstfld=None)]; [array[filter_to_apply]]
    has the dtype of [array]. *)
Definition apply_filter `{!Conversion} (self : HDF5Field)
    (filter_to_apply : list bool) (dstfld : option HDF5Field)
  : M Store HDF5Field :=
let* array := data_all self in
let* dtype := data_dtype self in
let* result := lift (np_mask array filter_to_apply) in
store_result self dtype result dstfld.

(** [apply_index(index_to_apply, dstfld=None)] *)
Definition apply_index `{!Conversion} (self : HDF5Field)
    (index_to_apply : list Z) (dstfld : option HDF5Field)
  : M Store HDF5Field :=
let* array := data_all self in
let* dtype := data_dtype self in
let* result := lift (np_take array index_to_apply) in
store_result self dtype result dstfld.

End FlatField.

Module NumericField.
Definition apply_filter `{!Conversion} := FlatField.apply_filter.
Definition apply_index `{!Conversion} := FlatField.apply_index.
End NumericField.

Module FixedStringField.
Definition apply_filter `{!Conversion} := FlatField.apply_filter.
Definition apply_index `{!Conversion} := FlatField.apply_index.
End FixedStringField.

Module CategoricalField.
Definition apply_filter `{!Conversion} := FlatField.apply_filter.
Definition apply_index `{!Conversion} := FlatField.apply_index.
End CategoricalField.

Module TimestampField.
Definition apply_filter `{!Conversion} := FlatField.apply_filter.
Definition apply_index `{!Conversion} := FlatField.apply_index.
End TimestampField.

(** ** IndexedStringField *)

Module IndexedStringField.

(** [self.indices[:]], [self.values[:]] *)
Definition indices_all (self : HDF5Field) : M Store (list Z) :=
Field.on_indices self (FieldArray.getitem_all (_write_enabled self)).

Definition values_all (self : HDF5Field) : M Store (list byte) :=
Field.on_bytes self (FieldArray.getitem_all (_write_enabled self)).

(** [self.data[item]] for an [int]: the array object is a
    [WriteableIndexedFieldArray] or a [ReadOnlyIndexedFieldArray], built
    over the field's arrays and its [chunksize] attribute. *)
Definition data_getitem (self : HDF5Field) (item : Z) : M Store string :=
let* g := group (_field self) in
let* iv := lift (indexed_arrays g) in
let i := iv.1 in
let v := iv.2 in
if _write_enabled self then
  let* c := lift (attr_of g "chunksize") in
  match c with
  | AttrInt c =>
      if decide (c < 0) then raise ValueError
      else lift (WIFA.getitem (WIFA.init i v (Z.to_nat c)) item)
  | AttrStr _ => raise TypeError
  end
else lift (ROIFA.getitem (ROIFA.mk i v) item).

(** The tail that [apply_filter] and [apply_index] share. *)
Definition store_result (self : HDF5Field) (dest_indices : list Z)
    (dest_values : list byte) (dstfld : option HDF5Field)
  : M Store HDF5Field :=
let dstfld := match dstfld with None => self | Some d => d end in
let* dstfld := if negb (_write_enabled dstfld) then Field.writeable dstfld
               else ret dstfld in
let we := _write_enabled dstfld in
let* n := Field.on_indices dstfld (FieldArray.len we) in
let* _ :=
  if decide (n = Z.of_nat (length dest_indices)) then
    Field.on_indices dstfld (FieldArray.setitem we KAll dest_indices)
  else
    let* _ := Field.on_indices dstfld (FieldArray.clear we) in
    Field.on_indices dstfld (FieldArray.write we dest_indices) in
let* m := Field.on_bytes dstfld (FieldArray.len we) in
let* _ :=
  if decide (m = Z.of_nat (length dest_values)) then
    Field.on_bytes dstfld (FieldArray.setitem we KAll dest_values)
  else
    let* _ := Field.on_bytes dstfld (FieldArray.clear we) in
    Field.on_bytes dstfld (FieldArray.write we dest_values) in
ret dstfld.

(** [apply_filter(filter_to_apply, dstfld=None)] *)
Definition apply_filter (self : HDF5Field) (filter_to_apply : list bool)
    (dstfld : option HDF5Field) : M Store HDF5Field :=
let* i := indices_all self in
let* v := values_all self in
let* dest := lift (ops.apply_filter_to_index_values filter_to_apply i v) in
store_result self dest.1 dest.2 dstfld.

(** [apply_index(index_to_apply, dstfld=None)] *)
Definition apply_index (self : HDF5Field) (index_to_apply : list Z)
    (dstfld : option HDF5Field) : M Store HDF5Field :=
let* i := indices_all self in
let* v := values_all self in
let* dest := lift (ops.apply_indices_to_index_values index_to_apply i v) in
store_result self dest.1 dest.2 dstfld.

End IndexedStringField.

(** ** Dispatch on the class of the field *)

Definition apply_filter `{!Conversion} (self : HDF5Field)
    (filter_to_apply : list bool) (dstfld : option HDF5Field)
  : M Store HDF5Field :=
match cls self with
| IndexedString => IndexedStringField.apply_filter self filter_to_apply dstfld
| FixedString => FixedStringField.apply_filter self filter_to_apply dstfld
| Numeric => NumericField.apply_filter self filter_to_apply dstfld
| Categorical => CategoricalField.apply_filter self filter_to_apply dstfld
| Timestamp => TimestampField.apply_filter self filter_to_apply dstfld
end.

Definition apply_index `{!Conversion} (self : HDF5Field)
    (index_to_apply : list Z) (dstfld : option HDF5Field)
  : M Store HDF5Field :=
match cls self with
| IndexedString => IndexedStringField.apply_index self index_to_apply dstfld
| FixedString => FixedStringField.apply_index self index_to_apply dstfld
| Numeric => NumericField.apply_index self index_to_apply dstfld
| Categorical => CategoricalField.apply_index self index_to_apply dstfld
| Timestamp => TimestampField.apply_index self index_to_apply dstfld
end.

(** One row of a field, read through [self.data[item]]. *)
Inductive row :=
| RowCell (c : cell)
| RowStr (s : string).

Global Instance row_eq_dec : EqDecision row.
Proof. solve_decision. Defined.

Definition row_at (self : HDF5Field) (item : Z) : M Store row :=
match cls self with
| IndexedString =>
    let* s := IndexedStringField.data_getitem self item in ret (RowStr s)
| _ => let* c := FlatField.data_getitem self item in ret (RowCell c)
end.

(** ** Vocabulary of the field properties *)

(** The arrays of an indexed string that holds the strings [ss]; a field in
    which nothing was written yet has an empty index array. *)
Definition holds (ss : list string) (index : list Z) (values : list byte)
  : Prop :=
values = flat ss
∧ (index = 0 :: offsets_from 0 ss ∨ (ss = [] ∧ index = [])).

(** The group of a field handle is in the file, carries the attributes its
    methods read and has the arrays of its class. *)
Definition bound (st : Store) (f : HDF5Field) : Prop :=
∃ g, st !! _field f = Some g
     ∧ is_Some (attrs g !! "fieldtype")
     ∧ match cls f with
       | IndexedString =>
           (∃ i v, dsets g = Indexed i v)
           ∧ ∃ c, attrs g !! "chunksize" = Some (AttrInt c) ∧ 0 ≤ c
       | _ => ∃ v, flat_values g = Ok v
       end.

(** The field [f] holds exactly the rows [rows]. *)
Definition field_rows (st : Store) (f : HDF5Field) (rows : list row) : Prop :=
bound st f
∧ ∃ g, st !! _field f = Some g
       ∧ match cls f with
         | IndexedString =>
             ∃ ss i v, dsets g = Indexed i v ∧ holds ss i v
                       ∧ rows = map RowStr ss
         | _ => ∃ v, flat_values g = Ok v ∧ rows = map RowCell v
         end.

(** The dtype of the [values] array of a fixed-width field, if the field is
    in the file and has one. *)
Definition values_dtype (st : Store) (f : HDF5Field) : option string :=
match st !! _field f with
| Some g => match flat_dtype g with Ok dtype => Some dtype | Raise _ => None end
| None => None
end.

(** A destination handed to [apply_filter] or [apply_index]: absent, or a
    field of the same class bound in the file whose [values] array, for a
    fixed-width class, has the dtype of the array of the source. *)
Definition destination (st : Store) (self : HDF5Field)
    (dstfld : option HDF5Field) : Prop :=
match dstfld with
| None => True
| Some d =>
    cls d = cls self ∧ bound st d ∧ values_dtype st d = values_dtype st self
end.

(** The positions [apply_index] accepts for a field of [n] rows: numpy
    counts negative positions of a fixed-width array from the end. *)
Definition position_ok (c : field_class) (n : Z) (i : Z) : Prop :=
match c with
| IndexedString => 0 ≤ i < n
| _ => - n ≤ i < n
end.

(** The row a position stands for. *)
Definition position_row (n : Z) (i : Z) : nat :=
Z.to_nat (if decide (i < 0) then i + n else i).

(** The mutating calls of an array object. *)
Inductive mutation (A : Type) :=
| MSetItem (k : key) (value : list A)
| MClear
| MWritePart (part : list A)
| MWrite (part : list A)
| MComplete.
Arguments MSetItem {A} k value.
Arguments MClear {A}.
Arguments MWritePart {A} part.
Arguments MWrite {A} part.
Arguments MComplete {A}.

Definition mutate {A} (write_enabled : bool) (m : mutation A)
  : M (list A) unit :=
match m with
| MSetItem k value => FieldArray.setitem write_enabled k value
| MClear => FieldArray.clear write_enabled
| MWritePart part => FieldArray.write_part write_enabled part
| MWrite part => FieldArray.write write_enabled part
| MComplete => FieldArray.complete write_enabled
end.

(** The same calls on the [data] object of a read-only indexed string. *)
Definition mutate_indexed (a : ROIFA.t) (m : mutation string)
  : result ROIFA.t :=
match m with
| MSetItem k value => ROIFA.setitem_ a k value
| MClear => ROIFA.clear a
| MWritePart part => ROIFA.write_part a part
| MWrite part => ROIFA.write a part
| MComplete => ROIFA.complete a
end.

(** ** Examples *)

(** A numeric field of three rows and an indexed string of three rows, and
    an empty indexed string, in one file. *)
Definition example_attrs (fieldtype : string) : gmap string attr :=
{[ "fieldtype" := AttrStr fieldtype;
   "chunksize" := AttrInt 4;
   "timestamp" := AttrInt 4 ]}.

Definition example_store : Store :=
{[ "/df/a" := mkGroup (<["nformat" := AttrStr "int32"]>
                         (example_attrs "numeric,int32"))
                (Flat "int32" [CInt 10; CInt 20; CInt 30]);
   "/df/s" := mkGroup (example_attrs "indexedstring")
                (Indexed (0 :: offsets_from 0 ["ab"; ""; "cde"])
                   (flat ["ab"; ""; "cde"]));
   "/df2/s" := mkGroup (example_attrs "indexedstring") (Indexed [] []) ]}.

(** A conversion for the examples.  Between the integer dtypes it goes as
    HDF5 does, a value beyond the bounds of the destination being clipped to
    them; a Python [int] assigned into an array of an integer dtype is cast
    as [cast_int] does; anything else is refused. *)
Definition clip (dtype : string) (c : cell) : result cell :=
match int_dtype dtype, c with
| Some (signed, bits), CInt z =>
    Ok (CInt (Z.max (int_min signed bits) (Z.min z (int_max signed bits))))
| _, _ => Raise TypeError
end.

Definition example_conversion : Conversion :=
{| h5py_setitem := λ _ dst, clip dst;
   writer_astype := λ _ dst, clip dst;
   np_assign := λ dst c,
     match int_dtype dst, c with
     | Some _, CInt z => Ok (CInt (cast_int dst z))
     | _, _ => Raise ValueError
     end |}.

Definition example_numeric : HDF5Field := mkField Numeric "/df/a" false.
Definition example_indexed : HDF5Field := mkField IndexedString "/df/s" false.
Definition example_target : HDF5Field := mkField IndexedString "/df2/s" true.

Definition example_numeric_rows : list row :=
[RowCell (CInt 10); RowCell (CInt 20); RowCell (CInt 30)].

Definition example_indexed_rows : list row :=
[RowStr "ab"; RowStr ""; RowStr "cde"].

(** * Data frames *)

(** ** Python calls

    [dataframe.py] and [fields.py] call into each other with positional and
    keyword arguments; where a call site and the signature it reaches
    disagree, Python raises [TypeError] when it binds the arguments.  Such
    calls go through [bind_arguments]; a call whose arguments fit its
    signature is written as a plain application. *)

(** What is passed across those calls. *)
Inductive pyobj :=
| PyNone
| PyBool (b : bool)
| PyInt (z : Z)
| PyStr (s : string)
| PyMask (mask : list bool)
| PyIndex (index : list Z)
| PyDict (keys : list (string * Z))
| PySession
| PyGroup (path : string)
| PyFrame (df : string)
| PyField (f : HDF5Field).

(** A signature: the parameters after [self], each with its default if it
    has one. *)
Definition signature := list (string * option pyobj).

Fixpoint bind_positional (params : list string) (args : list pyobj)
  : result (list (string * pyobj)) :=
match args, params with
| [], _ => Ok []
| a :: args, p :: params =>
    let? rest := bind_positional params args in Ok ((p, a) :: rest)
| _ :: _, [] => Raise TypeError
end.

Fixpoint bind_keywords (params : list string) (bound : list (string * pyobj))
    (kwargs : list (string * pyobj)) : result (list (string * pyobj)) :=
match kwargs with
| [] => Ok bound
| (k, v) :: kwargs =>
    if negb (bool_decide (k ∈ params)) then Raise TypeError
    else if bool_decide (k ∈ bound.*1) then Raise TypeError
    else bind_keywords params (bound ++ [(k, v)]) kwargs
end.

Fixpoint bind_defaults (sg : signature) (bound : list (string * pyobj))
  : result (list (string * pyobj)) :=
match sg with
| [] => Ok []
| (p, d) :: sg =>
    let? rest := bind_defaults sg bound in
    match list_find (λ kv, kv.1 = p) bound, d with
    | Some (_, kv), _ => Ok (kv :: rest)
    | None, Some v => Ok ((p, v) :: rest)
    | None, None => Raise TypeError
    end
end.

(** Python's binding of the arguments of a call to the parameters: too many
    positional arguments, an unknown keyword, a parameter given twice and a
    parameter left without a value are [TypeError]s. *)
Definition bind_arguments (sg : signature) (args : list pyobj)
    (kwargs : list (string * pyobj)) : result (list (string * pyobj)) :=
let? bound := bind_positional sg.*1 args in
let? bound := bind_keywords sg.*1 bound kwargs in
bind_defaults sg bound.

(** The value bound to a parameter. *)
Definition arg (env : list (string * pyobj)) (p : string) : pyobj :=
match list_find (λ kv, kv.1 = p) env with
| Some (_, kv) => kv.2
| None => PyNone
end.

(** ** The session, the file and the data frames *)

Record Session := mkSession {
  chunksize : Z;
}.

(** A dict with string keys, in insertion order. *)
Definition dict (V : Type) : Type := list (string * V).

Definition dict_contains {V} (d : dict V) (k : string) : bool :=
bool_decide (k ∈ d.*1).

Definition dict_get {V} (d : dict V) (k : string) : option V :=
match list_find (λ kv, kv.1 = k) d with
| Some (_, kv) => Some kv.2
| None => None
end.

Fixpoint dict_set `{EqDecision K} {V} (d : list (K * V)) (k : K) (v : V)
  : list (K * V) :=
match d with
| [] => [(k, v)]
| (k', v') :: d =>
    if decide (k' = k) then (k, v) :: d else (k', v') :: dict_set d k v
end.

(** [dict(pairs)] *)
Definition dict_of `{EqDecision K} {V} (pairs : list (K * V)) : list (K * V) :=
foldl (λ d kv, dict_set d kv.1 kv.2) [] pairs.

Definition dict_del {V} (d : dict V) (k : string) : dict V :=
filter (λ kv, kv.1 ≠ k) d.

(** The state the data-frame methods work on: the session, the groups of
    the file by path, and the [_columns] dict of every [HDF5DataFrame]
    object, by the path of its [_h5group]. *)
Record World := mkWorld {
  session : Session;
  file : Store;
  frames : gmap string (dict HDF5Field);
}.

(** A method of a field, run on the file of the world. *)
Definition in_file {A} (m : M Store A) : M World A :=
λ w, let '(r, st) := m (file w) in (r, mkWorld (session w) st (frames w)).

Definition child (path name : string) : string := path +:+ "/" +:+ name.

(** The [_columns] of a data frame, and their update. *)
Definition columns (df : string) : M World (dict HDF5Field) :=
λ w, match frames w !! df with
     | Some c => (Ok c, w)
     | None => (Raise KeyError, w)
     end.

Definition set_columns (df : string) (c : dict HDF5Field) : M World unit :=
λ w, (Ok tt, mkWorld (session w) (file w) (<[df := c]> (frames w))).

(** [group.create_group(name)] of h5py: the name must be new. *)
Definition h5_create_group (path name : string) : M World string :=
λ w, match file w !! child path name with
     | Some _ => (Raise ValueError, w)
     | None =>
         (Ok (child path name),
          mkWorld (session w)
            (<[child path name := mkGroup ∅ NoArrays]> (file w)) (frames w))
     end.

(** [del group[name]] of h5py. *)
Definition h5_delete (path name : string) : M World unit :=
λ w, match file w !! child path name with
     | Some _ =>
         (Ok tt,
          mkWorld (session w) (delete (child path name) (file w)) (frames w))
     | None => (Raise KeyError, w)
     end.

(** [field.attrs[k] = v] *)
Definition set_attr (path k : string) (v : attr) : M World unit :=
λ w, match file w !! path with
     | Some g =>
         (Ok tt,
          mkWorld (session w)
            (<[path := mkGroup (<[k := v]> (attrs g)) (dsets g)]> (file w))
            (frames w))
     | None => (Raise KeyError, w)
     end.

(** The first [DataWriter.write] calls of a constructor: they create the
    arrays of the group. *)
Definition create_arrays (path : string) (a : arrays) : M World unit :=
λ w, match file w !! path with
     | Some g =>
         (Ok tt,
          mkWorld (session w) (<[path := mkGroup (attrs g) a]> (file w))
            (frames w))
     | None => (Raise KeyError, w)
     end.

(** The [group] argument of the field constructors: an h5py group or a data
    frame; both answer [name in group] and [group.create_group(name)]. *)
Inductive parent :=
| GroupParent (path : string)
| FrameParent (df : string).

Definition parent_path (p : parent) : string :=
match p with GroupParent path => path | FrameParent df => df end.

(** [HDF5DataFrame.__contains__(name)] *)
Definition frame_contains (df : string) (name : pyobj) : M World bool :=
match name with
| PyStr n => let* c := columns df in ret (dict_contains c n)
| _ => raise TypeError
end.

(** [name in group] *)
Definition parent_contains (p : parent) (name : string) : M World bool :=
match p with
| GroupParent path => λ w, (Ok (bool_decide (is_Some (file w !! child path name))), w)
| FrameParent df => frame_contains df (PyStr name)
end.

(** [HDF5DataFrame.create_group(name)] and h5py's: the group is made in the
    file and returned. *)
Definition parent_create_group (p : parent) (name : string) : M World string :=
h5_create_group (parent_path p) name.

(** ** The field constructors of fields.py *)

(** [base_field_contructor(session, group, name, timestamp=None,
    chunksize=None)] *)
Definition base_field_contructor (s : Session) (group : parent)
    (name : string) (timestamp : pyobj) (chunksize' : option Z)
  : M World string :=
let* exists_ := parent_contains group name in
if exists_ then raise ValueError
else
  let* field := parent_create_group group name in
  let* _ := set_attr field "chunksize"
              (AttrInt (match chunksize' with
                        | None => chunksize s
                        | Some c => c
                        end)) in
  let* _ := set_attr field "timestamp"
              (AttrInt (match chunksize' with
                        | None => chunksize s
                        | Some c => c
                        end)) in
  ret field.

Definition indexed_string_field_constructor (s : Session) (group : parent)
    (name : string) (timestamp : pyobj) (chunksize' : option Z)
  : M World string :=
let* field := base_field_contructor s group name timestamp chunksize' in
let* _ := set_attr field "fieldtype" (AttrStr "indexedstring") in
let* _ := create_arrays field
            (Indexed (DataWriter.write [] [] 0) (DataWriter.write [] [] 0)) in
ret field.

Definition fixed_string_field_constructor (s : Session) (group : parent)
    (name : string) (length : Z) (timestamp : pyobj) (chunksize' : option Z)
  : M World string :=
let* field := base_field_contructor s group name timestamp chunksize' in
let* _ := set_attr field "fieldtype"
            (AttrStr ("fixedstring," +:+ pretty length)) in
let* _ := set_attr field "strlen" (AttrInt length) in
let* _ := create_arrays field
            (Flat ("S" +:+ pretty length) (DataWriter.write [] [] 0)) in
ret field.

Definition numeric_field_constructor (s : Session) (group : parent)
    (name : string) (nformat : string) (timestamp : pyobj)
    (chunksize' : option Z) : M World string :=
let* field := base_field_contructor s group name timestamp chunksize' in
let* _ := set_attr field "fieldtype" (AttrStr ("numeric," +:+ nformat)) in
let* _ := set_attr field "nformat" (AttrStr nformat) in
let* _ := create_arrays field (Flat nformat (DataWriter.write [] [] 0)) in
ret field.

(** [key_values] is written with the dtype [int8] whatever [nformat] is:
    the codes are stored as 8-bit integers, a code beyond [-128 .. 127]
    being cast to them. *)
Definition categorical_field_constructor (s : Session) (group : parent)
    (name : string) (nformat : string) (key : dict Z) (timestamp : pyobj)
    (chunksize' : option Z) : M World string :=
let* field := base_field_contructor s group name timestamp chunksize' in
let* _ := set_attr field "fieldtype" (AttrStr ("categorical," +:+ nformat)) in
let* _ := set_attr field "nformat" (AttrStr nformat) in
let key_values := key.*2 in
let key_names := key.*1 in
let* _ := create_arrays field
            (Keyed nformat (DataWriter.write [] [] 0)
               (DataWriter.write [] (cast_int "int8" <$> key_values)
                  (length key_values))
               (DataWriter.write [] key_names (length key_names))) in
ret field.

Definition timestamp_field_constructor (s : Session) (group : parent)
    (name : string) (timestamp : pyobj) (chunksize' : option Z)
  : M World string :=
let* field := base_field_contructor s group name timestamp chunksize' in
let* _ := set_attr field "fieldtype" (AttrStr "timestamp") in
let* _ := create_arrays field (Flat "float64" (DataWriter.write [] [] 0)) in
ret field.

(** The five constructors, by what they are asked to make. *)
Inductive encoding :=
| EIndexedString
| EFixedString (length : Z)
| ENumeric (nformat : string)
| ECategorical (nformat : string) (key : dict Z)
| ETimestamp.

Definition field_constructor (e : encoding) (s : Session) (group : parent)
    (name : string) (timestamp : pyobj) (chunksize' : option Z)
  : M World string :=
match e with
| EIndexedString =>
    indexed_string_field_constructor s group name timestamp chunksize'
| EFixedString length =>
    fixed_string_field_constructor s group name length timestamp chunksize'
| ENumeric nformat =>
    numeric_field_constructor s group name nformat timestamp chunksize'
| ECategorical nformat key =>
    categorical_field_constructor s group name nformat key timestamp chunksize'
| ETimestamp => timestamp_field_constructor s group name timestamp chunksize'
end.

Definition encoding_class (e : encoding) : field_class :=
match e with
| EIndexedString => IndexedString
| EFixedString _ => FixedString
| ENumeric _ => Numeric
| ECategorical _ _ => Categorical
| ETimestamp => Timestamp
end.

(** ** Field methods that data frames call *)

Definition attr_obj (a : attr) : pyobj :=
match a with
| AttrInt z => PyInt z
| AttrStr s => PyStr s
end.

(** The [group] that [create_like] is handed: an object whose
    [create_<encoding>] methods are called with positional and keyword
    arguments; the methods are told apart by the class they make. *)
Definition group_object : Type :=
field_class → list pyobj → list (string * pyobj) → M World HDF5Field.

(** [CategoricalField.keys]: [dict(zip(key_values, key_names))]. *)
Definition categorical_keys (self : HDF5Field) : M World (list (Z * string)) :=
let* g := in_file (group (_field self)) in
match dsets g with
| Keyed _ _ kv kn => ret (dict_of (zip kv kn))
| _ => raise KeyError
end.

(** [create_like(self, group, name, timestamp=None)], class by class: the
    metadata of the field is read and [group.create_<encoding>(
    self._session, name, ..., ts, self.chunksize)] is called. *)
Definition create_like (self : HDF5Field) (grp : group_object)
    (name : string) (timestamp : pyobj) : M World HDF5Field :=
let* ts := match timestamp with
           | PyNone => let* a := in_file (Field.timestamp self) in
                       ret (attr_obj a)
           | _ => ret timestamp
           end in
match cls self with
| IndexedString =>
    let* cs := in_file (Field.chunksize self) in
    grp IndexedString [PySession; PyStr name; ts; attr_obj cs] []
| FixedString =>
    let* g := in_file (group (_field self)) in
    let* length := lift (attr_of g "strlen") in
    let* cs := in_file (Field.chunksize self) in
    grp FixedString [PySession; PyStr name; attr_obj length; ts; attr_obj cs] []
| Numeric =>
    let* g := in_file (group (_field self)) in
    let* nformat := lift (attr_of g "nformat") in
    let* cs := in_file (Field.chunksize self) in
    grp Numeric [PySession; PyStr name; attr_obj nformat; ts; attr_obj cs] []
| Categorical =>
    let* g := in_file (group (_field self)) in
    let nformat := match attrs g !! "nformat" with
                   | Some a => attr_obj a
                   | None => PyStr "int8"
                   end in
    let* keys := categorical_keys self in
    let keys := dict_of (map (λ kv, (kv.2, kv.1)) keys) in
    let* cs := in_file (Field.chunksize self) in
    grp Categorical
      [PySession; PyStr name; nformat; PyDict keys; ts; attr_obj cs] []
| Timestamp =>
    let* cs := in_file (Field.chunksize self) in
    grp Timestamp [PySession; PyStr name; ts; attr_obj cs] []
end.

(** [apply_filter(self, filter_to_apply, dstfld=None)] and
    [apply_index(self, index_to_apply, dstfld=None)] as every field class
    declares them. *)
Definition apply_filter_signature : signature :=
[("filter_to_apply", None); ("dstfld", Some PyNone)].
Definition apply_index_signature : signature :=
[("index_to_apply", None); ("dstfld", Some PyNone)].

(** A call [field.apply_filter(...)]: the arguments are bound, then the
    method of the field's class runs. *)
Definition call_apply_filter `{!Conversion} (field : HDF5Field)
    (args : list pyobj) (kwargs : list (string * pyobj))
  : M World HDF5Field :=
let* env := lift (bind_arguments apply_filter_signature args kwargs) in
match arg env "filter_to_apply", arg env "dstfld" with
| PyMask m, PyNone => in_file (apply_filter field m None)
| PyMask m, PyField d => in_file (apply_filter field m (Some d))
| _, _ => raise TypeError
end.

Definition call_apply_index `{!Conversion} (field : HDF5Field)
    (args : list pyobj) (kwargs : list (string * pyobj))
  : M World HDF5Field :=
let* env := lift (bind_arguments apply_index_signature args kwargs) in
match arg env "index_to_apply", arg env "dstfld" with
| PyIndex i, PyNone => in_file (apply_index field i None)
| PyIndex i, PyField d => in_file (apply_index field i (Some d))
| _, _ => raise TypeError
end.

(** ** HDF5DataFrame *)

Module HDF5DataFrame.

(** [HDF5Field.__init__(self, session, group, name=None,
    write_enabled=False)], the signature every field class inherits. *)
Definition field_init_signature : signature :=
[("session", None); ("group", None); ("name", Some PyNone);
 ("write_enabled", Some (PyBool false))].

(** A call [fld.<Class>(...)]: the arguments are bound, then [__init__]
    runs. *)
Definition new_field (c : field_class) (args : list pyobj)
    (kwargs : list (string * pyobj)) : M World HDF5Field :=
let* env := lift (bind_arguments field_init_signature args kwargs) in
match arg env "group", arg env "name", arg env "write_enabled" with
| PyGroup p, PyNone, PyBool b => in_file (Field.init c p None b)
| PyGroup p, PyStr n, PyBool b => in_file (Field.init c p (Some n) b)
| _, _, _ => raise TypeError
end.

(** [__contains__(name)] *)
Definition contains (self : string) (name : pyobj) : M World bool :=
frame_contains self name.

(** [__getitem__(name)] *)
Definition getitem (self : string) (name : pyobj) : M World HDF5Field :=
match name with
| PyStr n =>
    let* present := contains self name in
    if negb present then raise ValueError
    else
      let* c := columns self in
      match dict_get c n with
      | Some f => ret f
      | None => raise KeyError
      end
| _ => raise TypeError
end.

(** [__delitem__(name)] *)
Definition delitem (self : string) (name : pyobj) : M World unit :=
let* present := contains self name in
if negb present then raise ValueError
else
  match name with
  | PyStr n =>
      let* _ := h5_delete self n in
      let* c := columns self in
      set_columns self (dict_del c n)
  | _ => raise TypeError
  end.

(** [create_indexed_string], [create_fixed_string], [create_numeric],
    [create_categorical] and [create_timestamp] have one shape: the field
    constructor of the encoding, then
    [fld.<Class>(session, self._h5group[name], self, name,
    write_enabled=True)], then [self._columns[name] = field]. *)
Definition create (e : encoding) (self : string) (name : string)
    (timestamp : pyobj) (chunksize' : option Z) : M World HDF5Field :=
let* s := (λ w, (Ok (session w), w)) in
let* _ := field_constructor e s (FrameParent self) name timestamp chunksize' in
let* field := new_field (encoding_class e)
                [PySession; PyGroup (child self name); PyFrame self; PyStr name]
                [("write_enabled", PyBool true)] in
let* c := columns self in
let* _ := set_columns self (dict_set c name field) in
ret field.

Definition create_indexed_string := create EIndexedString.
Definition create_fixed_string (self name : string) (length : Z) :=
create (EFixedString length) self name.
Definition create_numeric (self name nformat : string) :=
create (ENumeric nformat) self name.
Definition create_categorical (self name nformat : string) (key : dict Z) :=
create (ECategorical nformat key) self name.
Definition create_timestamp := create ETimestamp.

(** The signatures of the five, after [self]. *)
Definition create_indexed_string_signature : signature :=
[("name", None); ("timestamp", Some PyNone); ("chunksize", Some PyNone)].
Definition create_fixed_string_signature : signature :=
[("name", None); ("length", None); ("timestamp", Some PyNone);
 ("chunksize", Some PyNone)].
Definition create_numeric_signature : signature :=
[("name", None); ("nformat", None); ("timestamp", Some PyNone);
 ("chunksize", Some PyNone)].
Definition create_categorical_signature : signature :=
[("name", None); ("nformat", None); ("key", None);
 ("timestamp", Some PyNone); ("chunksize", Some PyNone)].
Definition create_timestamp_signature : signature :=
[("name", None); ("timestamp", Some PyNone); ("chunksize", Some PyNone)].

Definition optional_int (o : pyobj) : result (option Z) :=
match o with
| PyNone => Ok None
| PyInt z => Ok (Some z)
| _ => Raise TypeError
end.

(** A call [group.create_<encoding>(...)] on a data frame, as
    [create_like] of [fields.py] makes it: the arguments are bound to the
    signature of the method, then the method runs. *)
Definition call_create (c : field_class) (self : string) (args : list pyobj)
    (kwargs : list (string * pyobj)) : M World HDF5Field :=
match c with
| IndexedString =>
    let* env := lift (bind_arguments create_indexed_string_signature
                        args kwargs) in
    let* cs := lift (optional_int (arg env "chunksize")) in
    match arg env "name" with
    | PyStr name => create_indexed_string self name (arg env "timestamp") cs
    | _ => raise TypeError
    end
| FixedString =>
    let* env := lift (bind_arguments create_fixed_string_signature
                        args kwargs) in
    let* cs := lift (optional_int (arg env "chunksize")) in
    match arg env "name", arg env "length" with
    | PyStr name, PyInt length =>
        create_fixed_string self name length (arg env "timestamp") cs
    | _, _ => raise TypeError
    end
| Numeric =>
    let* env := lift (bind_arguments create_numeric_signature args kwargs) in
    let* cs := lift (optional_int (arg env "chunksize")) in
    match arg env "name", arg env "nformat" with
    | PyStr name, PyStr nformat =>
        create_numeric self name nformat (arg env "timestamp") cs
    | _, _ => raise TypeError
    end
| Categorical =>
    let* env := lift (bind_arguments create_categorical_signature
                        args kwargs) in
    let* cs := lift (optional_int (arg env "chunksize")) in
    match arg env "name", arg env "nformat", arg env "key" with
    | PyStr name, PyStr nformat, PyDict key =>
        create_categorical self name nformat key (arg env "timestamp") cs
    | _, _, _ => raise TypeError
    end
| Timestamp =>
    let* env := lift (bind_arguments create_timestamp_signature args kwargs) in
    let* cs := lift (optional_int (arg env "chunksize")) in
    match arg env "name" with
    | PyStr name => create_timestamp self name (arg env "timestamp") cs
    | _ => raise TypeError
    end
end.

(** [apply_filter(filter_to_apply, ddf=None)] *)
Definition apply_filter `{!Conversion} (self : string)
    (filter_to_apply : list bool) (ddf : pyobj) : M World string :=
match ddf with
| PyNone =>
    let* c := columns self in
    let* _ := for_ c.*2
                (λ field,
                   let* _ := call_apply_filter field [PyMask filter_to_apply]
                               [("in_place", PyBool true)] in
                   ret tt) in
    ret self
| PyFrame d =>
    let* c := columns self in
    let* _ := for_ c
                (λ nf,
                   let* newfld := create_like nf.2 (λ c, call_create c d)
                                    nf.1 PyNone in
                   let* _ := call_apply_filter nf.2 [PyMask filter_to_apply]
                               [("target", PyField newfld)] in
                   ret tt) in
    ret d
| _ => raise TypeError
end.

(** [apply_index(index_to_apply, ddf=None)] *)
Definition apply_index `{!Conversion} (self : string)
    (index_to_apply : list Z) (ddf : pyobj) : M World string :=
match ddf with
| PyNone =>
    let* c := columns self in
    let* _ := for_ c.*2
                (λ field,
                   let* _ := call_apply_index field [PyIndex index_to_apply]
                               [("in_place", PyBool true)] in
                   ret tt) in
    ret self
| PyFrame d =>
    let* c := columns self in
    let* _ := for_ c
                (λ nf,
                   let* newfld := create_like nf.2 (λ c, call_create c d)
                                    nf.1 PyNone in
                   let* _ := call_apply_index nf.2 [PyIndex index_to_apply]
                               [("target", PyField newfld)] in
                   ret tt) in
    ret d
| _ => raise TypeError
end.

End HDF5DataFrame.

(** The data frames of [test_apply_filter] in [tests/test_dataframe.py]:
    [df] with the int32 field [numf] holding 1..8, and the empty [df2]. *)
Definition test_store : Store :=
{[ "/df/numf" :=
     mkGroup {[ "fieldtype" := AttrStr "numeric,int32";
                "nformat" := AttrStr "int32";
                "chunksize" := AttrInt 16;
                "timestamp" := AttrInt 16 ]}
       (Flat "int32" (CInt <$> [1; 2; 3; 4; 5; 6; 7; 8])) ]}.

Definition test_world : World :=
mkWorld (mkSession 16) test_store
  {[ "/df" := [("numf", mkField Numeric "/df/numf" true)];
     "/df2" := [] ]}.

Definition test_filter : list bool :=
[false; true; false; true; false; true; true; false].

(** * Slices of the indexed array objects (fields.py) *)

(** The arrays of a field in which [ss] was written by the writer of
    fields.py. *)
Definition index_of (ss : list string) : list Z :=
match ss with [] => [] | _ => 0 :: offsets_from 0 ss end.


(** The loop [for ir in range(rmax)] of [__getitem__] for a slice: row
    [ir] is cut out of [bytestr] between [index[ir]] and [index[ir + 1]],
    each moved back by [startindex]. *)
Definition slice_row (index : list Z) (bytestr : list byte) (startindex : Z)
    (results : list (option string)) (ir : nat)
  : result (list (option string)) :=
let? a := np_item index (Z.of_nat ir) in
let? b := np_item index (Z.of_nat ir + 1) in
setitem results ir
  (Some (string_of_list_byte
           (py_slice bytestr (a - startindex) (b - startindex)))).

(** [__getitem__(item)] for [item = slice(start, stop, step)], of
    [WriteableIndexedFieldArray] ([bounded], with its [rmax]) and of
    [ReadOnlyIndexedFieldArray]; a bound left out is [None], the step is
    read and not used.  The arrays are sliced as h5py 3 and numpy slice
    them, like Python sequences. *)
Definition getitem_slice (bounded : bool) (index_dataset : list Z)
    (values_dataset : list byte) (start stop : option Z)
  : result (list (option string)) :=
let start := default 0 start in
let stop := default (Z.of_nat (length index_dataset) - 1) stop in
let index := py_slice index_dataset start (stop + 1) in
let? first := np_item index 0 in
let? last := np_item index (-1) in
let bytestr := py_slice values_dataset first last in
let results := replicate (length index - 1) None in
let startindex := start in
let rmax := if bounded
            then Z.to_nat (Z.min (Z.of_nat (length results)) (stop - start))
            else length results in
for_each (slice_row index bytestr startindex) (seq 0 rmax) results.

(** ** len() *)

(** The builtin [len(x)]: a negative answer of [x.__len__()] is a
    [ValueError]. *)
Definition py_len (n : Z) : result Z :=
if decide (n < 0) then Raise ValueError else Ok n.

(** [len(self.data)] of an indexed string, which is what
    [IndexedStringField.__len__] returns: the array object is a
    [WriteableIndexedFieldArray] or a [ReadOnlyIndexedFieldArray], built
    over the field's arrays and its [chunksize] attribute. *)
Definition indexed_data_len (self : HDF5Field) : M Store Z :=
let* g := group (_field self) in
let* iv := lift (indexed_arrays g) in
if _write_enabled self then
  let* c := lift (attr_of g "chunksize") in
  match c with
  | AttrInt c =>
      if decide (c < 0) then raise ValueError
      else lift (py_len (WIFA.len (WIFA.init iv.1 iv.2 (Z.to_nat c))))
  | AttrStr _ => raise TypeError
  end
else lift (py_len (ROIFA.len (ROIFA.mk iv.1 iv.2))).

(** [len(field.data)] of a key column. *)
Definition key_len (f : HDF5Field) : M World Z :=
match cls f with
| IndexedString => in_file (indexed_data_len f)
| _ => in_file (FlatField.data_len f)
end.

(** * merge (dataframe.py) *)

Inductive how :=
| Left
| Right
| Inner
| Outer.

(** The positions of the rows of [keys] whose key is [k]. *)
Definition positions_of (keys : list row) (k : row) : list nat :=
(λ ik, ik.1) <$> filter (λ ik, ik.2 = k) (imap (λ i x, (i, x)) keys).

(** Modelled from the spec: [pandas.merge] on the two key columns, an
    external library.  "For each right row position r, probe the map: every
    match produces one output row pairing (l, r); if how includes outer-right
    and there is no match, emit (null, r); symmetric handling for unmatched
    left rows when how includes outer-left."  The result is the list of
    destination rows, each with its left and its right source position. *)
Definition pd_merge (h : how) (l_k r_k : list row)
  : list (option nat * option nat) :=
let keep_left := match h with Left | Outer => true | _ => false end in
let keep_right := match h with Right | Outer => true | _ => false end in
let per_right :=
  imap (λ r k,
          match positions_of l_k k with
          | [] => if keep_right then [(None, Some r)] else []
          | ls => (λ l, (Some l, Some r)) <$> ls
          end) r_k in
let lonely_left :=
  if keep_left then
    (λ ik, (Some ik.1, None))
      <$> filter (λ ik, positions_of r_k ik.2 = [])
            (imap (λ i x, (i, x)) l_k)
  else [] in
concat per_right ++ lonely_left.

(** [df[col].to_numpy(dtype=np.int32)]: a position, or for a missing one
    whatever the cast of NaN gives; the validity mask hides it. *)
Definition to_int32 (p : option nat) : Z :=
match p with
| Some i => Z.of_nat i
| None => - 2147483648
end.

(** The value a cell array is filled with where no source row exists. *)
Definition unset_like (data : list cell) : cell :=
match data with
| CBool _ :: _ => CBool false
| CBytes _ :: _ => CBytes []
| CFloat _ :: _ => CFloat 0
| _ => CInt 0
end.

(** Modelled from the spec: [ops.safe_map_values], not among the sources:
    the gather through [map], "using validity to fill a type-appropriate
    unset value for unmatched rows". *)
Definition safe_map_values (data : list cell) (map_ : list Z)
    (filt : list bool) : list cell :=
zip_with (λ i (ok : bool),
            if ok then default (unset_like data) (data !! Z.to_nat i)
            else unset_like data) map_ filt.

(** Modelled from the spec: [ops.safe_map_indexed_values], absent as well:
    the same gather on the spans of an indexed string, the unset value
    being the empty string. *)
Definition safe_map_indexed_values (indices : list Z) (values : list byte)
    (map_ : list Z) (filt : list bool) : list Z * list byte :=
let spans :=
  zip_with (λ i (ok : bool),
              if ok then ops.row_span indices values (Z.to_nat i) else [])
    map_ filt in
(0 :: ops.span_offsets 0 spans, concat spans).

(** [field.data[:]] of a key column: the cells of a fixed-width field, the
    strings of an indexed one, read through the slice path of its array
    object (a [WriteableIndexedFieldArray] is built over the [chunksize]
    attribute first).  With both bounds left out [rmax] is the number of
    rows, so no entry of the result is left [None]. *)
Definition key_column (f : HDF5Field) : M World (list row) :=
match cls f with
| IndexedString =>
    let* g := in_file (group (_field f)) in
    let* iv := lift (indexed_arrays g) in
    let* rows :=
      if _write_enabled f then
        let* c := lift (attr_of g "chunksize") in
        match c with
        | AttrInt c =>
            if decide (c < 0) then raise ValueError
            else lift (getitem_slice true iv.1 iv.2 None None)
        | AttrStr _ => raise TypeError
        end
      else lift (getitem_slice false iv.1 iv.2 None None) in
    ret ((λ s, RowStr (default EmptyString s)) <$> rows)
| _ => let* v := in_file (FlatField.data_all f) in ret (RowCell <$> v)
end.

(** One side of the mapping: every requested field is gathered into a new
    field of [dest], then the flag field is made if a row is invalid. *)
Definition merge_side (src dest : string) (fields other_fields : list string)
    (suffix : string) (to_d_map : list Z) (to_d_filt : list bool)
  : M World unit :=
let* _ :=
  for_ fields
    (λ f,
       let dest_f := if bool_decide (f ∈ other_fields) then f +:+ suffix
                     else f in
       let* r := HDF5DataFrame.getitem src (PyStr f) in
       let* d := create_like r (λ c, HDF5DataFrame.call_create c dest)
                   dest_f PyNone in
       if bool_decide (cls r = IndexedString) then
         let* i := in_file (IndexedStringField.indices_all r) in
         let* v := in_file (IndexedStringField.values_all r) in
         let iv := safe_map_indexed_values i v to_d_map to_d_filt in
         let* _ := in_file (Field.on_indices d
                              (FieldArray.write (_write_enabled d) iv.1)) in
         in_file (Field.on_bytes d (FieldArray.write (_write_enabled d) iv.2))
       else
         let* data := in_file (FlatField.data_all r) in
         let v := safe_map_values data to_d_map to_d_filt in
         in_file (Field.on_values d (FieldArray.write (_write_enabled d) v))) in
if negb (forallb id to_d_filt) then
  let* d := HDF5DataFrame.create_numeric dest ("valid" +:+ suffix) "bool"
              PyNone None in
  in_file (Field.on_values d
             (FieldArray.write (_write_enabled d) (CBool <$> to_d_filt)))
else ret tt.

(** [merge(left, right, dest, left_on, right_on, left_fields=None,
    right_fields=None, left_suffix='_l', right_suffix='_r', how='left')] *)
Definition merge (left right dest : string) (left_on right_on : pyobj)
    (left_fields right_fields : option (list string))
    (left_suffix right_suffix : string) (h : how) : M World unit :=
let* left_on_ := match left_on with
                 | PyStr _ => HDF5DataFrame.getitem left left_on
                 | PyField f => ret f
                 | _ => raise AttributeError
                 end in
let* right_on_ := match right_on with
                  | PyStr _ => HDF5DataFrame.getitem right right_on
                  | PyField f => ret f
                  | _ => raise AttributeError
                  end in
let* n_left := key_len left_on_ in
let* _ := if decide (n_left < 2 ^ 31)
          then let* _ := key_len right_on_ in ret tt
          else ret tt in
let* l_k := key_column left_on_ in
let* _ := key_len left_on_ in
let* r_k := key_column right_on_ in
let* _ := key_len right_on_ in
let df := pd_merge h l_k r_k in
let l_to_d_map := (λ lr, to_int32 lr.1) <$> df in
let l_to_d_filt := (λ lr, bool_decide (is_Some lr.1)) <$> df in
let r_to_d_map := (λ lr, to_int32 lr.2) <$> df in
let r_to_d_filt := (λ lr, bool_decide (is_Some lr.2)) <$> df in
let* lc := columns left in
let* rc := columns right in
let left_fields_ := default lc.*1 left_fields in
let right_fields_ := default rc.*1 right_fields in
let* _ := merge_side right dest right_fields_ left_fields_ right_suffix
            r_to_d_map r_to_d_filt in
merge_side left dest left_fields_ right_fields_ left_suffix
  l_to_d_map l_to_d_filt.

(** Two data frames with the key column [k], [1] on the left and [2] on
    the right, and an empty destination. *)
Definition key_group (k : Z) : H5Group :=
mkGroup {[ "fieldtype" := AttrStr "numeric,int32";
           "nformat" := AttrStr "int32";
           "chunksize" := AttrInt 16;
           "timestamp" := AttrInt 16 ]}
  (Flat "int32" [CInt k]).

Definition merge_world (left_key right_key : Z) : World :=
mkWorld (mkSession 16)
  {[ "/left/k" := key_group left_key; "/right/k" := key_group right_key ]}
  {[ "/left" := [("k", mkField Numeric "/left/k" false)];
     "/right" := [("k", mkField Numeric "/right/k" false)];
     "/dest" := [] ]}.

(** * LeakyCategoricalImporter (fields.py) *)

Module LeakyCategoricalImporter.

(** The importer with its two fields: the [values] array of the categorical
    field behind [self._field.data], and the writable indexed array object
    behind [self._str_field.data], which the field caches and so keeps its
    buffers from one call to the next; the key table; [value_type], the
    dtype of the codes, which is the dtype of the [values] array of the
    field as well; and the two chunk buffers of [__init__],
    [np.zeros(chunksize, dtype=value_type)] and [[None] * chunksize]. *)
Record t := mk {
  _field_data : list cell;
  _str_field_data : WIFA.t;
  _keys : dict Z;
  _dtype : string;
  _results : list Z;
  _strresult : list (option string);
}.

(** Body of [for i in range(len(values))].  The text is chosen on the
    code as the key table gives it; [results[i] = value] then stores the
    code in the buffer, an array of dtype [value_type], which casts it. *)
Definition classify (keys : dict Z) (dtype : string)
    (rs : list Z * list (option string)) (iv : nat * string)
  : result (list Z * list (option string)) :=
let value := default (-1) (dict_get keys iv.2) in
let? strresults :=
  setitem rs.2 iv.1 (Some (if decide (value = -1) then iv.2 else EmptyString)) in
let? results := setitem rs.1 iv.1 (cast_int dtype value) in
Ok (results, strresults).

(** [strresults[:n]] handed to [write_part] of the indexed array: every
    entry must be a string. *)
Definition strings_of (l : list (option string)) : result (list string) :=
traverse (λ o, match o with Some s => Ok s | None => Raise AttributeError end) l.

(** [write_part(values)] *)
Definition write_part (self : t) (values : list string) : result t :=
let? rs := for_each (classify (_keys self) (_dtype self))
             (imap (λ i v, (i, v)) values)
             (_results self, _strresult self) in
let results := rs.1 in
let strresults := rs.2 in
let n := Z.of_nat (length values) in
let? strs := strings_of (if decide (length values ≠ length results)
                         then py_slice strresults 0 n else strresults) in
let codes := if decide (length values ≠ length results)
             then py_slice results 0 n else results in
let data := DataWriter.write (_field_data self) (CInt <$> codes)
              (length codes) in
let? str_data := WIFA.write_part (_str_field_data self) strs in
Ok (mk data str_data (_keys self) (_dtype self) results strresults).

(** [complete()] *)
Definition complete (self : t) : t :=
mk (DataWriter.flush (_field_data self))
   (WIFA.complete (_str_field_data self))
   (_keys self) (_dtype self) (_results self) (_strresult self).

(** [write(values)] *)
Definition write (self : t) (values : list string) : result t :=
let? self := write_part self values in Ok (complete self).

End LeakyCategoricalImporter.

Module LCI := LeakyCategoricalImporter.

(** The code a cell is given, and the text it leaves in the companion
    field: its own text when the code is the sentinel, else nothing. *)
Definition leaky_code (keys : dict Z) (v : string) : Z :=
default (-1) (dict_get keys v).

Definition leaky_text (keys : dict Z) (v : string) : string :=
if decide (leaky_code keys v = -1) then v else EmptyString.

(** The code as the buffer of the importer, an array of dtype [dtype],
    stores it. *)
Definition leaky_stored (keys : dict Z) (dtype : string) (v : string) : Z :=
cast_int dtype (leaky_code keys v).

(** * Vocabulary of the constructor and data-frame properties *)

(** [name] is free under [group]: no group of that name is in the file
    below it and, for a data frame, no column has the name. *)
Definition fresh_name (w : World) (group : parent) (name : string) : Prop :=
file w !! child (parent_path group) name = None
∧ match group with
  | GroupParent _ => True
  | FrameParent df =>
      ∃ c : dict HDF5Field, frames w !! df = Some c ∧ name ∉ c.*1
  end.

(** [name] is taken under [group]: what [name in group] answers, or what
    makes [create_group] of h5py refuse. *)
Definition taken_name (w : World) (group : parent) (name : string) : Prop :=
match group with
| GroupParent path => is_Some (file w !! child path name)
| FrameParent df =>
    ∃ c : dict HDF5Field, frames w !! df = Some c
         ∧ (name ∈ c.*1 ∨ is_Some (file w !! child df name))
end.

(** The chunk size a constructor settles on:
    [session.chunksize if chunksize is None else chunksize]. *)
Definition chunksize_or_default (s : Session) (chunksize' : option Z) : Z :=
match chunksize' with
| None => chunksize s
| Some c => c
end.

(** The group of a field carries what [create_like] reads of it: the
    [timestamp] and [chunksize] attributes and the metadata of its class. *)
Definition described (st : Store) (f : HDF5Field) : Prop :=
∃ g, st !! _field f = Some g
     ∧ is_Some (attrs g !! "timestamp")
     ∧ is_Some (attrs g !! "chunksize")
     ∧ match cls f with
       | FixedString => is_Some (attrs g !! "strlen")
       | Numeric => is_Some (attrs g !! "nformat")
       | Categorical => ∃ dtype v kv kn, dsets g = Keyed dtype v kv kn
       | IndexedString | Timestamp => True
       end.

(** * IndexedStringImporter (field_importers.py) *)

Module IndexedStringImporter.

(** The importer: the [index] and [values] arrays of its field, written
    through [self.field.indices] and [self.field.values], and the byte
    count of the chunks imported so far. *)
Record t := mk {
  indices : list Z;
  values : list byte;
  chunk_accumulated : Z;
}.

(** [write_part(index, values)].  The two dtype checks read the dtype of
    the arrays handed in; the arrays of the model are [int64] and [uint8]
    by their type, so both pass. *)
Definition write_part (self : t) (index : list Z) (values_ : list byte) : t :=
let index_tail := py_slice index 1 (Z.of_nat (length index)) in
mk (DataWriter.write (indices self) index_tail (length index_tail))
   (DataWriter.write (values self) values_ (length values_))
   (chunk_accumulated self).

(** [import_part(column_inds, column_vals, column_offsets, col_idx,
    written_row_count)]: [column_inds] is the two-dimensional array of the
    row offsets of every column, [column_vals] the bytes of all columns
    and [column_offsets] where each column starts in it. *)
Definition import_part (self : t) (column_inds : list (list Z))
    (column_vals : list byte) (column_offsets : list Z) (col_idx : Z)
    (written_row_count : Z) : result t :=
let? row := np_item column_inds col_idx in
let index := (λ x, x + chunk_accumulated self)
               <$> py_slice row 0 (written_row_count + 1) in
let? count := np_item row written_row_count in
let self := mk (indices self) (values self) (chunk_accumulated self + count) in
let? col_offset := np_item column_offsets col_idx in
let values_ := py_slice column_vals col_offset (col_offset + count) in
Ok (write_part self index values_).

(** [complete()] *)
Definition complete (self : t) : t :=
mk (DataWriter.flush (indices self)) (DataWriter.flush (values self))
   (chunk_accumulated self).

End IndexedStringImporter.

Module ISI := IndexedStringImporter.

(** One chunk of a reader, as [import_part] is handed it for column
    [col_idx], and the strings it carries. *)
Record chunk := mkChunk {
  column_inds : list (list Z);
  column_vals : list byte;
  column_offsets : list Z;
  col_idx : nat;
  chunk_rows : list string;
}.

(** The chunk carries its strings in the layout of the reader: the offsets
    of column [col_idx] start at 0 and end every row, and the bytes of the
    rows lie in [column_vals] from [column_offsets[col_idx]] on. *)
Definition chunk_encodes (c : chunk) : Prop :=
∃ row off rest,
  column_inds c !! col_idx c = Some row
  ∧ row = (0 :: offsets_from 0 (chunk_rows c)) ++ rest
  ∧ column_offsets c !! col_idx c = Some off
  ∧ 0 ≤ off
  ∧ py_slice (column_vals c) off
      (off + Z.of_nat (length (flat (chunk_rows c))))
    = flat (chunk_rows c).

Definition import_chunk (self : IndexedStringImporter.t) (c : chunk)
  : result IndexedStringImporter.t :=
IndexedStringImporter.import_part self (column_inds c) (column_vals c)
  (column_offsets c) (Z.of_nat (col_idx c))
  (Z.of_nat (length (chunk_rows c))).

(** * NumericImporter and DateTimeImporter (fields.py) *)

(** [len(s)] of a [str]: its code points, that is the bytes of its UTF-8
    encoding that are not continuation bytes. *)
Definition is_continuation (b : byte) : bool :=
(128 <=? Z.of_N (Byte.to_N b)) && (Z.of_N (Byte.to_N b) <? 192).

Definition str_len (s : string) : nat :=
length (filter (λ b, is_continuation b = false) (list_byte_of_string s)).

Module NumericImporter.

(** The importer: the [values] arrays of its field and of its [_valid]
    filter field; [dtype], with which the field was made, so that it is the
    dtype of the array of the field, [self._field.data.dtype], and of the
    buffer [_values]; and the two chunk buffers,
    [np.zeros(chunksize, dtype=self._field.data.dtype)] and
    [np.zeros(chunksize, dtype='bool')]. *)
Record t := mk {
  _field_data : list cell;
  _filter_field_data : list cell;
  dtype : string;
  _values : list cell;
  _filter_values : list bool;
}.

(** Body of [for i in range(len(values))]; [parser] is the function the
    importer was made with, which returns [(valid, value)] or raises.
    [self._values[i] = value] converts the value to the dtype of the
    buffer. *)
Definition parse_into `{!Conversion} (parser : string → result (bool * cell))
    (dtype : string) (bufs : list cell * list bool) (iv : nat * string)
  : result (list cell * list bool) :=
let? vv := parser iv.2 in
let? values_ := np_setitem dtype bufs.1 iv.1 vv.2 in
let? filter_values := setitem bufs.2 iv.1 vv.1 in
Ok (values_, filter_values).

(** [write_part(values)]; the part of the buffer that goes to the field has
    the dtype of its array. *)
Definition write_part `{!Conversion} (parser : string → result (bool * cell))
    (self : t) (values : list string) : result t :=
let? bufs := for_each (parse_into parser (dtype self))
               (imap (λ i v, (i, v)) values)
               (_values self, _filter_values self) in
let n := Z.of_nat (length values) in
let part := py_slice bufs.1 0 n in
let flags := CBool <$> py_slice bufs.2 0 n in
Ok (mk (DataWriter.write (_field_data self) part (length part))
       (DataWriter.write (_filter_field_data self) flags (length flags))
       (dtype self) bufs.1 bufs.2).

(** [complete()] *)
Definition complete (self : t) : t :=
mk (DataWriter.flush (_field_data self))
   (DataWriter.flush (_filter_field_data self))
   (dtype self) (_values self) (_filter_values self).

End NumericImporter.

(** What the loop of [NumericImporter.write_part] makes of one cell: the
    validity flag, and the value as the buffer of dtype [dtype] stores
    it. *)
Definition imported `{!Conversion} (parser : string → result (bool * cell))
    (dtype : string) (v : string) : result (bool * cell) :=
let? vv := parser v in
let? value := np_assign dtype vv.2 in
Ok (vv.1, value).

Module DateTimeImporter.

(** The importer: the [values] array of its timestamp field, the chunk
    buffer [_results] and [_optional]. *)
Record t := mk {
  _field_data : list cell;
  _results : list cell;
  _optional : bool;
}.

(** [np.nan], by its bits. *)
Definition nan : cell := CFloat 9221120237041090560.

(** One cell of the loop of [write_part]; [strptime v fmt] stands for
    [datetime.strptime(v, fmt).timestamp()] of the standard library, which
    raises [ValueError] on a text that does not fit the format. *)
Definition parse_cell (strptime : string → string → result Z)
    (optional : bool) (v : string) : result cell :=
if decide (str_len v = 32%nat) then
  let? ts := strptime v "%Y-%m-%d %H:%M:%S.%f%z" in Ok (CFloat ts)
else if decide (str_len v = 25%nat) then
  let? ts := strptime v "%Y-%m-%d %H:%M:%S%z" in Ok (CFloat ts)
else if optional && bool_decide (str_len v = 0%nat) then Ok nan
else Raise ValueError.

(** Body of [for i, v in enumerate(values)]. *)
Definition parse_into (strptime : string → string → result Z)
    (optional : bool) (results : list cell) (iv : nat * string)
  : result (list cell) :=
let? x := parse_cell strptime optional iv.2 in
setitem results iv.1 x.

(** [write_part(values)]: the whole of [results] goes to the field. *)
Definition write_part (strptime : string → string → result Z) (self : t)
    (values : list string) : result t :=
let? results := for_each (parse_into strptime (_optional self))
                  (imap (λ i v, (i, v)) values) (_results self) in
Ok (mk (DataWriter.write (_field_data self) results (length results))
       results (_optional self)).

End DateTimeImporter.

(** A parser for the examples: the empty text is invalid and stands for
    0, the text [?] is refused, any other text counts its bytes. *)
Definition example_parser (s : string) : result (bool * cell) :=
if decide (s = EmptyString) then Ok (false, CInt 0)
else if decide (s = "?"%string) then Raise ValueError
else Ok (true, CInt (Z.of_nat (String.length s))).

Definition example_numeric_importer : NumericImporter.t :=
NumericImporter.mk [CInt 5] [CBool true] "int32"
  [CInt 9; CInt 9; CInt 9] [true; true; true].

(** A stand-in for [strptime] in the examples: every text of the right
    length is 2020-05-01T10:11:12Z. *)
Definition example_strptime (v fmt : string) : result Z := Ok 1588327872.

Definition example_datetime_importer : DateTimeImporter.t :=
DateTimeImporter.mk [] [CFloat 0; CFloat 0; CFloat 0] true.

(** * Vocabulary of the merge property *)

(** A computation that never returns, and whatever it raises leaves the
    session and the columns of every data frame as they were. *)
Definition stuck {A} (m : M World A) : Prop :=
∀ w, ∃ e w', m w = (Raise e, w')
             ∧ frames w' = frames w ∧ session w' = session w.

(** A computation that leaves the session and the columns of every data
    frame as they were, and the whole world when it returns. *)
Definition idle {A} (m : M World A) : Prop :=
∀ w, ∃ r w', m w = (r, w')
             ∧ frames w' = frames w ∧ session w' = session w
             ∧ ∀ a, r = Ok a → w' = w.

(** * Adding and dropping columns (dataframe.py) *)

(** The copy that [__setitem__], [add], [copy] and [merge] make once
    [create_like] has returned the new field: [indices] and [values] of an
    indexed field, [data] of the others. *)
Definition copy_data (field nfield : HDF5Field) : M World unit :=
if bool_decide (cls field = IndexedString) then
  let* i := in_file (IndexedStringField.indices_all field) in
  let* _ := in_file (Field.on_indices nfield
                       (FieldArray.write (_write_enabled nfield) i)) in
  let* v := in_file (IndexedStringField.values_all field) in
  in_file (Field.on_bytes nfield (FieldArray.write (_write_enabled nfield) v))
else
  let* data := in_file (FlatField.data_all field) in
  in_file (Field.on_values nfield
             (FieldArray.write (_write_enabled nfield) data)).

(** [HDF5DataFrame.__setitem__(name, field)] *)
Definition frame_setitem (self : string) (name field : pyobj) : M World unit :=
match name with
| PyStr n =>
    match field with
    | PyField f =>
        let* nfield := create_like f (λ c, HDF5DataFrame.call_create c self)
                         n PyNone in
        let* _ := copy_data f nfield in
        let* c := columns self in
        set_columns self (dict_set c n nfield)
    | _ => raise TypeError
    end
| _ => raise TypeError
end.

(** [HDF5DataFrame.add(field)]: the name of the column is what follows the
    second [/] of the path of the field's group;
    [field.name.index('/', 1)] raises [ValueError] when there is none. *)
Definition frame_add (self : string) (field : HDF5Field) : M World unit :=
match String.index 1 "/" (_field field) with
| None => raise ValueError
| Some k =>
    let dname := String.substring (S k)
                   (String.length (_field field) - S k) (_field field) in
    let* nfield := create_like field (λ c, HDF5DataFrame.call_create c self)
                     dname PyNone in
    let* _ := copy_data field nfield in
    let* c := columns self in
    set_columns self (dict_set c dname nfield)
end.

(** [copy(field, dataframe, name)] of dataframe.py; its last line assigns
    into [dataframe.columns], which is a copy of the dict of the data
    frame, so nothing is recorded. *)
Definition copy (field : HDF5Field) (dataframe name : string) : M World unit :=
let* dfield := create_like field (λ c, HDF5DataFrame.call_create c dataframe)
                 name PyNone in
let* _ := copy_data field dfield in
let* _ := columns dataframe in
ret tt.

(** [HDF5DataFrame.drop(name)]: the column first, then the group. *)
Definition frame_drop (self name : string) : M World unit :=
let* c := columns self in
if dict_contains c name then
  let* _ := set_columns self (dict_del c name) in
  h5_delete self name
else raise KeyError.

(** * Properties *)

(** ** The result monad and loops *)

Lemma rbind_ok {A B} (r : result A) (k : A → result B) b :
  rbind r k = Ok b → ∃ a, r = Ok a ∧ k a = Ok b.
Proof. destruct r as [a|e]; simpl; [eauto | discriminate]. Qed.

Lemma for_each_app {A S} (body : S → A → result S) xs ys s :
  for_each body (xs ++ ys) s = rbind (for_each body xs s) (for_each body ys).
Proof.
  revert s. induction xs as [|x xs IH]; intros s; simpl; [done|].
  destruct (body s x); simpl; auto.
Qed.

(** A loop whose body keeps a family of invariants, indexed by what has been
    consumed so far, runs to the end and keeps it. *)
Lemma for_each_invariant {A S T} (body : S → A → result S)
    (I : T → S → Prop) (next : T → A → T) xs :
  (∀ t s x, I t s → ∃ s', body s x = Ok s' ∧ I (next t x) s') →
  ∀ t s, I t s → ∃ s', for_each body xs s = Ok s' ∧ I (foldl next t xs) s'.
Proof.
  intros Hbody. induction xs as [|x xs IH]; intros t s Hs; simpl.
  - eauto.
  - destruct (Hbody t s x Hs) as (s' & -> & Hs'). simpl. eauto.
Qed.

(** ** Offsets *)

Lemma offsets_from_app acc xs ys :
  offsets_from acc (xs ++ ys)
  = offsets_from acc xs
      ++ offsets_from (acc + Z.of_nat (length (flat xs))) ys.
Proof.
  revert acc. induction xs as [|x xs IH]; intros acc; simpl.
  - unfold flat; simpl. by rewrite Z.add_0_r.
  - rewrite IH. unfold flat; simpl.
    rewrite length_app, Nat2Z.inj_add, Z.add_assoc. done.
Qed.

Lemma length_offsets_from acc xs :
  length (offsets_from acc xs) = length xs.
Proof. revert acc. induction xs; intros; simpl; auto. Qed.

Lemma flat_app xs ys : flat (xs ++ ys) = flat xs ++ flat ys.
Proof. unfold flat. by rewrite map_app, concat_app. Qed.

Lemma written_cons c cs :
  written (c :: cs)
  = match c with WritePart part => part | Complete => [] end ++ written cs.
Proof. reflexivity. Qed.

Lemma written_app cs1 cs2 : written (cs1 ++ cs2) = written cs1 ++ written cs2.
Proof. unfold written. by rewrite map_app, concat_app. Qed.

(** ** The staged state of a writable indexed array *)

Section staged.
Variable C : nat.
Hypothesis C_pos : (0 < C)%nat.

(** [staged w B O]: the array object [w] has been handed the payload [B]
    and the end offsets [O]; what is not in the arrays yet is in the
    buffers. *)
Definition staged (w : WIFA.t) (B : list byte) (O : list Z) : Prop :=
  WIFA._chunksize w = C
  ∧ length (WIFA._raw_values w) = C
  ∧ length (WIFA._raw_indices w) = C
  ∧ (WIFA._value_index w < C)%nat
  ∧ (WIFA._index_index w < C)%nat
  ∧ WIFA._values_dataset w ++ take (WIFA._value_index w) (WIFA._raw_values w) = B
  ∧ tail (WIFA._index_dataset w)
      ++ take (WIFA._index_index w) (WIFA._raw_indices w) = O
  ∧ (WIFA._index_dataset w = []
     ∨ ∃ x t, WIFA._index_dataset w = 0 :: x :: t)
  ∧ WIFA._accumulated w = Z.of_nat (length B).

Lemma staged_fresh : staged (fresh C) [] [].
Proof.
  unfold staged, fresh, WIFA.init, np_zeros; simpl.
  rewrite !length_replicate. repeat split; auto.
Qed.

Lemma staged_write_byte w B O v :
  staged w B O →
  ∃ w', WIFA.write_byte w v = Ok w' ∧ staged w' (B ++ [v]) O.
Proof.
  intros (Hc & Hrv & Hri & Hvi & Hii & HB & HO & Hsh & Hacc).
  unfold WIFA.write_byte, setitem.
  rewrite decide_True by lia. simpl.
  destruct w as [idx vals c rv ri acc ii vi]; simpl in *. subst c.
  assert (Htake : take (S vi) (<[vi:=v]> rv) = take vi rv ++ [v]).
  { erewrite take_S_r by (apply list_lookup_insert_eq; lia).
    by rewrite take_insert_ge by lia. }
  destruct (decide (S vi = C)) as [Hfull|Hnot].
  - eexists; split; [reflexivity|].
    unfold staged, WIFA.flush_values, DataWriter.write; simpl.
    rewrite length_insert, Htake, length_app; simpl.
    repeat split; auto; try lia.
    + by rewrite app_nil_r, app_assoc, HB.
  - eexists; split; [reflexivity|].
    unfold staged; simpl.
    rewrite length_insert, Htake, length_app; simpl.
    repeat split; auto; try lia.
    by rewrite app_assoc, HB.
Qed.

Lemma staged_write_bytes bs : ∀ w B O,
  staged w B O →
  ∃ w', for_each WIFA.write_byte bs w = Ok w' ∧ staged w' (B ++ bs) O.
Proof.
  induction bs as [|b bs IH]; intros w B O Hw; simpl.
  - rewrite app_nil_r. eauto.
  - destruct (staged_write_byte w B O b Hw) as (w1 & -> & Hw1); simpl.
    destruct (IH _ _ _ Hw1) as (w2 & -> & Hw2).
    rewrite <- app_assoc in Hw2. eauto.
Qed.

Lemma staged_write_string w B O s :
  staged w B O →
  ∃ w', WIFA.write_string w s = Ok w'
        ∧ staged w' (B ++ list_byte_of_string s)
            (O ++ [Z.of_nat (length (B ++ list_byte_of_string s))]).
Proof.
  intros Hw. unfold WIFA.write_string.
  destruct (staged_write_bytes (list_byte_of_string s) w B O Hw)
    as (w1 & -> & Hw1); simpl.
  set (B' := B ++ list_byte_of_string s) in *.
  destruct Hw1 as (Hc & Hrv & Hri & Hvi & Hii & HB & HO & Hsh & Hacc).
  unfold setitem. rewrite decide_True by lia. simpl.
  destruct w1 as [idx vals c rv ri acc ii vi]; simpl in *. subst c.
  assert (Htake : take (S ii) (<[ii:=acc]> ri) = take ii ri ++ [acc]).
  { erewrite take_S_r by (apply list_lookup_insert_eq; lia).
    by rewrite take_insert_ge by lia. }
  eexists; split; [reflexivity|].
  destruct (decide (S ii = C)) as [Hfull|Hnot].
  - unfold staged, WIFA.flush_indices, DataWriter.write.
    destruct Hsh as [->|(x & t & ->)]; simpl in *;
      rewrite length_insert, Htake.
    + repeat split; auto; try lia.
      * rewrite app_nil_r, HO. by rewrite Hacc.
      * right. destruct (take ii ri); simpl; eauto.
    + repeat split; auto; try lia.
      * rewrite app_nil_r, <- HO, Hacc. simpl. by rewrite app_assoc.
      * right. eauto.
  - unfold staged; simpl.
    rewrite length_insert, Htake.
    repeat split; auto; try lia.
    by rewrite app_assoc, HO, Hacc.
Qed.

Lemma staged_write_part part : ∀ w B O,
  staged w B O →
  ∃ w', WIFA.write_part w part = Ok w'
        ∧ staged w' (B ++ flat part)
            (O ++ offsets_from (Z.of_nat (length B)) part).
Proof.
  unfold WIFA.write_part.
  induction part as [|s part IH]; intros w B O Hw; simpl.
  - rewrite !app_nil_r. eauto.
  - destruct (staged_write_string w B O s Hw) as (w1 & -> & Hw1); simpl.
    destruct (IH _ _ _ Hw1) as (w2 & -> & Hw2).
    eexists; split; [reflexivity|].
    unfold flat in *; simpl.
    rewrite <- !app_assoc in Hw2. simpl in Hw2.
    rewrite length_app, Nat2Z.inj_add in Hw2.
    exact Hw2.
Qed.

Lemma staged_flush_values w B O :
  staged w B O →
  staged (WIFA.flush_values w) B O
  ∧ WIFA._value_index (WIFA.flush_values w) = 0%nat
  ∧ WIFA._index_index (WIFA.flush_values w) = WIFA._index_index w.
Proof.
  intros (Hc & Hrv & Hri & Hvi & Hii & HB & HO & Hsh & Hacc).
  unfold staged, WIFA.flush_values, DataWriter.write; simpl.
  repeat split; auto; try lia.
  by rewrite app_nil_r.
Qed.

Lemma staged_flush_indices w B O :
  staged w B O → WIFA._index_index w ≠ 0%nat →
  staged (WIFA.flush_indices w) B O
  ∧ WIFA._value_index (WIFA.flush_indices w) = WIFA._value_index w
  ∧ WIFA._index_index (WIFA.flush_indices w) = 0%nat.
Proof.
  intros (Hc & Hrv & Hri & Hvi & Hii & HB & HO & Hsh & Hacc) Hne.
  destruct w as [idx vals c rv ri acc ii vi]; simpl in *. subst c.
  assert (Hnonempty : ∃ y l, take ii ri = y :: l).
  { destruct (take ii ri) eqn:E; eauto.
    apply (f_equal length) in E. rewrite length_take in E. simpl in E. lia. }
  destruct Hnonempty as (y & l & Hyl).
  unfold staged, WIFA.flush_indices, DataWriter.write.
  destruct Hsh as [->|(x & t & ->)]; simpl in *.
  - repeat split; auto; try lia.
    + by rewrite app_nil_r.
    + right. rewrite Hyl. eauto.
  - repeat split; auto; try lia.
    + by rewrite app_nil_r.
    + right. eauto.
Qed.

Lemma staged_complete w B O :
  staged w B O →
  staged (WIFA.complete w) B O
  ∧ WIFA._value_index (WIFA.complete w) = 0%nat
  ∧ WIFA._index_index (WIFA.complete w) = 0%nat.
Proof.
  intros Hw. unfold WIFA.complete.
  destruct (decide (WIFA._value_index w ≠ 0%nat)) as [Hv|Hv].
  - destruct (staged_flush_values w B O Hw) as (Hw1 & Hv1 & Hi1).
    destruct (decide (WIFA._index_index (WIFA.flush_values w) ≠ 0%nat))
      as [Hi|Hi].
    + destruct (staged_flush_indices _ B O Hw1 Hi) as (Hw2 & Hv2 & Hi2).
      split; [exact Hw2 | split; [congruence | exact Hi2]].
    + split; [exact Hw1 | split; [exact Hv1 | lia]].
  - destruct (decide (WIFA._index_index w ≠ 0%nat)) as [Hi|Hi].
    + destruct (staged_flush_indices _ B O Hw Hi) as (Hw2 & Hv2 & Hi2).
      split; [exact Hw2 | split; [lia | exact Hi2]].
    + split; [exact Hw | split; lia].
Qed.

(** Once both buffers are empty the arrays hold everything. *)
Lemma staged_flushed w B O :
  staged w B O →
  WIFA._value_index w = 0%nat → WIFA._index_index w = 0%nat →
  WIFA._values_dataset w = B
  ∧ WIFA._index_dataset w = match O with [] => [] | _ => 0 :: O end.
Proof.
  intros (Hc & Hrv & Hri & Hvi & Hii & HB & HO & Hsh & Hacc) Hv Hi.
  rewrite Hv in HB. rewrite Hi in HO. simpl in *.
  rewrite app_nil_r in HB, HO. split; [done|].
  destruct Hsh as [E|(x & t & E)]; rewrite E in HO; simpl in HO; subst O; done.
Qed.

(** Any sequence of calls runs without an exception and stages exactly what
    was written. *)
Lemma staged_run cs : ∀ w B O,
  staged w B O →
  ∃ w', run cs w = Ok w'
        ∧ staged w' (B ++ flat (written cs))
            (O ++ offsets_from (Z.of_nat (length B)) (written cs)).
Proof.
  unfold run.
  induction cs as [|c cs IH]; intros w B O Hw; simpl.
  - unfold written, flat; simpl. rewrite !app_nil_r. eauto.
  - destruct c as [part|]; simpl.
    + destruct (staged_write_part part w B O Hw) as (w1 & -> & Hw1); simpl.
      destruct (IH _ _ _ Hw1) as (w2 & -> & Hw2).
      eexists; split; [reflexivity|].
      rewrite written_cons; simpl.
      rewrite flat_app, offsets_from_app, !app_assoc.
      rewrite length_app, Nat2Z.inj_add in Hw2. exact Hw2.
    + destruct (staged_complete w B O Hw) as (Hw1 & _ & _).
      destruct (IH _ _ _ Hw1) as (w2 & -> & Hw2). eauto.
Qed.

End staged.

(** ** The shape of the offsets *)

Lemma offsets_lookup ss : ∀ acc (i : nat),
  (i ≤ length ss)%nat →
  (acc :: offsets_from acc ss) !! i
  = Some (acc + Z.of_nat (length (flat (take i ss)))).
Proof.
  induction ss as [|s ss IH]; intros acc i Hi; simpl in *.
  - assert (i = 0%nat) as -> by lia. simpl. f_equal. unfold flat; simpl. lia.
  - destruct i as [|i]; simpl.
    + f_equal. unfold flat; simpl. lia.
    + rewrite IH by lia. f_equal. unfold flat; simpl.
      rewrite length_app. lia.
Qed.

Lemma offsets_non_decreasing ss : ∀ acc,
  non_decreasing (acc :: offsets_from acc ss).
Proof.
  intros acc i a b Ha Hb.
  assert (Hi : (S i ≤ length ss)%nat).
  { apply lookup_lt_Some in Hb. simpl in Hb.
    rewrite length_offsets_from in Hb. lia. }
  rewrite offsets_lookup in Ha by lia.
  rewrite offsets_lookup in Hb by lia.
  injection Ha as <-. injection Hb as <-.
  destruct (lookup_lt_is_Some_2 ss i) as [s Hs]; [lia|].
  rewrite (take_S_r _ _ _ Hs), flat_app, length_app. lia.
Qed.

Lemma offsets_last ss acc :
  last (acc :: offsets_from acc ss)
  = Some (acc + Z.of_nat (length (flat ss))).
Proof.
  rewrite last_lookup. simpl. rewrite length_offsets_from.
  rewrite offsets_lookup by lia. by rewrite take_ge by lia.
Qed.

(** ** Python slices *)

Lemma py_slice_pair {A} (l : list A) (i : nat) a b :
  l !! i = Some a → l !! S i = Some b →
  py_slice l (Z.of_nat i) (Z.of_nat i + 2) = [a; b].
Proof.
  intros Ha Hb. pose proof (lookup_lt_Some _ _ _ Hb) as Hlen.
  unfold py_slice, slice_bound.
  rewrite !decide_False by lia.
  rewrite Z.min_l by lia. rewrite Z.min_l by lia.
  replace (Z.to_nat (Z.of_nat i + 2 - Z.of_nat i)) with 2%nat by lia.
  rewrite Nat2Z.id.
  rewrite (drop_S _ _ _ Ha). simpl.
  rewrite (drop_S _ _ _ Hb). simpl. by rewrite take_0.
Qed.

Lemma py_slice_middle {A} (l1 m l2 : list A) :
  py_slice (l1 ++ m ++ l2) (Z.of_nat (length l1))
    (Z.of_nat (length l1) + Z.of_nat (length m)) = m.
Proof.
  unfold py_slice, slice_bound.
  rewrite !decide_False by lia.
  rewrite !length_app.
  rewrite Z.min_l by lia. rewrite Z.min_l by lia.
  rewrite Nat2Z.id, drop_app_length.
  replace (Z.to_nat _) with (length m) by lia.
  by rewrite take_app_length.
Qed.

Lemma list_byte_of_string_nil s : list_byte_of_string s = [] → s = EmptyString.
Proof.
  intros H. rewrite <- (string_of_list_byte_of_string s). by rewrite H.
Qed.

(** ** Reading a completed indexed array *)

Section completed.
Variable w : WIFA.t.
Variable ss : list string.
Hypothesis Hvalues : WIFA._values_dataset w = flat ss.
Hypothesis Hindex : WIFA._index_dataset w = 0 :: offsets_from 0 ss.

Lemma completed_len : WIFA.len w = Z.of_nat (length ss).
Proof.
  unfold WIFA.len. rewrite Hindex. simpl. rewrite length_offsets_from. lia.
Qed.

Lemma completed_getitem (i : nat) s :
  ss !! i = Some s → WIFA.getitem w (Z.of_nat i) = Ok s.
Proof.
  intros Hs. pose proof (lookup_lt_Some _ _ _ Hs) as Hi.
  unfold WIFA.getitem. rewrite Hindex, Hvalues.
  rewrite decide_False
    by (simpl; rewrite length_offsets_from; lia).
  erewrite py_slice_pair;
    [| apply offsets_lookup; lia | apply offsets_lookup; lia].
  rewrite (take_S_r _ _ _ Hs), flat_app, length_app. simpl.
  assert (Hflat : flat ss = flat (take i ss) ++ list_byte_of_string s
                            ++ flat (drop (S i) ss)).
  { rewrite <- (take_drop_middle ss i s Hs) at 1.
    rewrite flat_app. unfold flat at 2. simpl. done. }
  assert (Hone : flat [s] = list_byte_of_string s).
  { unfold flat; simpl. apply app_nil_r. }
  rewrite Hone, !Z.add_0_l.
  destruct (decide _) as [Heq|Hne].
  - f_equal. symmetry. apply list_byte_of_string_nil.
    destruct (list_byte_of_string s); [done | simpl in Heq; lia].
  - rewrite Hflat, Nat2Z.inj_add.
    rewrite py_slice_middle. by rewrite string_of_list_byte_of_string.
Qed.

Lemma completed_getitem_beyond (i : Z) :
  Z.of_nat (length ss) ≤ i → WIFA.getitem w i = Raise ValueError.
Proof.
  intros Hi. unfold WIFA.getitem. rewrite Hindex.
  rewrite decide_True; [done|].
  simpl. rewrite length_offsets_from. lia.
Qed.

Lemma completed_read_rows : read_rows w = map Ok ss.
Proof.
  unfold read_rows. rewrite completed_len.
  apply list_eq. intros i.
  rewrite !list_lookup_fmap.
  destruct (ss !! i) as [s|] eqn:Hs; simpl.
  - pose proof (lookup_lt_Some _ _ _ Hs).
    rewrite lookup_seqZ_lt by lia. simpl.
    rewrite Z.add_0_l. f_equal. by apply completed_getitem.
  - apply lookup_ge_None in Hs.
    rewrite lookup_seqZ_ge by lia. done.
Qed.

End completed.

(** ** Indexed strings: what a completed stream leaves in the arrays *)

(** A sequence of calls that ends with [complete()] never raises; it leaves
    the whole payload in [values], and in [index] either nothing (no string
    was written) or [0] followed by every end offset. *)
Lemma run_then_complete (C : nat) (cs : list call) :
  (0 < C)%nat →
  ∃ w, run (cs ++ [Complete]) (fresh C) = Ok w
       ∧ WIFA._values_dataset w = flat (written cs)
       ∧ WIFA._index_dataset w
         = match written cs with
           | [] => []
           | _ => 0 :: offsets_from 0 (written cs)
           end.
Proof.
  intros HC.
  destruct (staged_run C HC cs (fresh C) [] [] (staged_fresh C HC))
    as (w1 & Hrun & Hw1).
  simpl in Hw1.
  destruct (staged_complete C HC w1 _ _ Hw1) as (Hw2 & Hv & Hi).
  exists (WIFA.complete w1). split.
  - unfold run in *. rewrite for_each_app, Hrun. reflexivity.
  - destruct (staged_flushed C _ _ _ Hw2 Hv Hi) as (Hvals & Hidx).
    split; [done|]. rewrite Hidx.
    destruct (written cs); done.
Qed.

(** C1 (as amended). For an IndexedString field made by the constructor, with
    a chunk size of at least 1: every sequence of [write_part] and [complete]
    calls that ends with [complete] succeeds, and then [values] holds exactly
    the bytes written; if some string was written, [indices[0] = 0],
    [indices] is non-decreasing, [len(values) = indices[-1]] and
    [len(F) = len(indices) - 1], the number of strings written; if none was
    written the index array is empty. *)
Theorem C1_indexed_invariant_once_completed (C : nat) (cs : list call) :
  (0 < C)%nat →
  ∃ w, run (cs ++ [Complete]) (fresh C) = Ok w
       ∧ WIFA._values_dataset w = flat (written cs)
       ∧ (written cs = [] → WIFA._index_dataset w = [])
       ∧ (written cs ≠ [] →
          indexed_invariant w
          ∧ WIFA.len w = Z.of_nat (length (written cs))).
Proof.
  intros HC.
  destruct (run_then_complete C cs HC) as (w & Hrun & Hvals & Hidx).
  exists w. split; [done|]. split; [done|]. split.
  - intros E. by rewrite E in Hidx.
  - intros Hne.
    assert (Hidx' : WIFA._index_dataset w = 0 :: offsets_from 0 (written cs)).
    { destruct (written cs); [congruence | exact Hidx]. }
    split; [|by apply completed_len].
    unfold indexed_invariant, WIFA.len. rewrite Hidx', Hvals.
    split; [done|]. split; [apply offsets_non_decreasing|].
    split; [by rewrite offsets_last|done].
Qed.

Lemma C1_indexed_invariant_witness :
  ∃ w, run ([WritePart ["ab"; ""; "cde"]; Complete; WritePart ["f"]] ++ [Complete])
         (fresh 2) = Ok w
       ∧ WIFA._values_dataset w
         = flat (written [WritePart ["ab"; ""; "cde"]; Complete; WritePart ["f"]])
       ∧ (written [WritePart ["ab"; ""; "cde"]; Complete; WritePart ["f"]] = []
          → WIFA._index_dataset w = [])
       ∧ (written [WritePart ["ab"; ""; "cde"]; Complete; WritePart ["f"]] ≠ [] →
          indexed_invariant w
          ∧ WIFA.len w
            = Z.of_nat (length (written
                [WritePart ["ab"; ""; "cde"]; Complete; WritePart ["f"]]))).
Proof.
  apply (C1_indexed_invariant_once_completed 2
           [WritePart ["ab"; ""; "cde"]; Complete; WritePart ["f"]]).
  lia.
Defined.

(** C1 (as stated) fails twice.  A field in which no string was written has an
    empty index array, not [[0]], so [indices[0]] does not exist; and between
    a [write_part] and the next [complete] the arrays lag behind the buffers:
    with a chunk size of 4, after [write_part(["ab", "cd", "e"])] four bytes
    are in [values] while [index] is still empty. *)
Lemma C1_counterexample :
  (∃ w, run [Complete] (fresh 4) = Ok w
        ∧ WIFA._index_dataset w = []
        ∧ WIFA._index_dataset w ≠ [0]
        ∧ WIFA._index_dataset w !! 0%nat = None
        ∧ WIFA.len w = -1)
  ∧ (∃ w, run [WritePart ["ab"; "cd"; "e"]] (fresh 4) = Ok w
          ∧ WIFA._index_dataset w = []
          ∧ length (WIFA._values_dataset w) = 4%nat
          ∧ last (WIFA._index_dataset w)
            ≠ Some (Z.of_nat (length (WIFA._values_dataset w)))).
Proof.
  split.
  - eexists. split; [reflexivity|]. simpl. repeat split; done.
  - eexists. split; [vm_compute; reflexivity|]. simpl. repeat split; done.
Qed.

(** ** Round trip *)

(** C2. Writing any sequence of strings with [write] (that is [write_part]
    followed by [complete]) into a fresh field and reading the rows back
    reproduces the sequence, whatever the strings (empty, or longer than the
    chunk size), for every chunk size of at least 1. *)
Theorem C2_write_read_roundtrip (C : nat) (ss : list string) :
  (0 < C)%nat →
  ∃ w, WIFA.write (fresh C) ss = Ok w
       ∧ read_rows w = map Ok ss
       ∧ (∀ (i : nat) s, ss !! i = Some s → WIFA.getitem w (Z.of_nat i) = Ok s).
Proof.
  intros HC.
  destruct (run_then_complete C [WritePart ss] HC) as (w & Hrun & Hvals & Hidx).
  rewrite written_cons in Hvals, Hidx. unfold written in Hvals, Hidx.
  simpl in Hvals, Hidx. rewrite app_nil_r in Hvals, Hidx.
  exists w. split.
  - unfold run in Hrun. simpl in Hrun. unfold WIFA.write.
    destruct (WIFA.write_part (fresh C) ss); simpl in *; done.
  - destruct ss as [|s0 ss'].
    + split; [|by intros i s Hs].
      unfold read_rows, WIFA.len. by rewrite Hidx.
    + split.
      * by apply completed_read_rows.
      * intros i s Hs. by eapply completed_getitem.
Qed.

Lemma C2_write_read_roundtrip_witness :
  ∃ w, WIFA.write (fresh 3) [""; "abcdefgh"; "x"; ""] = Ok w
       ∧ read_rows w = map Ok [""; "abcdefgh"; "x"; ""]
       ∧ (∀ (i : nat) s, [""; "abcdefgh"; "x"; ""] !! i = Some s →
          WIFA.getitem w (Z.of_nat i) = Ok s).
Proof.
  apply (C2_write_read_roundtrip 3 [""; "abcdefgh"; "x"; ""]). lia.
Defined.

(** ** Traversals and numpy indexing *)

Lemma traverse_Forall2 {A B} (f : A → result B) xs : ∀ ys,
  traverse f xs = Ok ys → Forall2 (λ x y, f x = Ok y) xs ys.
Proof.
  induction xs as [|x xs IH]; intros ys H; simpl in H.
  - injection H as <-. constructor.
  - destruct (f x) as [y|] eqn:Hy; simpl in H; [|discriminate].
    destruct (traverse f xs) as [ys'|] eqn:Hys; simpl in H; [|discriminate].
    injection H as <-. constructor; auto.
Qed.

Lemma traverse_ok {A B} (f : A → result B) xs :
  Forall (λ x, ∃ y, f x = Ok y) xs → ∃ ys, traverse f xs = Ok ys.
Proof.
  induction 1 as [|x xs [y Hy] _ [ys Hys]]; simpl; [eauto|].
  rewrite Hy, Hys. simpl. eauto.
Qed.

Lemma traverse_raise {A B} (f : A → result B) e xs :
  Forall (λ x, ∀ e', f x = Raise e' → e' = e) xs →
  Exists (λ x, ∃ e', f x = Raise e') xs →
  traverse f xs = Raise e.
Proof.
  induction 1 as [|x xs Hx Hxs IH]; intros Hex.
  - inversion Hex.
  - simpl. destruct (f x) as [y|e'] eqn:Hfx; simpl.
    + rewrite IH; [done|].
      inversion Hex as [? ? [e' He']|]; subst; [congruence|done].
    + f_equal. auto.
Qed.

Lemma traverse_lookup {A B} (f : A → result B) xs ys (j : nat) x :
  traverse f xs = Ok ys → xs !! j = Some x →
  ∃ y, ys !! j = Some y ∧ f x = Ok y.
Proof.
  intros H Hx. apply traverse_Forall2 in H.
  destruct (Forall2_lookup_l _ _ _ _ _ H Hx) as (y & Hy & Hf). eauto.
Qed.

Lemma traverse_length {A B} (f : A → result B) xs ys :
  traverse f xs = Ok ys → length ys = length xs.
Proof. intros H. apply traverse_Forall2 in H. symmetry. by eapply Forall2_length. Qed.

Lemma np_item_ok {A} (v : list A) (i : Z) :
  - Z.of_nat (length v) ≤ i < Z.of_nat (length v) →
  ∃ x, np_item v i = Ok x
       ∧ v !! position_row (Z.of_nat (length v)) i = Some x.
Proof.
  intros Hi. unfold np_item, position_row. simpl.
  rewrite decide_True by done.
  destruct (lookup_lt_is_Some_2 v
              (Z.to_nat (if decide (i < 0) then i + Z.of_nat (length v) else i)))
    as [x Hx].
  { destruct (decide (i < 0)); lia. }
  rewrite Hx. eauto.
Qed.

Lemma np_item_out {A} (v : list A) (i : Z) :
  ¬ (- Z.of_nat (length v) ≤ i < Z.of_nat (length v)) →
  np_item v i = Raise IndexError.
Proof. intros Hi. unfold np_item. simpl. by rewrite decide_False. Qed.

Lemma np_item_error {A} (v : list A) (i : Z) e :
  np_item v i = Raise e → e = IndexError.
Proof.
  unfold np_item. simpl. destruct (decide _); [|congruence].
  destruct (v !! _); congruence.
Qed.

Lemma np_item_nonneg {A} (v : list A) (j : nat) x :
  v !! j = Some x → np_item v (Z.of_nat j) = Ok x.
Proof.
  intros Hx. pose proof (lookup_lt_Some _ _ _ Hx).
  unfold np_item. simpl. rewrite decide_True by lia.
  rewrite decide_False by lia. by rewrite Nat2Z.id, Hx.
Qed.

(** ** The arrays of a group *)

Lemma set_flat_values_id g v : flat_values g = Ok v → set_flat_values g v = g.
Proof.
  destruct g as [a []]; unfold flat_values, set_flat_values; simpl;
    intros H; try discriminate; by injection H as ->.
Qed.

Lemma flat_values_set g v v' :
  flat_values g = Ok v → flat_values (set_flat_values g v') = Ok v'.
Proof.
  destruct g as [a []]; unfold flat_values, set_flat_values; simpl;
    intros H; try discriminate; done.
Qed.

Lemma attrs_set_flat_values g v : attrs (set_flat_values g v) = attrs g.
Proof. by destruct g as [a []]. Qed.

Lemma set_flat_values_twice g v v1 v2 :
  flat_values g = Ok v →
  set_flat_values (set_flat_values g v1) v2 = set_flat_values g v2.
Proof.
  destruct g as [a []]; unfold flat_values, set_flat_values; simpl;
    intros H; try discriminate; done.
Qed.

Lemma flat_dtype_set g v : flat_dtype (set_flat_values g v) = flat_dtype g.
Proof. by destruct g as [a []]. Qed.

Lemma flat_dtype_values g v : flat_values g = Ok v → ∃ dtype, flat_dtype g = Ok dtype.
Proof.
  destruct g as [a []]; unfold flat_values, flat_dtype; simpl;
    intros H; try discriminate; eauto.
Qed.

Lemma as_dtype_same convert dtype array :
  as_dtype convert dtype dtype array = Ok array.
Proof. unfold as_dtype. by rewrite decide_True. Qed.

(** Every integer dtype has a width. *)
Lemma int_dtype_bits dtype signed bits :
  int_dtype dtype = Some (signed, bits) → 0 < bits.
Proof.
  unfold int_dtype, int_dtypes. cbn [list_find fst snd fmap option_fmap option_map].
  repeat (case_decide; cbn [fmap option_fmap option_map fst snd];
          [intros [= <- <-]; lia|]).
  discriminate.
Qed.

(** An integer within the bounds of an integer dtype is stored as it is. *)
Lemma cast_int_in_range dtype signed bits z :
  int_dtype dtype = Some (signed, bits) →
  int_min signed bits ≤ z ≤ int_max signed bits →
  cast_int dtype z = z.
Proof.
  intros Hdt Hz. pose proof (int_dtype_bits _ _ _ Hdt) as Hbits.
  unfold cast_int. rewrite Hdt.
  assert (Hpow : 2 ^ bits = 2 * 2 ^ (bits - 1)).
  { rewrite <- Z.pow_succ_r by lia. f_equal. lia. }
  assert (0 < 2 ^ (bits - 1)) by (apply Z.pow_pos_nonneg; lia).
  rewrite Z.mod_small; [lia|].
  unfold int_min, int_max in *. destruct signed; lia.
Qed.

(** What an array of an integer dtype holds lies within its bounds. *)
Lemma cast_int_bounds dtype signed bits z :
  int_dtype dtype = Some (signed, bits) →
  int_min signed bits ≤ cast_int dtype z ≤ int_max signed bits.
Proof.
  intros Hdt. pose proof (int_dtype_bits _ _ _ Hdt) as Hbits.
  unfold cast_int. rewrite Hdt.
  assert (Hpow : 2 ^ bits = 2 * 2 ^ (bits - 1)).
  { rewrite <- Z.pow_succ_r by lia. f_equal. lia. }
  assert (0 < 2 ^ (bits - 1)) by (apply Z.pow_pos_nonneg; lia).
  pose proof (Z.mod_pos_bound (z - int_min signed bits) (2 ^ bits)
                ltac:(lia)) as Hmod.
  unfold int_min, int_max in *. destruct signed; lia.
Qed.

(** ** Array objects run on a field's group *)

Lemma on_values_ok {A} st f g v (m : M (list cell) A) a v' :
  st !! _field f = Some g → flat_values g = Ok v → m v = (Ok a, v') →
  Field.on_values f m st = (Ok a, <[_field f := set_flat_values g v']> st).
Proof. intros Hg Hv Hm. unfold Field.on_values. by rewrite Hg, Hv, Hm. Qed.

Lemma on_values_raise {A} st f g v (m : M (list cell) A) e v' :
  st !! _field f = Some g → flat_values g = Ok v → m v = (Raise e, v') →
  Field.on_values f m st = (Raise e, st).
Proof. intros Hg Hv Hm. unfold Field.on_values. by rewrite Hg, Hv, Hm. Qed.

Lemma on_values_read {A} st f g v (m : M (list cell) A) a :
  st !! _field f = Some g → flat_values g = Ok v → m v = (Ok a, v) →
  Field.on_values f m st = (Ok a, st).
Proof.
  intros Hg Hv Hm. erewrite on_values_ok by eauto.
  by rewrite set_flat_values_id, insert_id.
Qed.

Lemma writeable_ok st d g :
  st !! _field d = Some g → is_Some (attrs g !! "fieldtype") →
  Field.writeable d st = (Ok (mkField (cls d) (_field d) true), st).
Proof.
  intros Hg [a Ha]. unfold Field.writeable, Field.init, bind, group, lift,
    attr_of, ret.
  by rewrite Hg, Ha.
Qed.

Lemma flat_data_all st f g v :
  st !! _field f = Some g → flat_values g = Ok v →
  FlatField.data_all f st = (Ok v, st).
Proof.
  intros Hg Hv. unfold FlatField.data_all.
  eapply on_values_read; eauto. by destruct (_write_enabled f).
Qed.

Lemma flat_data_getitem st f g v i :
  st !! _field f = Some g → flat_values g = Ok v →
  (FlatField.data_getitem f i st).1 = np_item v i.
Proof.
  intros Hg Hv. unfold FlatField.data_getitem, Field.on_values.
  rewrite Hg, Hv.
  assert (Hm : FieldArray.getitem (_write_enabled f) i v = (np_item v i, v))
    by by destruct (_write_enabled f).
  rewrite Hm. by destruct (np_item v i).
Qed.

Lemma flat_data_dtype st f g dtype :
  st !! _field f = Some g → flat_dtype g = Ok dtype →
  FlatField.data_dtype f st = (Ok dtype, st).
Proof.
  intros Hg Hdt. unfold FlatField.data_dtype, bind, group, lift.
  by rewrite Hg, Hdt.
Qed.

(** A destination of a fixed-width field has an array of the dtype of the
    array of the field. *)
Lemma destination_dtype st self dstfld g v gd vd :
  let d := match dstfld with None => self | Some d => d end in
  destination st self dstfld →
  st !! _field self = Some g → flat_values g = Ok v →
  st !! _field d = Some gd → flat_values gd = Ok vd →
  ∃ dtype, flat_dtype g = Ok dtype ∧ flat_dtype gd = Ok dtype.
Proof.
  intros d Hdst Hg Hv Hgd Hvd.
  destruct (flat_dtype_values g v Hv) as [dtype Hdt].
  destruct (flat_dtype_values gd vd Hvd) as [dtype' Hdt'].
  exists dtype. split; [done|].
  subst d. destruct dstfld as [d|].
  - destruct Hdst as (_ & _ & Heq). unfold values_dtype in Heq.
    rewrite Hg, Hgd, Hdt, Hdt' in Heq. by injection Heq as ->.
  - rewrite Hg in Hgd. by injection Hgd as <-.
Qed.

Section conversion.
Context {conversion : Conversion}.

(** Writing a result into a destination whose array has the dtype of the
    result: whatever the destination held, it now holds the result, and the
    handle returned is writable. *)
Lemma flat_store_result st self dstfld gd vd dtype result :
  let d := match dstfld with None => self | Some d => d end in
  st !! _field d = Some gd → is_Some (attrs gd !! "fieldtype") →
  flat_values gd = Ok vd → flat_dtype gd = Ok dtype →
  FlatField.store_result self dtype result dstfld st
  = (Ok (mkField (cls d) (_field d) true),
     <[_field d := set_flat_values gd result]> st).
Proof.
  intros d Hg Hft Hv Hdt. unfold FlatField.store_result. fold d.
  assert (Hw : (if negb (_write_enabled d) then Field.writeable d else ret d) st
               = (Ok (mkField (cls d) (_field d) true), st)).
  { destruct d as [c p [|]]; simpl in *; [done|]. by eapply writeable_ok. }
  unfold bind at 1. rewrite Hw.
  set (d' := mkField (cls d) (_field d) true).
  unfold bind at 1. unfold FlatField.data_len.
  erewrite (on_values_read st d' gd vd) by (simpl; eauto).
  unfold bind at 1.
  erewrite (flat_data_dtype st d' gd dtype) by (simpl; eauto).
  unfold bind at 1.
  destruct (decide (Z.of_nat (length vd) = Z.of_nat (length result))) as [E|E].
  - unfold bind at 1, lift. rewrite as_dtype_same.
    erewrite (on_values_ok st d' gd vd); simpl; eauto.
    unfold WriteableFieldArray.setitem.
    rewrite decide_True by lia. done.
  - unfold bind at 1.
    erewrite (on_values_ok st d' gd vd _ tt []); simpl; eauto.
    unfold bind at 1, lift. rewrite as_dtype_same.
    erewrite (on_values_ok _ d' (set_flat_values gd []) [] _ tt result);
      simpl; eauto.
    + by erewrite insert_insert_eq, set_flat_values_twice.
    + by rewrite lookup_insert_eq.
    + by eapply flat_values_set.
    + unfold WriteableFieldArray.write, bind, WriteableFieldArray.complete,
        DataWriter.write, DataWriter.flush. simpl.
      by rewrite firstn_all.
Qed.

Lemma flat_apply_index_ok st self dstfld g v gd vd dtype idx result :
  let d := match dstfld with None => self | Some d => d end in
  st !! _field self = Some g → flat_values g = Ok v →
  st !! _field d = Some gd → is_Some (attrs gd !! "fieldtype") →
  flat_values gd = Ok vd →
  flat_dtype g = Ok dtype → flat_dtype gd = Ok dtype →
  np_take v idx = Ok result →
  FlatField.apply_index self idx dstfld st
  = (Ok (mkField (cls d) (_field d) true),
     <[_field d := set_flat_values gd result]> st).
Proof.
  intros d Hg Hv Hgd Hft Hvd Hdt Hdtd Htake. unfold FlatField.apply_index.
  unfold bind at 1. erewrite flat_data_all by eauto.
  unfold bind at 1. erewrite flat_data_dtype by eauto.
  unfold bind at 1, lift. rewrite Htake.
  by eapply flat_store_result.
Qed.

Lemma flat_apply_index_raise st self dstfld g v idx e :
  st !! _field self = Some g → flat_values g = Ok v →
  np_take v idx = Raise e →
  FlatField.apply_index self idx dstfld st = (Raise e, st).
Proof.
  intros Hg Hv Htake. unfold FlatField.apply_index.
  destruct (flat_dtype_values g v Hv) as [dtype Hdt].
  unfold bind at 1. erewrite flat_data_all by eauto.
  unfold bind at 1. erewrite flat_data_dtype by eauto.
  unfold bind at 1, lift. by rewrite Htake.
Qed.

Lemma flat_apply_filter_ok st self dstfld g v gd vd dtype mask :
  let d := match dstfld with None => self | Some d => d end in
  st !! _field self = Some g → flat_values g = Ok v →
  st !! _field d = Some gd → is_Some (attrs gd !! "fieldtype") →
  flat_values gd = Ok vd →
  flat_dtype g = Ok dtype → flat_dtype gd = Ok dtype →
  length mask = length v →
  FlatField.apply_filter self mask dstfld st
  = (Ok (mkField (cls d) (_field d) true),
     <[_field d := set_flat_values gd (select v mask)]> st).
Proof.
  intros d Hg Hv Hgd Hft Hvd Hdt Hdtd Hlen. unfold FlatField.apply_filter.
  unfold bind at 1. erewrite flat_data_all by eauto.
  unfold bind at 1. erewrite flat_data_dtype by eauto.
  unfold bind at 1, lift, np_mask. rewrite decide_True by done.
  by eapply flat_store_result.
Qed.

Lemma flat_apply_filter_raise st self dstfld g v mask :
  st !! _field self = Some g → flat_values g = Ok v →
  length mask ≠ length v →
  FlatField.apply_filter self mask dstfld st = (Raise IndexError, st).
Proof.
  intros Hg Hv Hlen. unfold FlatField.apply_filter.
  destruct (flat_dtype_values g v Hv) as [dtype Hdt].
  unfold bind at 1. erewrite flat_data_all by eauto.
  unfold bind at 1. erewrite flat_data_dtype by eauto.
  unfold bind at 1, lift, np_mask. by rewrite decide_False.
Qed.

End conversion.

(** ** The same for the two arrays of an indexed string *)

Lemma on_indices_ok {A} st f g i v (m : M (list Z) A) a i' :
  st !! _field f = Some g → dsets g = Indexed i v → m i = (Ok a, i') →
  Field.on_indices f m st
  = (Ok a, <[_field f := mkGroup (attrs g) (Indexed i' v)]> st).
Proof.
  intros Hg Hd Hm. unfold Field.on_indices, indexed_arrays, set_indexed_arrays.
  by rewrite Hg, Hd, Hm.
Qed.

Lemma on_bytes_ok {A} st f g i v (m : M (list byte) A) a v' :
  st !! _field f = Some g → dsets g = Indexed i v → m v = (Ok a, v') →
  Field.on_bytes f m st
  = (Ok a, <[_field f := mkGroup (attrs g) (Indexed i v')]> st).
Proof.
  intros Hg Hd Hm. unfold Field.on_bytes, indexed_arrays, set_indexed_arrays.
  by rewrite Hg, Hd, Hm.
Qed.

Lemma group_eta g i v : dsets g = Indexed i v → mkGroup (attrs g) (Indexed i v) = g.
Proof. destruct g; simpl; by intros ->. Qed.

Lemma indexed_all st f g i v :
  st !! _field f = Some g → dsets g = Indexed i v →
  IndexedStringField.indices_all f st = (Ok i, st)
  ∧ IndexedStringField.values_all f st = (Ok v, st).
Proof.
  intros Hg Hd.
  unfold IndexedStringField.indices_all, IndexedStringField.values_all.
  split.
  - erewrite on_indices_ok by (eauto; by destruct (_write_enabled f)).
    by rewrite group_eta, insert_id.
  - erewrite on_bytes_ok by (eauto; by destruct (_write_enabled f)).
    by rewrite group_eta, insert_id.
Qed.

Lemma bind_ok {S A B} (m : M S A) (k : A → M S B) s a s' :
  m s = (Ok a, s') → bind m k s = k a s'.
Proof. intros H. unfold bind. by rewrite H. Qed.

Lemma bind_raise {S A B} (m : M S A) (k : A → M S B) s e s' :
  m s = (Raise e, s') → bind m k s = (Raise e, s').
Proof. intros H. unfold bind. by rewrite H. Qed.

Lemma indices_len st d g i v :
  st !! _field d = Some g → dsets g = Indexed i v →
  Field.on_indices d (FieldArray.len true) st = (Ok (Z.of_nat (length i)), st).
Proof.
  intros Hg Hd. erewrite on_indices_ok; simpl; eauto.
  by rewrite group_eta, insert_id.
Qed.

Lemma bytes_len st d g i v :
  st !! _field d = Some g → dsets g = Indexed i v →
  Field.on_bytes d (FieldArray.len true) st = (Ok (Z.of_nat (length v)), st).
Proof.
  intros Hg Hd. erewrite on_bytes_ok; simpl; eauto.
  by rewrite group_eta, insert_id.
Qed.

(** The calls that replace an array through its writable object. *)
Lemma replace_indices st d g i v dest :
  st !! _field d = Some g → dsets g = Indexed i v →
  (if decide (Z.of_nat (length i) = Z.of_nat (length dest)) then
     Field.on_indices d (FieldArray.setitem true KAll dest)
   else
     let* _ := Field.on_indices d (FieldArray.clear true) in
     Field.on_indices d (FieldArray.write true dest)) st
  = (Ok tt, <[_field d := mkGroup (attrs g) (Indexed dest v)]> st).
Proof.
  intros Hg Hd.
  destruct (decide _) as [E|E].
  - erewrite on_indices_ok; eauto. simpl.
    unfold WriteableFieldArray.setitem. by rewrite decide_True by lia.
  - unfold bind at 1.
    erewrite (on_indices_ok st d g i v _ tt []); simpl; eauto.
    erewrite (on_indices_ok _ d _ [] v _ tt dest); simpl; eauto; cycle 1.
    + apply lookup_insert_eq.
    + done.
    + unfold WriteableFieldArray.write, bind, WriteableFieldArray.complete,
        DataWriter.write, DataWriter.flush. simpl. by rewrite firstn_all.
    + simpl. by rewrite insert_insert_eq.
Qed.

Lemma replace_bytes st d g i v dest :
  st !! _field d = Some g → dsets g = Indexed i v →
  (if decide (Z.of_nat (length v) = Z.of_nat (length dest)) then
     Field.on_bytes d (FieldArray.setitem true KAll dest)
   else
     let* _ := Field.on_bytes d (FieldArray.clear true) in
     Field.on_bytes d (FieldArray.write true dest)) st
  = (Ok tt, <[_field d := mkGroup (attrs g) (Indexed i dest)]> st).
Proof.
  intros Hg Hd.
  destruct (decide _) as [E|E].
  - erewrite on_bytes_ok; eauto. simpl.
    unfold WriteableFieldArray.setitem. by rewrite decide_True by lia.
  - unfold bind at 1.
    erewrite (on_bytes_ok st d g i v _ tt []); simpl; eauto.
    erewrite (on_bytes_ok _ d _ i [] _ tt dest); simpl; eauto; cycle 1.
    + apply lookup_insert_eq.
    + done.
    + unfold WriteableFieldArray.write, bind, WriteableFieldArray.complete,
        DataWriter.write, DataWriter.flush. simpl. by rewrite firstn_all.
    + simpl. by rewrite insert_insert_eq.
Qed.

Lemma indexed_store_result st self dstfld gd i v dest_indices dest_values :
  let d := match dstfld with None => self | Some d => d end in
  st !! _field d = Some gd → is_Some (attrs gd !! "fieldtype") →
  dsets gd = Indexed i v →
  IndexedStringField.store_result self dest_indices dest_values dstfld st
  = (Ok (mkField (cls d) (_field d) true),
     <[_field d := mkGroup (attrs gd) (Indexed dest_indices dest_values)]> st).
Proof.
  intros d Hg Hft Hd. unfold IndexedStringField.store_result. fold d.
  assert (Hw : (if negb (_write_enabled d) then Field.writeable d else ret d) st
               = (Ok (mkField (cls d) (_field d) true), st)).
  { destruct d as [c p [|]]; simpl in *; [done|]. by eapply writeable_ok. }
  erewrite bind_ok by exact Hw.
  set (d' := mkField (cls d) (_field d) true). simpl.
  erewrite bind_ok by (eapply (indices_len st d'); eauto).
  erewrite bind_ok by (eapply (replace_indices st d'); eauto).
  set (st1 := <[_field d' := _]> st).
  assert (Hg1 : st1 !! _field d'
                = Some (mkGroup (attrs gd) (Indexed dest_indices v)))
    by apply lookup_insert_eq.
  erewrite bind_ok by (eapply (bytes_len st1 d'); eauto).
  erewrite bind_ok by (eapply (replace_bytes st1 d'); eauto).
  unfold ret. simpl. subst st1. by rewrite insert_insert_eq.
Qed.

(** ** Gathering the rows of an indexed string *)

Lemma span_offsets_encode ss : ∀ acc,
  ops.span_offsets acc (map list_byte_of_string ss) = offsets_from acc ss.
Proof. induction ss as [|s ss IH]; intros acc; simpl; [done|]. by rewrite IH. Qed.

Lemma row_count_offsets ss :
  ops.row_count (0 :: offsets_from 0 ss) = length ss.
Proof. unfold ops.row_count. simpl. by rewrite length_offsets_from. Qed.

Lemma row_span_offsets ss (k : nat) s :
  ss !! k = Some s →
  ops.row_span (0 :: offsets_from 0 ss) (flat ss) k = list_byte_of_string s.
Proof.
  intros Hs. pose proof (lookup_lt_Some _ _ _ Hs) as Hk.
  unfold ops.row_span.
  rewrite !offsets_lookup by lia. simpl.
  rewrite (take_S_r _ _ _ Hs), flat_app, length_app.
  assert (Hone : flat [s] = list_byte_of_string s).
  { unfold flat; simpl. apply app_nil_r. }
  rewrite Hone, !Z.add_0_l, Nat2Z.inj_add.
  rewrite <- (take_drop_middle ss k s Hs) at 1.
  rewrite flat_app.
  replace (flat (s :: drop (S k) ss))
    with (list_byte_of_string s ++ flat (drop (S k) ss)) by done.
  apply py_slice_middle.
Qed.

(** Positions inside [[0, n)] gather the strings they name. *)
Lemma gather_indexed ss index values idx :
  holds ss index values →
  Forall (λ i, 0 ≤ i < Z.of_nat (length ss)) idx →
  ∃ ss', ops.apply_indices_to_index_values idx index values
         = Ok (0 :: offsets_from 0 ss', flat ss')
         ∧ Forall2 (λ i s, ss !! Z.to_nat i = Some s) idx ss'.
Proof.
  intros [Hv Hi] Hidx.
  unfold ops.apply_indices_to_index_values.
  assert (Hspans : ∃ ss',
    traverse (λ i, if decide (0 ≤ i < Z.of_nat (ops.row_count index))
                   then Ok (ops.row_span index values (Z.to_nat i))
                   else Raise IndexError) idx
    = Ok (map list_byte_of_string ss')
    ∧ Forall2 (λ i s, ss !! Z.to_nat i = Some s) idx ss').
  { induction Hidx as [|i idx Hi0 _ IH]; simpl.
    - exists []. split; [done|constructor].
    - destruct IH as (ss' & -> & Hall).
      destruct (lookup_lt_is_Some_2 ss (Z.to_nat i)) as [s Hs]; [lia|].
      destruct Hi as [->|[-> ->]]; [|simpl in Hi0; lia].
      rewrite row_count_offsets, decide_True by lia.
      subst values. rewrite (row_span_offsets _ _ _ Hs). simpl.
      exists (s :: ss'). split; [done|]. by constructor. }
  destruct Hspans as (ss' & -> & Hall). simpl.
  exists ss'. split; [|done].
  by rewrite span_offsets_encode.
Qed.

(** ** Reading the rows of a field *)

Lemma group_ok (st : Store) p g : st !! p = Some g → group p st = (Ok g, st).
Proof. intros H. unfold group. by rewrite H. Qed.

Lemma lift_ok {S A} (r : result A) a (s : S) : r = Ok a → lift r s = (Ok a, s).
Proof. by intros ->. Qed.


Lemma indexed_getitem_holds ss index values (c : nat) (j : nat) s :
  holds ss index values → ss !! j = Some s →
  WIFA.getitem (WIFA.init index values c) (Z.of_nat j) = Ok s
  ∧ ROIFA.getitem (ROIFA.mk index values) (Z.of_nat j) = Ok s.
Proof.
  intros [Hv Hi] Hs.
  destruct Hi as [Hi|[-> _]]; [|done].
  assert (H : WIFA.getitem (WIFA.init index values c) (Z.of_nat j) = Ok s).
  { eapply completed_getitem; eauto. }
  split; [done|]. exact H.
Qed.

Lemma indexed_data_getitem st f g ix v ss c (j : nat) s :
  st !! _field f = Some g → dsets g = Indexed ix v →
  attrs g !! "chunksize" = Some (AttrInt c) → 0 ≤ c →
  holds ss ix v → ss !! j = Some s →
  IndexedStringField.data_getitem f (Z.of_nat j) st = (Ok s, st).
Proof.
  intros Hg Hd Hchunk Hc0 Hh Hs.
  destruct (indexed_getitem_holds ss ix v (Z.to_nat c) _ s Hh Hs) as [HW HR].
  unfold IndexedStringField.data_getitem.
  erewrite bind_ok by (by apply group_ok).
  erewrite bind_ok by (apply lift_ok; unfold indexed_arrays; by rewrite Hd).
  simpl. destruct (_write_enabled f).
  - erewrite bind_ok by (apply lift_ok; unfold attr_of; by rewrite Hchunk).
    cbn beta iota. rewrite decide_False by lia.
    by apply lift_ok.
  - by apply lift_ok.
Qed.

Lemma row_at_position st f rows i r :
  field_rows st f rows →
  position_ok (cls f) (Z.of_nat (length rows)) i →
  rows !! position_row (Z.of_nat (length rows)) i = Some r →
  (row_at f i st).1 = Ok r.
Proof.
  intros [Hb (g & Hg & Hrows)] Hpos Hr.
  destruct Hb as (g' & Hg' & Hft & Hcls).
  rewrite Hg in Hg'. injection Hg' as <-.
  assert (Hflat : cls f ≠ IndexedString →
    (∃ v, flat_values g = Ok v ∧ rows = map RowCell v) →
    (let* c := FlatField.data_getitem f i in ret (RowCell c)) st = (Ok r, st)
    ∨ ((let* c := FlatField.data_getitem f i in ret (RowCell c)) st).1 = Ok r).
  { intros Hne (v & Hv & ->). right.
    rewrite length_map in *.
    assert (Hin : - Z.of_nat (length v) ≤ i < Z.of_nat (length v))
      by (destruct (cls f); simpl in Hpos; done).
    destruct (np_item_ok v i Hin) as (x & Hx & Hlook).
    rewrite list_lookup_fmap, Hlook in Hr. injection Hr as <-.
    pose proof (flat_data_getitem st f g v i Hg Hv) as Hget.
    unfold bind.
    destruct (FlatField.data_getitem f i st) as [[c|e] st'];
      simpl in *; congruence. }
  unfold row_at.
  destruct (cls f) eqn:Hc.
  - destruct Hrows as (ss & ix & v & Hd & Hh & ->).
    destruct Hcls as (_ & c & Hchunk & Hc0).
    rewrite length_map in *. simpl in Hpos.
    unfold position_row in Hr. rewrite decide_False in Hr by lia.
    rewrite list_lookup_fmap in Hr.
    destruct (ss !! Z.to_nat i) as [s|] eqn:Hs; [|done].
    injection Hr as <-.
    pose proof (indexed_data_getitem st f g ix v ss c _ s
                  Hg Hd Hchunk Hc0 Hh Hs) as Hget.
    rewrite Z2Nat.id in Hget by lia.
    by erewrite bind_ok by exact Hget.
  - destruct (Hflat ltac:(done) Hrows) as [->|H]; done.
  - destruct (Hflat ltac:(done) Hrows) as [->|H]; done.
  - destruct (Hflat ltac:(done) Hrows) as [->|H]; done.
  - destruct (Hflat ltac:(done) Hrows) as [->|H]; done.
Qed.

(** ** apply_index, class by class *)

Section conversion.
Context {conversion : Conversion}.

Lemma flat_apply_index_rows st self dstfld rows idx :
  cls self ≠ IndexedString →
  field_rows st self rows → destination st self dstfld →
  Forall (λ i, - Z.of_nat (length rows) ≤ i < Z.of_nat (length rows)) idx →
  ∃ d st' rows',
    FlatField.apply_index self idx dstfld st = (Ok d, st')
    ∧ cls d = cls self
    ∧ _field d = _field (match dstfld with None => self | Some d => d end)
    ∧ (∀ p, p ≠ _field d → st' !! p = st !! p)
    ∧ field_rows st' d rows'
    ∧ Forall2 (λ i r, rows !! position_row (Z.of_nat (length rows)) i = Some r)
        idx rows'.
Proof.
  intros Hne [Hb (g & Hg & Hrows)] Hdst Hidx.
  assert (∃ v, flat_values g = Ok v ∧ rows = map RowCell v) as (v & Hv & ->)
    by (destruct (cls self); done).
  rewrite length_map in *.
  set (d := match dstfld with None => self | Some d => d end).
  assert (Hd : cls d = cls self ∧ bound st d).
  { subst d. destruct dstfld as [d|]; [|done].
    destruct Hdst as (? & ? & _). done. }
  destruct Hd as [Hcd (gd & Hgd & Hft & Hcls)].
  assert (∃ vd, flat_values gd = Ok vd) as [vd Hvd]
    by (rewrite Hcd in Hcls; destruct (cls self); done).
  destruct (destination_dtype st self dstfld g v gd vd Hdst Hg Hv Hgd Hvd)
    as (dtype & Hdt & Hdtd).
  destruct (traverse_ok (np_item v) idx) as [result Hres].
  { eapply Forall_impl; [exact Hidx|]. intros i Hi.
    destruct (np_item_ok v i Hi) as (x & Hx & _). eauto. }
  exists (mkField (cls d) (_field d) true),
         (<[_field d := set_flat_values gd result]> st),
         (map RowCell result).
  split; [by eapply flat_apply_index_ok|].
  split; [done|]. split; [done|].
  split; [intros p Hp; simpl in Hp; by rewrite lookup_insert_ne|]. split.
  - assert (Hlook : <[_field d := set_flat_values gd result]> st !! _field d
                    = Some (set_flat_values gd result))
      by apply lookup_insert_eq.
    assert (Hfv := flat_values_set gd vd result Hvd).
    split.
    + exists (set_flat_values gd result). simpl.
      split; [done|]. split; [by rewrite attrs_set_flat_values|].
      rewrite Hcd. destruct (cls self); eauto; done.
    + exists (set_flat_values gd result). simpl. split; [done|].
      rewrite Hcd. destruct (cls self); eauto; done.
  - apply traverse_Forall2 in Hres.
    apply Forall2_fmap_r.
    eapply Forall2_impl; [exact Hres|]. intros i x Hx. simpl in Hx.
    rewrite list_lookup_fmap.
    destruct (decide (- Z.of_nat (length v) ≤ i < Z.of_nat (length v)))
      as [Hi|Hi].
    + destruct (np_item_ok v i Hi) as (x' & Hx' & Hlook).
      rewrite Hlook. simpl. congruence.
    + rewrite np_item_out in Hx by done. discriminate.
Qed.

Lemma flat_apply_index_out st self dstfld rows idx :
  cls self ≠ IndexedString →
  field_rows st self rows →
  Exists (λ i, ¬ - Z.of_nat (length rows) ≤ i < Z.of_nat (length rows)) idx →
  FlatField.apply_index self idx dstfld st = (Raise IndexError, st).
Proof.
  intros Hne [Hb (g & Hg & Hrows)] Hex.
  assert (∃ v, flat_values g = Ok v ∧ rows = map RowCell v) as (v & Hv & ->)
    by (destruct (cls self); done).
  rewrite length_map in *.
  eapply flat_apply_index_raise; eauto.
  apply traverse_raise.
  - apply Forall_forall. intros i _ e. apply np_item_error.
  - eapply Exists_impl; [exact Hex|]. intros i Hi. simpl in Hi.
    rewrite np_item_out by done. eauto.
Qed.

Lemma indexed_apply_index_rows st self dstfld rows idx :
  cls self = IndexedString →
  field_rows st self rows → destination st self dstfld →
  Forall (λ i, 0 ≤ i < Z.of_nat (length rows)) idx →
  ∃ d st' rows',
    IndexedStringField.apply_index self idx dstfld st = (Ok d, st')
    ∧ cls d = cls self
    ∧ field_rows st' d rows'
    ∧ Forall2 (λ i r, rows !! position_row (Z.of_nat (length rows)) i = Some r)
        idx rows'.
Proof.
  intros Hc [Hb (g & Hg & Hrows)] Hdst Hidx.
  rewrite Hc in Hrows. destruct Hrows as (ss & ix & v & Hd & Hh & ->).
  rewrite length_map in *.
  set (d := match dstfld with None => self | Some d => d end).
  assert (Hdb : cls d = cls self ∧ bound st d).
  { subst d. destruct dstfld as [d|]; [|done].
    destruct Hdst as (? & ? & _). done. }
  destruct Hdb as [Hcd (gd & Hgd & Hft & Hcls)].
  rewrite Hcd, Hc in Hcls.
  destruct Hcls as ((id & vd & Hdd) & c & Hchunk & Hc0).
  destruct (gather_indexed ss ix v idx Hh Hidx) as (ss' & Hgather & Hall).
  destruct (indexed_all st self g ix v Hg Hd) as [Hia Hva].
  exists (mkField (cls d) (_field d) true),
    (<[_field d := mkGroup (attrs gd)
                     (Indexed (0 :: offsets_from 0 ss') (flat ss'))]> st),
    (map RowStr ss').
  split.
  { unfold IndexedStringField.apply_index.
    erewrite bind_ok by exact Hia.
    erewrite bind_ok by exact Hva.
    erewrite bind_ok by (apply lift_ok; exact Hgather).
    simpl. by eapply indexed_store_result. }
  split; [done|]. split.
  - split.
    + eexists. simpl. split; [apply lookup_insert_eq|]. simpl.
      split; [done|]. rewrite Hcd, Hc.
      split; [by do 2 eexists | exists c; by split].
    + eexists. simpl. split; [apply lookup_insert_eq|]. simpl.
      rewrite Hcd, Hc. exists ss'. do 2 eexists.
      split; [done|]. split; [|done]. split; [done|by left].
  - assert (Hall' : Forall2 (λ i s, 0 ≤ i ∧ ss !! Z.to_nat i = Some s) idx ss').
    { clear -Hall Hidx.
      induction Hall; inversion Hidx; subst; constructor; auto.
      split; [lia|done]. }
    apply Forall2_fmap_r.
    eapply Forall2_impl; [exact Hall'|]. intros i s [Hi0 Hs]. simpl.
    rewrite list_lookup_fmap. unfold position_row.
    rewrite decide_False by lia. by rewrite Hs.
Qed.

Lemma apply_index_indexed self idx dstfld :
  cls self = IndexedString →
  apply_index self idx dstfld = IndexedStringField.apply_index self idx dstfld.
Proof. intros H. unfold apply_index. by rewrite H. Qed.

Lemma apply_index_flat self idx dstfld :
  cls self ≠ IndexedString →
  apply_index self idx dstfld = FlatField.apply_index self idx dstfld.
Proof. intros H. unfold apply_index. by destruct (cls self). Qed.

Lemma position_ok_indexed c n i :
  c = IndexedString → position_ok c n i ↔ 0 ≤ i < n.
Proof. by intros ->. Qed.

Lemma position_ok_flat c n i :
  c ≠ IndexedString → position_ok c n i ↔ - n ≤ i < n.
Proof. by destruct c. Qed.

(** apply_index leaves in the destination the rows the positions name. *)
Lemma apply_index_rows st self dstfld rows idx :
  field_rows st self rows → destination st self dstfld →
  Forall (position_ok (cls self) (Z.of_nat (length rows))) idx →
  ∃ d st' rows',
    apply_index self idx dstfld st = (Ok d, st')
    ∧ cls d = cls self
    ∧ field_rows st' d rows'
    ∧ Forall2 (λ i r, rows !! position_row (Z.of_nat (length rows)) i = Some r)
        idx rows'.
Proof.
  intros Hrows Hdst Hidx.
  destruct (decide (cls self = IndexedString)) as [Hc|Hc].
  - rewrite apply_index_indexed by done.
    apply indexed_apply_index_rows; auto.
    eapply Forall_impl; [exact Hidx|]. intros i. by apply position_ok_indexed.
  - rewrite apply_index_flat by done.
    destruct (flat_apply_index_rows st self dstfld rows idx Hc Hrows Hdst)
      as (d & st' & rows' & Happ & Hcd & _ & _ & Hrows' & Hall).
    { eapply Forall_impl; [exact Hidx|]. intros i. by apply position_ok_flat. }
    by exists d, st', rows'.
Qed.


End conversion.

(** ** apply_filter *)

Lemma select_map {A B} (f : A → B) l : ∀ mask,
  select (map f l) mask = map f (select l mask).
Proof.
  induction l as [|x l IH]; intros [|b mask]; simpl; try done.
  destruct b; simpl; by rewrite IH.
Qed.

Lemma row_spans_holds ss index values :
  holds ss index values →
  map (ops.row_span index values) (seq 0 (ops.row_count index))
  = map list_byte_of_string ss.
Proof.
  intros [-> [->|[-> ->]]]; [|done].
  rewrite row_count_offsets.
  apply list_eq. intros k. rewrite !list_lookup_fmap.
  destruct (ss !! k) as [s|] eqn:Hs; simpl.
  - pose proof (lookup_lt_Some _ _ _ Hs).
    rewrite lookup_seq_lt by done. simpl.
    by rewrite (row_span_offsets _ _ _ Hs).
  - apply lookup_ge_None in Hs. by rewrite lookup_seq_ge by done.
Qed.

Lemma filter_indexed ss index values mask :
  holds ss index values → length mask = length ss →
  ops.apply_filter_to_index_values mask index values
  = Ok (0 :: offsets_from 0 (select ss mask), flat (select ss mask)).
Proof.
  intros Hh Hlen. unfold ops.apply_filter_to_index_values.
  assert (Hn : ops.row_count index = length ss).
  { destruct Hh as [_ [->|[-> ->]]]; [apply row_count_offsets|done]. }
  rewrite decide_True by congruence.
  rewrite (row_spans_holds _ _ _ Hh), select_map, span_offsets_encode.
  done.
Qed.

Section conversion.
Context {conversion : Conversion}.

Lemma apply_filter_indexed self mask dstfld :
  cls self = IndexedString →
  apply_filter self mask dstfld = IndexedStringField.apply_filter self mask dstfld.
Proof. intros H. unfold apply_filter. by rewrite H. Qed.

Lemma apply_filter_flat self mask dstfld :
  cls self ≠ IndexedString →
  apply_filter self mask dstfld = FlatField.apply_filter self mask dstfld.
Proof. intros H. unfold apply_filter. by destruct (cls self). Qed.

(** apply_filter leaves the selected rows in the destination (the field
    itself when none is given), whatever handle it was called on, and
    returns a writable handle on it. *)
Lemma apply_filter_rows st self dstfld rows mask :
  field_rows st self rows → destination st self dstfld →
  length mask = length rows →
  ∃ d st',
    apply_filter self mask dstfld st = (Ok d, st')
    ∧ _field d = _field (match dstfld with None => self | Some d => d end)
    ∧ _write_enabled d = true
    ∧ field_rows st' d (select rows mask).
Proof.
  intros [Hb (g & Hg & Hrows)] Hdst Hlen.
  set (d := match dstfld with None => self | Some d => d end).
  assert (Hdb : cls d = cls self ∧ bound st d).
  { subst d. destruct dstfld as [d|]; [|done].
    destruct Hdst as (? & ? & _). done. }
  destruct Hdb as [Hcd (gd & Hgd & Hft & Hcls)].
  destruct (decide (cls self = IndexedString)) as [Hc|Hc].
  - rewrite apply_filter_indexed by done.
    rewrite Hc in Hrows. destruct Hrows as (ss & ix & v & Hd & Hh & ->).
    rewrite length_map in Hlen.
    rewrite Hcd, Hc in Hcls.
    destruct Hcls as ((id & vd & Hdd) & c & Hchunk & Hc0).
    destruct (indexed_all st self g ix v Hg Hd) as [Hia Hva].
    exists (mkField (cls d) (_field d) true),
      (<[_field d := mkGroup (attrs gd)
           (Indexed (0 :: offsets_from 0 (select ss mask))
              (flat (select ss mask)))]> st).
    split.
    { unfold IndexedStringField.apply_filter.
      erewrite bind_ok by exact Hia.
      erewrite bind_ok by exact Hva.
      erewrite bind_ok by (apply lift_ok; by apply filter_indexed).
      simpl. by eapply indexed_store_result. }
    split; [done|]. split; [done|]. split.
    + eexists. simpl. split; [apply lookup_insert_eq|]. simpl.
      split; [done|]. rewrite Hcd, Hc.
      split; [by do 2 eexists | exists c; by split].
    + eexists. simpl. split; [apply lookup_insert_eq|]. simpl.
      rewrite Hcd, Hc. exists (select ss mask). do 2 eexists.
      split; [done|]. split; [|by rewrite select_map].
      split; [done|by left].
  - rewrite apply_filter_flat by done.
    assert (∃ v, flat_values g = Ok v ∧ rows = map RowCell v) as (v & Hv & ->)
      by (destruct (cls self); done).
    rewrite length_map in Hlen.
    assert (∃ vd, flat_values gd = Ok vd) as [vd Hvd]
      by (rewrite Hcd in Hcls; destruct (cls self); done).
    destruct (destination_dtype st self dstfld g v gd vd Hdst Hg Hv Hgd Hvd)
      as (dtype & Hdt & Hdtd).
    exists (mkField (cls d) (_field d) true),
      (<[_field d := set_flat_values gd (select v mask)]> st).
    split; [by eapply flat_apply_filter_ok|].
    split; [done|]. split; [done|].
    assert (Hfv := flat_values_set gd vd (select v mask) Hvd).
    split.
    + eexists. simpl. split; [apply lookup_insert_eq|].
      split; [by rewrite attrs_set_flat_values|].
      rewrite Hcd. destruct (cls self); eauto; done.
    + eexists. simpl. split; [apply lookup_insert_eq|].
      rewrite Hcd, select_map. destruct (cls self); eauto; done.
Qed.

End conversion.

(** ** Read-only handles *)

Lemma read_only_mutate {A} (m : mutation A) (ds : list A) :
  mutate false m ds = (Raise PermissionError, ds).
Proof. by destruct m. Qed.

Lemma read_only_mutate_indexed a m : mutate_indexed a m = Raise PermissionError.
Proof. by destruct m. Qed.

Lemma read_only_on_values st f g v (m : mutation cell) :
  st !! _field f = Some g → flat_values g = Ok v →
  Field.on_values f (mutate false m) st = (Raise PermissionError, st).
Proof. intros Hg Hv. eapply on_values_raise; eauto. apply read_only_mutate. Qed.

Lemma read_only_on_indices st f g i v (m : mutation Z) :
  st !! _field f = Some g → dsets g = Indexed i v →
  Field.on_indices f (mutate false m) st = (Raise PermissionError, st).
Proof.
  intros Hg Hd. unfold Field.on_indices, indexed_arrays.
  by rewrite Hg, Hd, read_only_mutate.
Qed.

Lemma read_only_on_bytes st f g i v (m : mutation byte) :
  st !! _field f = Some g → dsets g = Indexed i v →
  Field.on_bytes f (mutate false m) st = (Raise PermissionError, st).
Proof.
  intros Hg Hd. unfold Field.on_bytes, indexed_arrays.
  by rewrite Hg, Hd, read_only_mutate.
Qed.

(** ** The example file *)

Lemma example_numeric_field_rows :
  field_rows example_store example_numeric example_numeric_rows.
Proof.
  split.
  - eexists. split; [reflexivity|]. split; [by eexists|]. by eexists.
  - eexists. split; [reflexivity|]. by eexists.
Qed.

Lemma example_indexed_field_rows :
  field_rows example_store example_indexed example_indexed_rows.
Proof.
  split.
  - eexists. split; [reflexivity|]. split; [by eexists|].
    split; [by do 2 eexists|]. exists 4. by split.
  - eexists. split; [reflexivity|].
    exists ["ab"; ""; "cde"]%string. do 2 eexists.
    split; [reflexivity|]. split; [|done]. split; [done|by left].
Qed.

Lemma example_target_bound : bound example_store example_target.
Proof.
  eexists. split; [reflexivity|]. split; [by eexists|].
  split; [by do 2 eexists|]. exists 4. by split.
Qed.

Lemma test_numf_field_rows :
  field_rows (<["/df2/numf" := key_group 0]> test_store)
    (mkField Numeric "/df/numf" false)
    (RowCell <$> (CInt <$> [1; 2; 3; 4; 5; 6; 7; 8])).
Proof.
  split.
  - eexists. split; [reflexivity|]. split; [by eexists|]. by eexists.
  - eexists. split; [reflexivity|]. by eexists.
Qed.

Lemma test_numf_destination :
  destination (<["/df2/numf" := key_group 0]> test_store)
    (mkField Numeric "/df/numf" false)
    (Some (mkField Numeric "/df2/numf" false)).
Proof.
  split; [done|]. split; [|reflexivity].
  eexists. split; [reflexivity|]. split; [by eexists|]. by eexists.
Qed.

(** The examples are run with the conversion [example_conversion]. *)
Section examples.
#[local] Existing Instance example_conversion.



End examples.

(** ** Read-only handles *)

Section conversion.
Context {conversion : Conversion}.


End conversion.

Section examples.
#[local] Existing Instance example_conversion.



End examples.

(** ** write_part after complete *)

Lemma complete_twice w : WIFA.complete (WIFA.complete w) = WIFA.complete w.
Proof.
  destruct w as [idx vals c rv ri acc ii vi].
  unfold WIFA.complete, WIFA.flush_values, WIFA.flush_indices; simpl.
  destruct (decide (vi ≠ 0%nat)); simpl;
    destruct (decide (ii ≠ 0%nat)); simpl;
    repeat (destruct (decide _); simpl; try done).
Qed.

(** C8 (as amended). No writer keeps a "completed" state: [write_part] called
    after [complete()] returns normally.  On a [WriteableFieldArray] the part
    is appended at once; on a [WriteableIndexedFieldArray] it is staged as
    after any other call and the next [complete()] flushes it, so that the
    arrays hold everything written before and after the first [complete()];
    a second [complete()] in a row changes nothing. *)
Theorem C8_write_part_after_complete (C : nat) (cs : list call)
    (part : list string) :
  (0 < C)%nat →
  (∃ w, run (cs ++ [Complete; WritePart part]) (fresh C) = Ok w)
  ∧ (∃ w, run (cs ++ [Complete; WritePart part; Complete]) (fresh C) = Ok w
       ∧ WIFA._values_dataset w = flat (written cs ++ part)
       ∧ WIFA._index_dataset w
         = match written cs ++ part with
           | [] => []
           | _ => 0 :: offsets_from 0 (written cs ++ part)
           end)
  ∧ (∀ (A : Type) (ds p : list A),
       (let* _ := WriteableFieldArray.complete in
        WriteableFieldArray.write_part p) ds = (Ok tt, ds ++ p))
  ∧ (∀ w, WIFA.complete (WIFA.complete w) = WIFA.complete w).
Proof.
  intros HC. split; [|split; [|split]].
  - destruct (staged_run C HC (cs ++ [Complete; WritePart part]) (fresh C)
                [] [] (staged_fresh C HC)) as (w & Hrun & _).
    eauto.
  - destruct (run_then_complete C (cs ++ [Complete; WritePart part]) HC)
      as (w & Hrun & Hv & Hi).
    rewrite <- app_assoc in Hrun. simpl in Hrun.
    assert (Hw : written (cs ++ [Complete; WritePart part])
                 = written cs ++ part).
    { rewrite written_app. f_equal. unfold written. simpl.
      by rewrite app_nil_r. }
    rewrite Hw in Hv, Hi. eauto.
  - intros A ds p.
    unfold bind, WriteableFieldArray.complete, WriteableFieldArray.write_part,
      DataWriter.flush, DataWriter.write.
    by rewrite firstn_all.
  - apply complete_twice.
Qed.

Lemma C8_write_part_after_complete_witness :
  (∃ w, run ([WritePart ["ab"; "c"]] ++ [Complete; WritePart ["de"; ""]])
          (fresh 2) = Ok w)
  ∧ (∃ w, run ([WritePart ["ab"; "c"]]
                 ++ [Complete; WritePart ["de"; ""]; Complete]) (fresh 2) = Ok w
       ∧ WIFA._values_dataset w
         = flat (written [WritePart ["ab"; "c"]] ++ ["de"; ""])
       ∧ WIFA._index_dataset w
         = match written [WritePart ["ab"; "c"]] ++ ["de"; ""] with
           | [] => []
           | _ => 0 :: offsets_from 0
                         (written [WritePart ["ab"; "c"]] ++ ["de"; ""])
           end)
  ∧ (∀ (A : Type) (ds p : list A),
       (let* _ := WriteableFieldArray.complete in
        WriteableFieldArray.write_part p) ds = (Ok tt, ds ++ p))
  ∧ (∀ w, WIFA.complete (WIFA.complete w) = WIFA.complete w).
Proof.
  apply (C8_write_part_after_complete 2 [WritePart ["ab"; "c"]] ["de"; ""]).
  lia.
Defined.

(** C8 (as stated) fails: after [complete()], [write_part] returns normally
    on both kinds of writable array. *)
Lemma C8_counterexample :
  (∃ w, run [WritePart ["a"]; Complete; WritePart ["b"]] (fresh 4) = Ok w
        ∧ WIFA._index_dataset w = [0; 1]
        ∧ WIFA._index_index w = 1%nat)
  ∧ (let* _ := WriteableFieldArray.complete in
     WriteableFieldArray.write_part [CInt 2]) [CInt 1]
    = (Ok tt, [CInt 1; CInt 2]).
Proof.
  split; [|reflexivity].
  eexists. split; [vm_compute; reflexivity|]. split; reflexivity.
Qed.

(** * The importers of fields.py *)

(** ** Reading back what a writable indexed array was handed *)

Lemma read_rows_written w ss :
  WIFA._values_dataset w = flat ss →
  WIFA._index_dataset w
  = match ss with [] => [] | _ => 0 :: offsets_from 0 ss end →
  read_rows w = map Ok ss.
Proof.
  intros Hvals Hidx. destruct ss as [|s0 ss'].
  - unfold read_rows, WIFA.len. by rewrite Hidx.
  - by apply completed_read_rows.
Qed.

(** Once completed, an array that was handed the strings [ss] since it was
    empty reads back as [ss]. *)
Lemma staged_read_rows (C : nat) w ss :
  (0 < C)%nat →
  staged C w (flat ss) (offsets_from 0 ss) →
  read_rows (WIFA.complete w) = map Ok ss.
Proof.
  intros HC Hw.
  destruct (staged_complete C HC w _ _ Hw) as (Hw' & Hv & Hi).
  destruct (staged_flushed C _ _ _ Hw' Hv Hi) as (Hvals & Hidx).
  apply read_rows_written; [done|]. rewrite Hidx. by destruct ss.
Qed.

(** ** LeakyCategoricalImporter *)

Lemma setitem_app {A} (l1 l2 : list A) x y :
  setitem (l1 ++ y :: l2) (length l1) x = Ok (l1 ++ x :: l2).
Proof.
  unfold setitem. rewrite decide_True by (rewrite length_app; simpl; lia).
  f_equal. replace (length l1) with (length l1 + 0)%nat at 1 by lia.
  by rewrite insert_app_r.
Qed.

Lemma setitem_beyond {A} (l : list A) (i : nat) x :
  (length l ≤ i)%nat → setitem l i x = Raise IndexError.
Proof. intros H. unfold setitem. by rewrite decide_False by lia. Qed.

(** The loop of [write_part] over the cells of a chunk that fits what is
    left of the buffers. *)
Lemma classify_loop keys dtype vs : ∀ (k : nat) done_r done_s rest_r rest_s,
  length done_r = k → length done_s = k →
  (length vs ≤ length rest_r)%nat → (length vs ≤ length rest_s)%nat →
  for_each (LCI.classify keys dtype) (imap (λ i v, ((k + i)%nat, v)) vs)
    (done_r ++ rest_r, done_s ++ rest_s)
  = Ok (done_r ++ (leaky_stored keys dtype <$> vs) ++ drop (length vs) rest_r,
        done_s ++ (Some ∘ leaky_text keys <$> vs) ++ drop (length vs) rest_s).
Proof.
  induction vs as [|v vs IH]; intros k dr ds rr rs Hr Hs Hlr Hls; simpl.
  - done.
  - destruct rr as [|r0 rr]; [simpl in Hlr; lia|].
    destruct rs as [|s0 rs]; [simpl in Hls; lia|].
    simpl in Hlr, Hls.
    unfold LCI.classify at 1. simpl.
    rewrite Nat.add_0_r. rewrite <- Hs at 1. rewrite setitem_app. simpl.
    rewrite <- Hr at 1. rewrite setitem_app. simpl.
    rewrite (imap_ext _ (λ i v, ((S k + i)%nat, v)))
      by (intros; simpl; f_equal; lia).
    change (default (-1) (dict_get keys v)) with (leaky_code keys v).
    change (if decide (leaky_code keys v = -1) then v else EmptyString)
      with (leaky_text keys v).
    change (cast_int dtype (leaky_code keys v))
      with (leaky_stored keys dtype v).
    set (c := leaky_stored keys dtype v). set (t := Some (leaky_text keys v)).
    rewrite (cons_middle c dr rr), (cons_middle t ds rs).
    rewrite (app_assoc dr [c] rr), (app_assoc ds [t] rs).
    rewrite (IH (S k) (dr ++ [c]) (ds ++ [t]) rr rs)
      by (rewrite ?length_app; simpl; lia).
    by rewrite <- !app_assoc.
Qed.

Lemma strings_of_some l : LCI.strings_of (Some <$> l) = Ok l.
Proof.
  unfold LCI.strings_of. induction l as [|s l IH]; [done|].
  rewrite fmap_cons. cbn [traverse rbind]. by rewrite IH.
Qed.

Lemma py_slice_prefix {A} (l1 l2 : list A) :
  py_slice (l1 ++ l2) 0 (Z.of_nat (length l1)) = l1.
Proof.
  unfold py_slice, slice_bound. rewrite !decide_False by lia.
  rewrite length_app. rewrite Z.min_l by lia. rewrite Z.min_l by lia.
  rewrite Z.sub_0_r, Nat2Z.id. change (Z.to_nat 0) with 0%nat.
  rewrite drop_0. apply take_app_length.
Qed.

(** What [write_part] hands on to the two fields: the first [n] entries of
    a buffer, or the buffer itself when the chunk fills it. *)
Lemma chunk_of_buffer {A} (n : nat) (filled rest : list A) :
  length filled = n →
  (if decide (n ≠ length (filled ++ rest))
   then py_slice (filled ++ rest) 0 (Z.of_nat n)
   else filled ++ rest) = filled.
Proof.
  intros Hn. destruct (decide _) as [Hne|Heq].
  - rewrite <- Hn. apply py_slice_prefix.
  - apply dec_stable in Heq. rewrite length_app in Heq.
    destruct rest as [|x rest]; [apply app_nil_r|]. simpl in Heq. lia.
Qed.

(** One chunk: the codes are appended to the categorical field, the texts
    are handed to the companion array, and the buffers keep their size. *)
Lemma leaky_write_part (C : nat) imp values B O :
  (0 < C)%nat →
  length (LCI._results imp) = C → length (LCI._strresult imp) = C →
  staged C (LCI._str_field_data imp) B O →
  (length values ≤ C)%nat →
  ∃ imp', LCI.write_part imp values = Ok imp'
          ∧ LCI._keys imp' = LCI._keys imp
          ∧ LCI._dtype imp' = LCI._dtype imp
          ∧ length (LCI._results imp') = C
          ∧ length (LCI._strresult imp') = C
          ∧ LCI._field_data imp'
            = LCI._field_data imp
                ++ (CInt <$> (leaky_stored (LCI._keys imp) (LCI._dtype imp)
                                <$> values))
          ∧ staged C (LCI._str_field_data imp')
              (B ++ flat (leaky_text (LCI._keys imp) <$> values))
              (O ++ offsets_from (Z.of_nat (length B))
                      (leaky_text (LCI._keys imp) <$> values)).
Proof.
  intros HC Hr Hs Hw Hlen.
  destruct imp as [data w keys dtype results strresult]. simpl in *.
  destruct (staged_write_part C HC (leaky_text keys <$> values) w B O Hw)
    as (w' & Hwp & Hw').
  unfold LCI.write_part. simpl.
  pose proof (classify_loop keys dtype values 0 [] [] results strresult
                eq_refl eq_refl) as Hloop.
  simpl in Hloop. rewrite Hloop by lia. clear Hloop. simpl.
  set (codes := leaky_stored keys dtype <$> values).
  set (texts := Some ∘ leaky_text keys <$> values).
  assert (Hlc : length codes = length values) by apply length_fmap.
  assert (Hlt : length texts = length values) by apply length_fmap.
  assert (Htexts : texts = Some <$> (leaky_text keys <$> values)).
  { subst texts. by rewrite <- list_fmap_compose. }
  assert (Hrest' : length (codes ++ drop (length values) results)
                   = length values → drop (length values) strresult = []).
  { rewrite length_app, Hlc, length_drop. intros E.
    apply nil_length_inv. rewrite length_drop. lia. }
  assert (Hpre_s :
    (if decide (length values
                ≠ length (codes ++ drop (length values) results))
     then py_slice (texts ++ drop (length values) strresult)
            0 (Z.of_nat (length values))
     else texts ++ drop (length values) strresult) = texts).
  { destruct (decide _) as [Hne|Heq].
    - rewrite <- Hlt. apply py_slice_prefix.
    - apply dec_stable in Heq. symmetry in Heq.
      rewrite (Hrest' Heq). apply app_nil_r. }
  rewrite Hpre_s.
  rewrite (chunk_of_buffer (length values) codes _ Hlc).
  rewrite Htexts, strings_of_some. simpl. rewrite Hwp. simpl.
  eexists. split; [reflexivity|]. simpl.
  split; [done|]. split; [done|]. split.
  { rewrite length_app, length_drop, Hlc. lia. }
  split.
  { rewrite <- Htexts. rewrite length_app, length_drop, Hlt. lia. }
  split; [|exact Hw'].
  unfold DataWriter.write. f_equal. apply take_ge. by rewrite length_fmap.
Qed.

(** Chunk after chunk. *)
Lemma leaky_write_parts (C : nat) chunks : ∀ imp B O,
  (0 < C)%nat →
  length (LCI._results imp) = C → length (LCI._strresult imp) = C →
  staged C (LCI._str_field_data imp) B O →
  Forall (λ chunk, (length chunk ≤ C)%nat) chunks →
  ∃ imp', for_each LCI.write_part chunks imp = Ok imp'
          ∧ LCI._field_data imp'
            = LCI._field_data imp
                ++ (CInt <$> (leaky_stored (LCI._keys imp) (LCI._dtype imp)
                                <$> concat chunks))
          ∧ staged C (LCI._str_field_data imp')
              (B ++ flat (leaky_text (LCI._keys imp) <$> concat chunks))
              (O ++ offsets_from (Z.of_nat (length B))
                      (leaky_text (LCI._keys imp) <$> concat chunks)).
Proof.
  induction chunks as [|chunk chunks IH]; intros imp B O HC Hr Hs Hw Hall.
  - simpl. exists imp. rewrite !app_nil_r. done.
  - apply Forall_cons in Hall as [Hlen Hall]. simpl.
    destruct (leaky_write_part C imp chunk B O HC Hr Hs Hw Hlen)
      as (imp1 & -> & Hk & Hdt & Hr1 & Hs1 & Hd1 & Hw1). simpl.
    destruct (IH imp1 _ _ HC Hr1 Hs1 Hw1 Hall) as (imp2 & -> & Hd2 & Hw2).
    exists imp2. split; [done|].
    rewrite Hk, Hdt in Hd2. rewrite Hk in Hw2.
    rewrite !fmap_app, flat_app, offsets_from_app.
    split.
    + by rewrite Hd2, Hd1, <- app_assoc.
    + rewrite length_app, Nat2Z.inj_add in Hw2.
      by rewrite !app_assoc.
Qed.

(** X1. Importing a column chunk by chunk through
    [LeakyCategoricalImporter.write_part], the importer made with an
    integer [value_type] and every chunk within the chunk size, and then
    [complete()]: the categorical field receives, in order, the code of
    every cell, [-1] for a text that is not a key, each as the buffer of
    dtype [value_type] stores it, which is the code itself when the code
    lies within the bounds of [value_type]; the companion indexed string
    reads back, row by row, the text of the cells whose code in the key
    table is [-1] and the empty string for the others.  What the chunk
    buffers held before does not show. *)
Theorem leaky_import_chunks (C : nat) (keys : dict Z) (dtype : string)
    (signed : bool) (bits : Z) (chunks : list (list string))
    (data : list cell) (results : list Z)
    (strresult : list (option string)) :
  (0 < C)%nat → length results = C → length strresult = C →
  Forall (λ chunk, (length chunk ≤ C)%nat) chunks →
  int_dtype dtype = Some (signed, bits) →
  ∃ imp, for_each LCI.write_part chunks
           (LCI.mk data (fresh C) keys dtype results strresult) = Ok imp
         ∧ LCI._field_data (LCI.complete imp)
           = data ++ (CInt <$> (leaky_stored keys dtype <$> concat chunks))
         ∧ read_rows (LCI._str_field_data (LCI.complete imp))
           = Ok <$> (leaky_text keys <$> concat chunks)
         ∧ Forall (λ v, int_min signed bits ≤ leaky_stored keys dtype v
                        ≤ int_max signed bits) (concat chunks)
         ∧ (Forall (λ v, int_min signed bits ≤ leaky_code keys v
                         ≤ int_max signed bits) (concat chunks) →
            leaky_stored keys dtype <$> concat chunks
            = leaky_code keys <$> concat chunks).
Proof.
  intros HC Hr Hs Hall Hdt.
  destruct (leaky_write_parts C chunks
              (LCI.mk data (fresh C) keys dtype results strresult) [] []
              HC Hr Hs (staged_fresh C HC) Hall) as (imp & Hrun & Hd & Hw).
  simpl in Hd, Hw. exists imp. split; [done|]. split; [done|].
  split; [by apply (staged_read_rows C)|]. split.
  - apply Forall_forall. intros v _. by eapply cast_int_bounds.
  - intros Hin. apply Forall_fmap_ext_1. eapply Forall_impl; [exact Hin|].
    intros v Hv. by eapply cast_int_in_range.
Qed.

Lemma leaky_import_chunks_witness :
  ∃ imp, for_each LCI.write_part [["foo"; "baz"; "bar"]; []; ["-"; "big"]]
           (LCI.mk [CInt 7] (fresh 3)
              [("foo", 0); ("bar", 1); ("-", -1); ("big", 300)] "uint8"
              [9; 9; 9] [None; Some "stale"; None]) = Ok imp
         ∧ LCI._field_data (LCI.complete imp)
           = [CInt 7]
               ++ (CInt <$> (leaky_stored
                               [("foo", 0); ("bar", 1); ("-", -1);
                                ("big", 300)] "uint8"
                               <$> concat [["foo"; "baz"; "bar"]; [];
                                           ["-"; "big"]]))
         ∧ read_rows (LCI._str_field_data (LCI.complete imp))
           = Ok <$> (leaky_text
                       [("foo", 0); ("bar", 1); ("-", -1); ("big", 300)]
                       <$> concat [["foo"; "baz"; "bar"]; []; ["-"; "big"]])
         ∧ Forall (λ v, int_min false 8
                        ≤ leaky_stored
                            [("foo", 0); ("bar", 1); ("-", -1); ("big", 300)]
                            "uint8" v
                        ≤ int_max false 8)
             (concat [["foo"; "baz"; "bar"]; []; ["-"; "big"]])
         ∧ (Forall (λ v, int_min false 8
                         ≤ leaky_code
                             [("foo", 0); ("bar", 1); ("-", -1);
                              ("big", 300)] v
                         ≤ int_max false 8)
              (concat [["foo"; "baz"; "bar"]; []; ["-"; "big"]]) →
            leaky_stored
              [("foo", 0); ("bar", 1); ("-", -1); ("big", 300)] "uint8"
              <$> concat [["foo"; "baz"; "bar"]; []; ["-"; "big"]]
            = leaky_code
                [("foo", 0); ("bar", 1); ("-", -1); ("big", 300)]
                <$> concat [["foo"; "baz"; "bar"]; []; ["-"; "big"]]).
Proof.
  apply (leaky_import_chunks 3
           [("foo", 0); ("bar", 1); ("-", -1); ("big", 300)] "uint8" false 8
           [["foo"; "baz"; "bar"]; []; ["-"; "big"]]%string
           [CInt 7] [9; 9; 9] [None; Some "stale"%string; None]).
  - lia.
  - reflexivity.
  - reflexivity.
  - repeat constructor; simpl; lia.
  - reflexivity.
Defined.

(** X2. A chunk longer than the chunk size is an [IndexError]: the loop of
    [write_part] runs off the end of the buffers before anything is handed
    to the fields. *)
Theorem leaky_chunk_too_long (imp : LCI.t) (values : list string) :
  length (LCI._strresult imp) = length (LCI._results imp) →
  (length (LCI._results imp) < length values)%nat →
  LCI.write_part imp values = Raise IndexError.
Proof.
  intros Hs Hlen.
  destruct imp as [data w keys dtype results strresult]. simpl in *.
  unfold LCI.write_part. simpl.
  rewrite <- (take_drop (length results) values).
  destruct (drop (length results) values) as [|v rest] eqn:Hdrop.
  { apply (f_equal length) in Hdrop. rewrite length_drop in Hdrop.
    simpl in Hdrop. lia. }
  rewrite imap_app, for_each_app.
  pose proof (classify_loop keys dtype (take (length results) values) 0 [] []
                results strresult eq_refl eq_refl) as Hloop.
  simpl in Hloop. rewrite Hloop by (rewrite length_take; lia). clear Hloop.
  rewrite length_take, Nat.min_l by lia.
  rewrite drop_all, <- Hs, drop_all, !app_nil_r. simpl.
  unfold LCI.classify at 1. simpl.
  rewrite setitem_beyond; [done|].
  rewrite length_fmap, length_take. lia.
Qed.

Lemma leaky_chunk_too_long_witness :
  LCI.write_part
    (LCI.mk [] (fresh 2) [("foo", 0); ("bar", 1)] "int8" [0; 0] [None; None])
    ["foo"; "baz"; "bar"]
  = Raise IndexError.
Proof.
  apply (leaky_chunk_too_long
           (LCI.mk [] (fresh 2) [("foo", 0); ("bar", 1)] "int8" [0; 0]
              [None; None])
           ["foo"; "baz"; "bar"]%string).
  - reflexivity.
  - simpl. lia.
Defined.

(** * More on the indexed array objects *)

(** ** A new writable handle on a written field *)

Lemma staged_init (C : nat) ss :
  (0 < C)%nat →
  staged C (WIFA.init (index_of ss) (flat ss) C) (flat ss) (offsets_from 0 ss).
Proof.
  intros HC. unfold staged, WIFA.init, np_zeros. simpl.
  rewrite !length_replicate, !app_nil_r.
  split; [done|]. split; [done|]. split; [done|]. split; [done|].
  split; [done|]. split; [done|].
  destruct ss as [|s ss]; simpl.
  - split; [done|]. split; [by left|done].
  - split; [done|]. split; [right; eauto|].
    pose proof (offsets_last (s :: ss) 0) as Hl. simpl in Hl.
    rewrite Hl. simpl. done.
Qed.

(** X3. A [WriteableIndexedFieldArray] made over a field that already holds
    the strings [ss] picks the byte count up from the last offset: whatever
    is then written, in parts of any size and with any [complete()] calls
    between, once completed the field holds [ss] followed by the new
    strings, and reads back so. *)
Theorem indexed_append_to_written_field (C : nat) (ss : list string)
    (cs : list call) :
  (0 < C)%nat →
  ∃ w, run (cs ++ [Complete]) (WIFA.init (index_of ss) (flat ss) C) = Ok w
       ∧ WIFA._values_dataset w = flat (ss ++ written cs)
       ∧ WIFA._index_dataset w = index_of (ss ++ written cs)
       ∧ read_rows w = map Ok (ss ++ written cs).
Proof.
  intros HC.
  destruct (staged_run C HC cs _ _ _ (staged_init C ss HC))
    as (w1 & Hrun & Hw1).
  rewrite <- flat_app in Hw1.
  assert (Hoff : offsets_from 0 ss
                   ++ offsets_from (Z.of_nat (length (flat ss))) (written cs)
                 = offsets_from 0 (ss ++ written cs)).
  { by rewrite offsets_from_app. }
  rewrite Hoff in Hw1.
  destruct (staged_complete C HC w1 _ _ Hw1) as (Hw2 & Hv & Hi).
  destruct (staged_flushed C _ _ _ Hw2 Hv Hi) as (Hvals & Hidx).
  assert (Hidx' : WIFA._index_dataset (WIFA.complete w1)
                  = index_of (ss ++ written cs)).
  { rewrite Hidx. unfold index_of. by destruct (ss ++ written cs). }
  exists (WIFA.complete w1). split.
  - unfold run in *. rewrite for_each_app, Hrun. reflexivity.
  - split; [done|]. split; [done|]. by apply read_rows_written.
Qed.

Lemma indexed_append_to_written_field_witness :
  ∃ w, run ([WritePart ["cde"; "f"]; Complete; WritePart [""; "gh"]]
              ++ [Complete])
         (WIFA.init (index_of ["ab"; ""]) (flat ["ab"; ""]) 2) = Ok w
       ∧ WIFA._values_dataset w
         = flat (["ab"; ""]
                   ++ written [WritePart ["cde"; "f"]; Complete;
                               WritePart [""; "gh"]])
       ∧ WIFA._index_dataset w
         = index_of (["ab"; ""]
                       ++ written [WritePart ["cde"; "f"]; Complete;
                                   WritePart [""; "gh"]])
       ∧ read_rows w
         = map Ok (["ab"; ""]
                     ++ written [WritePart ["cde"; "f"]; Complete;
                                 WritePart [""; "gh"]]).
Proof.
  apply (indexed_append_to_written_field 2 ["ab"; ""]%string
           [WritePart ["cde"; "f"]; Complete; WritePart [""; "gh"]]%string).
  lia.
Defined.

(** ** clear() *)

Lemma staged_clear (C : nat) w B O :
  staged C w B O →
  WIFA._value_index w = 0%nat → WIFA._index_index w = 0%nat →
  staged C (WIFA.clear w) [] [].
Proof.
  intros (Hc & Hrv & Hri & Hvi & Hii & HB & HO & Hsh & Hacc) Hv Hi.
  unfold staged, WIFA.clear, DataWriter.write, DataWriter.clear_dataset.
  simpl. rewrite Hv, Hi. simpl.
  split; [done|]. split; [done|]. split; [done|]. split; [lia|].
  split; [lia|]. split; [done|]. split; [done|]. split; [by left|done].
Qed.

(** X4. [clear()] on a completed [WriteableIndexedFieldArray] empties the
    field for good: whatever was written before, what is written after the
    [clear()] and completed is all the field then holds, with offsets that
    start again at 0. *)
Theorem indexed_clear_then_write (C : nat) (before after : list call) :
  (0 < C)%nat →
  ∃ w w', run (before ++ [Complete]) (fresh C) = Ok w
          ∧ WIFA._index_dataset (WIFA.clear w) = []
          ∧ WIFA._values_dataset (WIFA.clear w) = []
          ∧ run (after ++ [Complete]) (WIFA.clear w) = Ok w'
          ∧ WIFA._values_dataset w' = flat (written after)
          ∧ WIFA._index_dataset w' = index_of (written after)
          ∧ read_rows w' = map Ok (written after).
Proof.
  intros HC.
  destruct (staged_run C HC before (fresh C) [] [] (staged_fresh C HC))
    as (w1 & Hrun1 & Hw1).
  destruct (staged_complete C HC w1 _ _ Hw1) as (Hw2 & Hv & Hi).
  pose proof (staged_clear C _ _ _ Hw2 Hv Hi) as Hc.
  destruct (staged_run C HC after _ [] [] Hc) as (w3 & Hrun3 & Hw3).
  simpl in Hw3.
  destruct (staged_complete C HC w3 _ _ Hw3) as (Hw4 & Hv4 & Hi4).
  destruct (staged_flushed C _ _ _ Hw4 Hv4 Hi4) as (Hvals & Hidx).
  assert (Hidx' : WIFA._index_dataset (WIFA.complete w3)
                  = index_of (written after)).
  { rewrite Hidx. unfold index_of. by destruct (written after). }
  exists (WIFA.complete w1), (WIFA.complete w3).
  split; [unfold run in *; by rewrite for_each_app, Hrun1|].
  split; [done|]. split; [done|].
  split; [unfold run in *; by rewrite for_each_app, Hrun3|].
  split; [done|]. split; [done|]. by apply read_rows_written.
Qed.

Lemma indexed_clear_then_write_witness :
  ∃ w w', run ([WritePart ["ab"; "cde"]] ++ [Complete]) (fresh 2) = Ok w
          ∧ WIFA._index_dataset (WIFA.clear w) = []
          ∧ WIFA._values_dataset (WIFA.clear w) = []
          ∧ run ([WritePart ["x"]; WritePart [""; "yz"]] ++ [Complete])
              (WIFA.clear w) = Ok w'
          ∧ WIFA._values_dataset w'
            = flat (written [WritePart ["x"]; WritePart [""; "yz"]])
          ∧ WIFA._index_dataset w'
            = index_of (written [WritePart ["x"]; WritePart [""; "yz"]])
          ∧ read_rows w'
            = map Ok (written [WritePart ["x"]; WritePart [""; "yz"]]).
Proof.
  apply (indexed_clear_then_write 2 [WritePart ["ab"; "cde"]]%string
           [WritePart ["x"]; WritePart [""; "yz"]]%string).
  lia.
Defined.

(** ** Items outside the rows *)

Lemma length_py_slice {A} (l : list A) a b :
  (length (py_slice l a b)
   ≤ Z.to_nat (slice_bound (Z.of_nat (length l)) b
               - slice_bound (Z.of_nat (length l)) a))%nat.
Proof. unfold py_slice. rewrite length_take. lia. Qed.

Lemma py_slice_from_end {A} (l : list A) (k : nat) (item : Z) :
  item = Z.of_nat k - Z.of_nat (length l) → (S (S k) < length l)%nat →
  py_slice l item (item + 2) = py_slice l (Z.of_nat k) (Z.of_nat k + 2).
Proof.
  intros -> Hk. unfold py_slice, slice_bound.
  rewrite !decide_True by lia. rewrite !decide_False by lia.
  f_equal; [|f_equal]; lia.
Qed.

Lemma getitem_short index values (c : nat) item :
  (length (py_slice index item (item + 2)) ≤ 1)%nat →
  WIFA.getitem (WIFA.init index values c) item = Raise ValueError.
Proof.
  intros Hlen. unfold WIFA.getitem. simpl.
  destruct (decide _); [done|].
  destruct (py_slice index item (item + 2)) as [|x [|y [|z t]]];
    simpl in Hlen; try done; lia.
Qed.

(** X5. Reading [data[item]] of an indexed string of [n] rows with an
    [item] outside [[0, n)], through a writable or a read-only handle.  At
    [n] and beyond it is a [ValueError].  A negative item is not counted
    from the last row: [-1] and [-2] are [ValueError]s, as is anything
    below [-(n + 1)], and an item from [-(n + 1)] to [-3] reads row
    [n + 1 + item], the row after the one Python's convention names. *)
Theorem indexed_getitem_outside_rows (ss : list string) (c : nat) (item : Z) :
  ss ≠ [] →
  ¬ (0 ≤ item < Z.of_nat (length ss)) →
  let n := Z.of_nat (length ss) in
  let w := WIFA.init (index_of ss) (flat ss) c in
  let r := ROIFA.mk (index_of ss) (flat ss) in
  ROIFA.getitem r item = WIFA.getitem w item
  ∧ (n ≤ item ∨ -3 < item ∨ item < - (n + 1) →
     WIFA.getitem w item = Raise ValueError)
  ∧ (- (n + 1) ≤ item ≤ -3 →
     ∃ s, ss !! Z.to_nat (n + 1 + item) = Some s
          ∧ WIFA.getitem w item = Ok s).
Proof.
  intros Hne Hout n w r.
  assert (Hidx : index_of ss = 0 :: offsets_from 0 ss) by by destruct ss.
  assert (Hlen : length (index_of ss) = S (length ss)).
  { rewrite Hidx. simpl. by rewrite length_offsets_from. }
  split; [reflexivity|]. split.
  - intros Hcase.
    destruct (decide (n ≤ item)) as [Hbig|Hneg].
    + by apply (completed_getitem_beyond w ss).
    + apply getitem_short.
      etrans; [apply length_py_slice|].
      rewrite Hlen. unfold slice_bound.
      repeat (destruct (decide _)); lia.
  - intros Hin.
    destruct (lookup_lt_is_Some_2 ss (Z.to_nat (n + 1 + item))) as [s Hs];
      [lia|].
    exists s. split; [done|].
    assert (Hget : WIFA.getitem w (Z.of_nat (Z.to_nat (n + 1 + item))) = Ok s)
      by (by apply (completed_getitem w ss)).
    rewrite <- Hget. unfold WIFA.getitem. subst w. simpl.
    rewrite !decide_False by (rewrite Hlen; lia).
    rewrite (py_slice_from_end _ (Z.to_nat (n + 1 + item)) item)
      by (rewrite Hlen; lia).
    done.
Qed.

Lemma indexed_getitem_outside_rows_witness :
  let ss := ["ab"; ""; "cde"; "f"]%string in
  let item := -4 in
  let n := Z.of_nat (length ss) in
  let w := WIFA.init (index_of ss) (flat ss) 3 in
  let r := ROIFA.mk (index_of ss) (flat ss) in
  ROIFA.getitem r item = WIFA.getitem w item
  ∧ (n ≤ item ∨ -3 < item ∨ item < - (n + 1) →
     WIFA.getitem w item = Raise ValueError)
  ∧ (- (n + 1) ≤ item ≤ -3 →
     ∃ s, ss !! Z.to_nat (n + 1 + item) = Some s
          ∧ WIFA.getitem w item = Ok s).
Proof.
  apply (indexed_getitem_outside_rows ["ab"; ""; "cde"; "f"]%string 3 (-4)).
  - done.
  - simpl. lia.
Defined.

(** ** Slices *)

Lemma take_offsets_from (m : nat) ss : ∀ acc,
  take m (offsets_from acc ss) = offsets_from acc (take m ss).
Proof.
  revert m. induction ss as [|s ss IH]; intros [|m] acc; simpl; try done.
  by rewrite IH.
Qed.

Lemma flat_take_prefix (m : nat) ss :
  py_slice (flat ss) 0 (Z.of_nat (length (flat (take m ss))))
  = flat (take m ss).
Proof.
  rewrite <- (take_drop m ss) at 1. rewrite flat_app. apply py_slice_prefix.
Qed.

Lemma py_slice_nil {A} a b : py_slice (@nil A) a b = [].
Proof. unfold py_slice. by rewrite drop_nil, take_nil. Qed.

Lemma setitem_app_at {A} (l1 l2 : list A) (j : nat) x y :
  length l1 = j → setitem (l1 ++ y :: l2) j x = Ok (l1 ++ x :: l2).
Proof. intros <-. apply setitem_app. Qed.

(** The loop over the rows of a slice that starts at row 0. *)
Lemma slice_rows_loop ss (d : nat) : ∀ (j : nat),
  (j + d)%nat = length ss →
  for_each (slice_row (0 :: offsets_from 0 ss) (flat ss) 0) (seq j d)
    ((Some <$> take j ss) ++ replicate d None)
  = Ok (Some <$> ss).
Proof.
  induction d as [|d IH]; intros j Hj; simpl.
  - rewrite app_nil_r, take_ge by lia. done.
  - destruct (lookup_lt_is_Some_2 ss j) as [s Hs]; [lia|].
    unfold slice_row at 1.
    rewrite (np_item_nonneg _ j _ (offsets_lookup ss 0 j ltac:(lia))). simpl.
    replace (Z.of_nat j + 1) with (Z.of_nat (S j)) by lia.
    rewrite (np_item_nonneg _ (S j) _ (offsets_lookup ss 0 (S j) ltac:(lia))).
    simpl.
    pose proof (row_span_offsets ss j s Hs) as Hspan.
    unfold ops.row_span in Hspan.
    rewrite !offsets_lookup in Hspan by lia. simpl in Hspan.
    rewrite !Z.sub_0_r, Hspan, string_of_list_byte_of_string.
    assert (Hlen : length (Some <$> take j ss) = j)
      by (rewrite length_fmap, length_take; lia).
    rewrite (setitem_app_at _ _ j _ _ Hlen). simpl.
    rewrite cons_middle, app_assoc.
    replace ((Some <$> take j ss) ++ [Some s]) with (Some <$> take (S j) ss)
      by (by rewrite (take_S_r _ _ _ Hs), fmap_app).
    apply IH. lia.
Qed.

Lemma last_item_offsets ss :
  np_item (0 :: offsets_from 0 ss) (-1) = Ok (Z.of_nat (length (flat ss))).
Proof.
  unfold np_item. cbn [length]. rewrite length_offsets_from.
  rewrite decide_True by lia. rewrite decide_True by lia.
  replace (Z.to_nat (-1 + Z.of_nat (S (length ss)))) with (length ss) by lia.
  rewrite offsets_lookup by lia. by rewrite take_ge by lia.
Qed.

(** X6. [data[:stop]] of an indexed string, with [stop] left out or not
    negative and [start] left out or 0, returns the first [stop] rows (all
    of them if there are fewer), through a writable handle as through a
    read-only one; on a field in which nothing was ever written every slice
    is an [IndexError], raised by [index[0]]. *)
Theorem indexed_slice_from_first_row (bounded : bool) (ss : list string)
    (start stop : option Z) :
  ss ≠ [] →
  start = None ∨ start = Some 0 →
  (∀ z, stop = Some z → 0 ≤ z) →
  getitem_slice bounded (index_of ss) (flat ss) start stop
  = Ok (Some <$> match stop with
                 | None => ss
                 | Some z => take (Z.to_nat z) ss
                 end)
  ∧ (∀ values start' stop',
       getitem_slice bounded [] values start' stop' = Raise IndexError).
Proof.
  intros Hne Hstart Hstop. split.
  2:{ intros values start' stop'. unfold getitem_slice.
      by rewrite py_slice_nil. }
  assert (Hidx : index_of ss = 0 :: offsets_from 0 ss) by by destruct ss.
  assert (Hs0 : default 0 start = 0) by by destruct Hstart as [-> | ->].
  set (n := length ss).
  set (m := match stop with None => n | Some z => Nat.min (Z.to_nat z) n end).
  set (stop_ := default (Z.of_nat (length (index_of ss)) - 1) stop).
  assert (Hstop_ : Z.of_nat m = Z.min stop_ (Z.of_nat n) ∧ 0 ≤ stop_).
  { subst stop_ m. rewrite Hidx. simpl. rewrite length_offsets_from.
    destruct stop as [z|]; simpl; [|fold n; lia].
    specialize (Hstop z eq_refl). fold n. lia. }
  destruct Hstop_ as [Hm Hstop0].
  assert (Hrows : match stop with
                  | None => ss
                  | Some z => take (Z.to_nat z) ss
                  end = take m ss).
  { subst m. destruct stop as [z|].
    - destruct (decide (Z.to_nat z ≤ n)%nat).
      + by rewrite Nat.min_l by lia.
      + rewrite Nat.min_r by lia. by rewrite !take_ge by (fold n; lia).
    - by rewrite take_ge. }
  rewrite Hrows.
  assert (Hindex : py_slice (index_of ss) 0 (stop_ + 1)
                   = 0 :: offsets_from 0 (take m ss)).
  { rewrite Hidx. unfold py_slice, slice_bound.
    rewrite !decide_False by lia. simpl length.
    rewrite length_offsets_from. fold n.
    rewrite (Z.min_l 0) by lia. change (Z.to_nat 0) with 0%nat.
    rewrite drop_0.
    replace (Z.to_nat (Z.min (stop_ + 1) (Z.of_nat (S n)) - 0))
      with (S m) by lia.
    simpl. by rewrite take_offsets_from. }
  unfold getitem_slice. fold stop_. rewrite Hs0, Hindex.
  change (np_item (0 :: offsets_from 0 (take m ss)) 0) with (@Ok Z 0).
  cbn [rbind]. rewrite last_item_offsets. cbn [rbind].
  rewrite flat_take_prefix.
  assert (Hlen : length (take m ss) = m) by (rewrite length_take; lia).
  cbn [length]. rewrite length_offsets_from, Hlen.
  replace (S m - 1)%nat with m by lia. rewrite length_replicate.
  replace (if bounded then Z.to_nat (Z.min (Z.of_nat m) (stop_ - 0)) else m)
    with m by (destruct bounded; lia).
  pose proof (slice_rows_loop (take m ss) m 0 ltac:(lia)) as Hloop.
  rewrite take_0 in Hloop. exact Hloop.
Qed.

Lemma indexed_slice_from_first_row_witness :
  getitem_slice true (index_of ["ab"; ""; "cde"; "f"])
    (flat ["ab"; ""; "cde"; "f"]) None (Some 3)
  = Ok (Some <$> take (Z.to_nat 3) ["ab"; ""; "cde"; "f"])
  ∧ (∀ values start' stop',
       getitem_slice true [] values start' stop' = Raise IndexError).
Proof.
  apply (indexed_slice_from_first_row true ["ab"; ""; "cde"; "f"]%string
           None (Some 3)).
  - done.
  - by left.
  - intros z [= <-]. lia.
Defined.

(** * The field constructors *)

Lemma dict_contains_true {V} (d : dict V) k :
  dict_contains d k = true ↔ k ∈ d.*1.
Proof. unfold dict_contains. by rewrite bool_decide_eq_true. Qed.

Lemma dict_contains_false {V} (d : dict V) k :
  dict_contains d k = false ↔ k ∉ d.*1.
Proof. unfold dict_contains. by rewrite bool_decide_eq_false. Qed.

Lemma parent_contains_fresh w p name :
  fresh_name w p name → parent_contains p name w = (Ok false, w).
Proof.
  intros [Hfile Hp]. destruct p as [path|df]; simpl in *.
  - rewrite Hfile. rewrite bool_decide_eq_false_2; [done|].
    by intros [? ?].
  - destruct Hp as (c & Hc & Hn).
    unfold frame_contains, bind, columns, ret. rewrite Hc.
    by apply dict_contains_false in Hn as ->.
Qed.

(** The world once the group of a field was made and filled. *)
Lemma base_field_contructor_fresh s p name ts cs w :
  fresh_name w p name →
  base_field_contructor s p name ts cs w
  = (Ok (child (parent_path p) name),
     mkWorld (session w)
       (<[child (parent_path p) name :=
            mkGroup (<["timestamp" := AttrInt (chunksize_or_default s cs)]>
                       (<["chunksize" := AttrInt (chunksize_or_default s cs)]>
                          ∅))
              NoArrays]> (file w))
       (frames w)).
Proof.
  intros Hfresh. pose proof Hfresh as [Hfile _].
  unfold base_field_contructor.
  erewrite bind_ok by (by apply parent_contains_fresh).
  cbn beta iota.
  unfold parent_create_group, h5_create_group, bind at 1. rewrite Hfile.
  unfold set_attr, bind, ret. simpl.
  rewrite lookup_insert_eq. simpl. rewrite lookup_insert_eq. simpl.
  rewrite !insert_insert_eq. done.
Qed.

Lemma set_attr_inserted path k v s st fr g :
  set_attr path k v (mkWorld s (<[path := g]> st) fr)
  = (Ok tt, mkWorld s (<[path := mkGroup (<[k := v]> (attrs g)) (dsets g)]> st)
              fr).
Proof.
  unfold set_attr. simpl. rewrite lookup_insert_eq.
  by rewrite insert_insert_eq.
Qed.

Lemma create_arrays_inserted path a s st fr g :
  create_arrays path a (mkWorld s (<[path := g]> st) fr)
  = (Ok tt, mkWorld s (<[path := mkGroup (attrs g) a]> st) fr).
Proof.
  unfold create_arrays. simpl. rewrite lookup_insert_eq.
  by rewrite insert_insert_eq.
Qed.

(** Every constructor, on a free name, leaves one new group in the file
    and nothing else. *)
Lemma field_constructor_fresh e s p name ts cs w :
  fresh_name w p name →
  ∃ g, field_constructor e s p name ts cs w
       = (Ok (child (parent_path p) name),
          mkWorld (session w)
            (<[child (parent_path p) name := g]> (file w)) (frames w))
       ∧ attrs g !! "timestamp" = Some (AttrInt (chunksize_or_default s cs))
       ∧ attrs g !! "chunksize" = Some (AttrInt (chunksize_or_default s cs))
       ∧ is_Some (attrs g !! "fieldtype")
       ∧ dsets g = match e with
                   | EIndexedString => Indexed [] []
                   | EFixedString length => Flat ("S" +:+ pretty length) []
                   | ENumeric nformat => Flat nformat []
                   | ECategorical nformat key =>
                       Keyed nformat [] (cast_int "int8" <$> key.*2) key.*1
                   | ETimestamp => Flat "float64" []
                   end.
Proof.
  intros Hfresh.
  pose proof (base_field_contructor_fresh s p name ts cs w Hfresh) as Hbase.
  destruct e as [|len|nformat|nformat key|]; simpl;
    [ unfold indexed_string_field_constructor
    | unfold fixed_string_field_constructor
    | unfold numeric_field_constructor
    | unfold categorical_field_constructor
    | unfold timestamp_field_constructor ];
    erewrite bind_ok by exact Hbase;
    repeat (first [ erewrite bind_ok by apply set_attr_inserted
                  | erewrite bind_ok by apply create_arrays_inserted ]);
    unfold ret; simpl;
    eexists; (split; [reflexivity|]); simpl;
    unfold DataWriter.write; rewrite ?firstn_all;
    rewrite ?(take_ge (cast_int "int8" <$> _)) by (by rewrite !length_fmap);
    repeat split; try done; eauto.
Qed.

Lemma world_eta w : mkWorld (session w) (file w) (frames w) = w.
Proof. by destruct w. Qed.

(** X7. A field constructor called with a free name makes one new group
    and touches nothing else; a handle opens on it; the field is empty; and
    its [chunksize] and its [timestamp] both read back the chunk size (the
    session's when none is given), whatever [timestamp] was passed: the
    argument is not used. *)
Theorem constructor_makes_empty_field (e : encoding) (s : Session)
    (p : parent) (name : string) (ts : pyobj) (cs : option Z) (w : World) :
  fresh_name w p name →
  let path := child (parent_path p) name in
  let c := chunksize_or_default s cs in
  let f := mkField (encoding_class e) path true in
  ∃ w', field_constructor e s p name ts cs w = (Ok path, w')
        ∧ session w' = session w ∧ frames w' = frames w
        ∧ (∀ q, q ≠ path → file w' !! q = file w !! q)
        ∧ Field.init (encoding_class e) path None true (file w')
          = (Ok f, file w')
        ∧ Field.chunksize f (file w') = (Ok (AttrInt c), file w')
        ∧ Field.timestamp f (file w') = (Ok (AttrInt c), file w')
        ∧ (0 ≤ c → field_rows (file w') f []).
Proof.
  intros Hfresh path c f.
  destruct (field_constructor_fresh e s p name ts cs w Hfresh)
    as (g & Hrun & Hts & Hcs & Hft & Hd).
  fold path in Hrun. fold c in Hts, Hcs.
  eexists. split; [exact Hrun|]. simpl.
  assert (Hg : (<[path := g]> (file w) : Store) !! path = Some g)
    by apply lookup_insert_eq.
  split; [done|]. split; [done|].
  split; [intros q Hq; by apply lookup_insert_ne|].
  split.
  { unfold Field.init. erewrite bind_ok by (by apply group_ok).
    destruct Hft as [a Ha].
    erewrite bind_ok by (apply lift_ok; unfold attr_of; by rewrite Ha).
    done. }
  split.
  { unfold Field.chunksize. erewrite bind_ok by (by apply group_ok).
    apply lift_ok. unfold attr_of. by rewrite Hcs. }
  split.
  { unfold Field.timestamp. erewrite bind_ok by (by apply group_ok).
    apply lift_ok. unfold attr_of. by rewrite Hts. }
  intros Hc.
  assert (Hflat : ∀ dtype v,
            dsets g = Flat dtype v ∨ (∃ kv kn, dsets g = Keyed dtype v kv kn) →
            flat_values g = Ok v).
  { intros dtype v [Hv|(kv & kn & Hv)]; unfold flat_values; by rewrite Hv. }
  split.
  - exists g. split; [done|]. split; [done|].
    destruct e; simpl in *; eauto 10.
  - exists g. split; [done|].
    destruct e; simpl in *; eauto 10.
    exists [], [], []. split; [done|]. split; [|done].
    split; [done|by right].
Qed.

Lemma constructor_makes_empty_field_witness :
  let path := child (parent_path (FrameParent "/df2")) "codes" in
  let c := chunksize_or_default (mkSession 16) None in
  let f := mkField (encoding_class (ECategorical "int8" [("no", 0); ("yes", 1)]))
             path true in
  ∃ w', field_constructor (ECategorical "int8" [("no", 0); ("yes", 1)])
          (mkSession 16) (FrameParent "/df2") "codes" (PyInt 1600000000) None
          test_world = (Ok path, w')
        ∧ session w' = session test_world ∧ frames w' = frames test_world
        ∧ (∀ q, q ≠ path → file w' !! q = file test_world !! q)
        ∧ Field.init
            (encoding_class (ECategorical "int8" [("no", 0); ("yes", 1)]))
            path None true (file w')
          = (Ok f, file w')
        ∧ Field.chunksize f (file w') = (Ok (AttrInt c), file w')
        ∧ Field.timestamp f (file w') = (Ok (AttrInt c), file w')
        ∧ (0 ≤ c → field_rows (file w') f []).
Proof.
  apply (constructor_makes_empty_field
           (ECategorical "int8" [("no", 0); ("yes", 1)]) (mkSession 16)
           (FrameParent "/df2") "codes" (PyInt 1600000000) None test_world).
  split; [reflexivity|].
  exists []. split; [reflexivity|]. simpl. apply not_elem_of_nil.
Defined.

Lemma field_constructor_taken e s p name ts cs w :
  taken_name w p name →
  field_constructor e s p name ts cs w = (Raise ValueError, w).
Proof.
  intros Htaken.
  assert (Hbase : base_field_contructor s p name ts cs w
                  = (Raise ValueError, w)).
  { unfold base_field_contructor. destruct p as [path|df]; simpl in Htaken.
    - unfold bind at 1. simpl.
      by rewrite bool_decide_eq_true_2.
    - destruct Htaken as (c & Hc & Hcase).
      unfold bind at 1. simpl. unfold frame_contains, bind at 1, columns, ret.
      rewrite Hc.
      destruct (dict_contains c name) eqn:Hcontains; [done|].
      destruct Hcase as [Hin|[g Hg]].
      { apply dict_contains_false in Hcontains. done. }
      unfold parent_create_group, h5_create_group, bind. simpl.
      by rewrite Hg. }
  destruct e; simpl;
    [ unfold indexed_string_field_constructor
    | unfold fixed_string_field_constructor
    | unfold numeric_field_constructor
    | unfold categorical_field_constructor
    | unfold timestamp_field_constructor ];
    by erewrite bind_raise by exact Hbase.
Qed.

(** The group a constructor has made takes the name. *)
Lemma taken_after_constructor w p name g :
  fresh_name w p name →
  taken_name
    (mkWorld (session w) (<[child (parent_path p) name := g]> (file w))
       (frames w)) p name.
Proof.
  intros [_ Hp]. destruct p as [path|df]; simpl in *.
  - rewrite lookup_insert_eq. eauto.
  - destruct Hp as (c & Hc & _). exists c. split; [done|]. right.
    rewrite lookup_insert_eq. eauto.
Qed.

(** X8. A field constructor called with a name that is taken raises
    [ValueError] and leaves the file and the data frames as they were: an
    h5py group answers by the groups it holds; a data frame answers by its
    columns, and a name that is no column but has a group in the file is
    refused by [create_group].  So a name is constructed once: after a
    constructor has succeeded, every constructor called again with that
    name, whatever the encoding, is refused and changes nothing. *)
Theorem constructor_rejects_taken_name (e : encoding) (s : Session)
    (p : parent) (name : string) (ts : pyobj) (cs : option Z) (w : World) :
  (taken_name w p name →
   field_constructor e s p name ts cs w = (Raise ValueError, w))
  ∧ (fresh_name w p name →
     ∃ path w', field_constructor e s p name ts cs w = (Ok path, w')
       ∧ ∀ e' s' ts' cs',
           field_constructor e' s' p name ts' cs' w' = (Raise ValueError, w')).
Proof.
  split; [apply field_constructor_taken|].
  intros Hfresh.
  destruct (field_constructor_fresh e s p name ts cs w Hfresh)
    as (g & Hrun & _).
  do 2 eexists. split; [exact Hrun|].
  intros e' s' ts' cs'. apply field_constructor_taken.
  by apply taken_after_constructor.
Qed.

(** ** The key table of a categorical field *)

Lemma dict_set_new `{EqDecision K} {V} (d : list (K * V)) k v :
  k ∉ d.*1 → dict_set d k v = d ++ [(k, v)].
Proof.
  induction d as [|[k' v'] d IH]; intros Hk; simpl; [done|].
  rewrite fmap_cons, not_elem_of_cons in Hk. destruct Hk as [Hne Hk].
  simpl in Hne. rewrite decide_False by done. by rewrite IH.
Qed.

Lemma dict_of_app `{EqDecision K} {V} (ps : list (K * V)) : ∀ d,
  NoDup (d ++ ps).*1 → foldl (λ d kv, dict_set d kv.1 kv.2) d ps = d ++ ps.
Proof.
  induction ps as [|[k v] ps IH]; intros d Hnd; simpl.
  - by rewrite app_nil_r.
  - rewrite dict_set_new.
    + rewrite IH; rewrite <- app_assoc; done.
    + rewrite fmap_app, fmap_cons in Hnd.
      apply NoDup_app in Hnd as (_ & Hd & _).
      intros Hin. apply (Hd _ Hin). simpl. apply list_elem_of_here.
Qed.

Lemma dict_of_NoDup `{EqDecision K} {V} (ps : list (K * V)) :
  NoDup ps.*1 → dict_of ps = ps.
Proof. intros H. unfold dict_of. by rewrite dict_of_app. Qed.

Lemma zip_fst_snd {A B} (l : list (A * B)) :
  zip l.*2 l.*1 = (λ kv, (kv.2, kv.1)) <$> l.
Proof.
  induction l as [|[a b] l IH]; [done|].
  rewrite !fmap_cons. simpl. by rewrite IH.
Qed.

Ltac no_dup :=
  repeat (apply NoDup_cons; split;
          [rewrite ?not_elem_of_cons; repeat split;
           first [discriminate | lia | apply not_elem_of_nil]|]);
  apply NoDup_nil_2.

(** X9. The key table of a categorical field survives the round trip
    through the file when no two names share a code and every code lies
    within [-128 .. 127], the bounds of the dtype [int8] with which the
    codes are stored whatever the dtype of the field: the constructor
    stores the codes and the names, [keys] reads them back as a dict from
    code to name, and the dict from name to code that [create_like] makes
    of it is the table the field was made with, in the same order. *)
Theorem categorical_keys_round_trip (s : Session) (p : parent)
    (name nformat : string) (key : dict Z) (ts : pyobj) (cs : option Z)
    (w : World) (write_enabled : bool) :
  fresh_name w p name → NoDup key.*1 → NoDup key.*2 →
  Forall (λ kv, -128 ≤ kv.2 ≤ 127) key →
  ∃ w', categorical_field_constructor s p name nformat key ts cs w
        = (Ok (child (parent_path p) name), w')
        ∧ categorical_keys
            (mkField Categorical (child (parent_path p) name) write_enabled) w'
          = (Ok ((λ kv, (kv.2, kv.1)) <$> key), w')
        ∧ dict_of (map (λ kv : Z * string, (kv.2, kv.1))
                     ((λ kv, (kv.2, kv.1)) <$> key)) = key.
Proof.
  intros Hfresh Hnames Hcodes Hint8.
  destruct (field_constructor_fresh (ECategorical nformat key) s p name ts cs
              w Hfresh) as (g & Hrun & _ & _ & _ & Hd).
  assert (Hcast : cast_int "int8" <$> key.*2 = key.*2).
  { rewrite <- (list_fmap_id key.*2) at 2. apply Forall_fmap_ext_1.
    apply Forall_fmap. eapply Forall_impl; [exact Hint8|].
    intros kv Hkv. simpl.
    by apply (cast_int_in_range "int8" true 8). }
  rewrite Hcast in Hd.
  simpl in Hrun. eexists. split; [exact Hrun|]. split.
  - unfold categorical_keys, in_file, bind, group. simpl.
    rewrite lookup_insert_eq. simpl. rewrite Hd. unfold ret.
    rewrite zip_fst_snd, dict_of_NoDup; [done|].
    by rewrite <- list_fmap_compose.
  - change (map ?f ?l) with (f <$> l). rewrite <- list_fmap_compose.
    rewrite (list_fmap_ext _ id key) by (by intros ? [? ?]).
    rewrite list_fmap_id. by apply dict_of_NoDup.
Qed.

Lemma categorical_keys_round_trip_witness :
  ∃ w', categorical_field_constructor (mkSession 16) (FrameParent "/df2")
          "codes" "int8" [("no", 0); ("yes", 1); ("maybe", 2)] PyNone None
          test_world
        = (Ok (child (parent_path (FrameParent "/df2")) "codes"), w')
        ∧ categorical_keys
            (mkField Categorical
               (child (parent_path (FrameParent "/df2")) "codes") false) w'
          = (Ok ((λ kv, (kv.2, kv.1))
                   <$> [("no", 0); ("yes", 1); ("maybe", 2)]), w')
        ∧ dict_of (map (λ kv : Z * string, (kv.2, kv.1))
                     ((λ kv, (kv.2, kv.1))
                        <$> [("no", 0); ("yes", 1); ("maybe", 2)]))
          = [("no", 0); ("yes", 1); ("maybe", 2)].
Proof.
  apply (categorical_keys_round_trip (mkSession 16) (FrameParent "/df2")
           "codes" "int8" [("no", 0); ("yes", 1); ("maybe", 2)] PyNone None
           test_world false).
  - split; [reflexivity|].
    exists []. split; [reflexivity|]. simpl. apply not_elem_of_nil.
  - simpl. no_dup.
  - simpl. no_dup.
  - repeat constructor; simpl; lia.
Defined.

(** * HDF5DataFrame *)

(** ** Looking columns up and deleting them *)

Lemma columns_ok w df (c : dict HDF5Field) :
  frames w !! df = Some c → columns df w = (Ok c, w).
Proof. intros H. unfold columns. by rewrite H. Qed.

Lemma contains_ok w df (c : dict HDF5Field) name :
  frames w !! df = Some c →
  HDF5DataFrame.contains df (PyStr name) w = (Ok (dict_contains c name), w).
Proof.
  intros H. unfold HDF5DataFrame.contains, frame_contains.
  by erewrite bind_ok by (by apply columns_ok).
Qed.

Lemma getitem_columns w df (c : dict HDF5Field) name :
  frames w !! df = Some c →
  HDF5DataFrame.getitem df (PyStr name) w
  = (if dict_contains c name
     then match dict_get c name with
          | Some f => Ok f
          | None => Raise KeyError
          end
     else Raise ValueError, w).
Proof.
  intros H. unfold HDF5DataFrame.getitem.
  erewrite bind_ok by (by apply contains_ok).
  destruct (dict_contains c name); cbn [negb]; [|done].
  erewrite bind_ok by (by apply columns_ok).
  by destruct (dict_get c name).
Qed.

Lemma dict_del_names {V} (d : dict V) k : k ∉ (dict_del d k).*1.
Proof.
  unfold dict_del. rewrite list_elem_of_fmap. intros ([k' v] & -> & Hin).
  apply list_elem_of_filter in Hin as [Hne _]. by apply Hne.
Qed.

Lemma dict_del_other_names {V} (d : dict V) k k' :
  k' ≠ k → k' ∈ (dict_del d k).*1 ↔ k' ∈ d.*1.
Proof.
  intros Hne. unfold dict_del. rewrite !list_elem_of_fmap. split.
  - intros (kv & -> & Hin). apply list_elem_of_filter in Hin as [_ Hin]. eauto.
  - intros (kv & -> & Hin). exists kv. split; [done|].
    apply list_elem_of_filter. by split.
Qed.

Lemma dict_get_cons {V} (d : dict V) k k' v :
  dict_get ((k', v) :: d) k = if decide (k' = k) then Some v else dict_get d k.
Proof.
  unfold dict_get. simpl. destruct (decide (k' = k)); [done|].
  destruct (list_find _ d) as [[i kv]|]; done.
Qed.

Lemma dict_get_del_other {V} (d : dict V) k k' :
  k' ≠ k → dict_get (dict_del d k) k' = dict_get d k'.
Proof.
  intros Hne. unfold dict_del. induction d as [|[k0 v0] d IH]; [done|].
  cbn [filter list_filter fst]. destruct (decide (k0 ≠ k)) as [H0|H0].
  - rewrite !dict_get_cons. destruct (decide (k0 = k')); [done|exact IH].
  - apply dec_stable in H0. subst k0.
    rewrite dict_get_cons, decide_False by done. exact IH.
Qed.

Lemma dict_contains_del_other {V} (d : dict V) k k' :
  k' ≠ k → dict_contains (dict_del d k) k' = dict_contains d k'.
Proof.
  intros Hne. unfold dict_contains. apply bool_decide_ext.
  by apply dict_del_other_names.
Qed.

Lemma delitem_no_column w df (c : dict HDF5Field) name :
  frames w !! df = Some c → name ∉ c.*1 →
  HDF5DataFrame.delitem df (PyStr name) w = (Raise ValueError, w).
Proof.
  intros Hc Hn. apply dict_contains_false in Hn.
  unfold HDF5DataFrame.delitem.
  erewrite bind_ok by (by apply contains_ok). by rewrite Hn.
Qed.

(** X10. [del df[name]] for a name that is no column raises [ValueError],
    not [KeyError], and changes nothing; a name that is not a [str] is a
    [TypeError], as for [name in df] and [df[name]]. *)
Theorem frame_delitem_absent (w : World) (df : string) (c : dict HDF5Field)
    (name : string) :
  frames w !! df = Some c → name ∉ c.*1 →
  HDF5DataFrame.delitem df (PyStr name) w = (Raise ValueError, w)
  ∧ HDF5DataFrame.getitem df (PyStr name) w = (Raise ValueError, w)
  ∧ HDF5DataFrame.contains df (PyStr name) w = (Ok false, w)
  ∧ (∀ o, (∀ n, o ≠ PyStr n) →
          HDF5DataFrame.delitem df o w = (Raise TypeError, w)
          ∧ HDF5DataFrame.getitem df o w = (Raise TypeError, w)
          ∧ HDF5DataFrame.contains df o w = (Raise TypeError, w)).
Proof.
  intros Hc Hn.
  split; [by eapply delitem_no_column|].
  apply dict_contains_false in Hn.
  split; [|split].
  - by rewrite (getitem_columns w df c name Hc), Hn.
  - by rewrite (contains_ok w df c name Hc), Hn.
  - intros o Ho. destruct o; try done. by destruct (Ho s).
Qed.

Lemma frame_delitem_absent_witness :
  HDF5DataFrame.delitem "/df" (PyStr "age") test_world
  = (Raise ValueError, test_world)
  ∧ HDF5DataFrame.getitem "/df" (PyStr "age") test_world
    = (Raise ValueError, test_world)
  ∧ HDF5DataFrame.contains "/df" (PyStr "age") test_world
    = (Ok false, test_world)
  ∧ (∀ o, (∀ n, o ≠ PyStr n) →
          HDF5DataFrame.delitem "/df" o test_world
          = (Raise TypeError, test_world)
          ∧ HDF5DataFrame.getitem "/df" o test_world
            = (Raise TypeError, test_world)
          ∧ HDF5DataFrame.contains "/df" o test_world
            = (Raise TypeError, test_world)).
Proof.
  apply (frame_delitem_absent test_world "/df"
           [("numf", mkField Numeric "/df/numf" true)] "age").
  - reflexivity.
  - simpl. rewrite not_elem_of_cons. split; [discriminate|].
    apply not_elem_of_nil.
Defined.

(** X11. [del df[name]] for a column whose group is in the file removes
    the group and the column, and nothing else: afterwards [name in df] is
    false, [df[name]] and a second [del df[name]] raise [ValueError], and
    every other name is answered as before. *)
Theorem frame_delitem_present (w : World) (df : string)
    (c : dict HDF5Field) (name : string) :
  frames w !! df = Some c → name ∈ c.*1 →
  is_Some (file w !! child df name) →
  ∃ w', HDF5DataFrame.delitem df (PyStr name) w = (Ok tt, w')
        ∧ file w' = delete (child df name) (file w)
        ∧ frames w' = <[df := dict_del c name]> (frames w)
        ∧ HDF5DataFrame.contains df (PyStr name) w' = (Ok false, w')
        ∧ HDF5DataFrame.getitem df (PyStr name) w' = (Raise ValueError, w')
        ∧ HDF5DataFrame.delitem df (PyStr name) w' = (Raise ValueError, w')
        ∧ ∀ other, other ≠ name →
            (HDF5DataFrame.getitem df (PyStr other) w').1
            = (HDF5DataFrame.getitem df (PyStr other) w).1
            ∧ (HDF5DataFrame.contains df (PyStr other) w').1
              = (HDF5DataFrame.contains df (PyStr other) w).1.
Proof.
  intros Hc Hin [g Hg].
  set (w' := mkWorld (session w) (delete (child df name) (file w))
               (<[df := dict_del c name]> (frames w))).
  assert (Hc' : frames w' !! df = Some (dict_del c name))
    by apply lookup_insert_eq.
  exists w'. split.
  { unfold HDF5DataFrame.delitem.
    erewrite bind_ok by (by apply contains_ok).
    apply dict_contains_true in Hin. rewrite Hin. cbn [negb].
    unfold h5_delete, bind at 1. rewrite Hg.
    unfold bind, columns, set_columns. simpl. by rewrite Hc. }
  split; [done|]. split; [done|].
  pose proof (dict_del_names c name) as Hgone.
  pose proof Hgone as Hgone'. apply dict_contains_false in Hgone'.
  split; [by rewrite (contains_ok w' df _ name Hc'), Hgone'|].
  split; [by rewrite (getitem_columns w' df _ name Hc'), Hgone'|].
  split; [by eapply delitem_no_column|].
  intros other Hne.
  rewrite (getitem_columns w' df _ other Hc'), (getitem_columns w df _ other Hc).
  rewrite (contains_ok w' df _ other Hc'), (contains_ok w df _ other Hc).
  cbn [fst].
  by rewrite dict_contains_del_other, dict_get_del_other by done.
Qed.

Lemma frame_delitem_present_witness :
  ∃ w', HDF5DataFrame.delitem "/df" (PyStr "numf") test_world = (Ok tt, w')
        ∧ file w' = delete (child "/df" "numf") (file test_world)
        ∧ frames w'
          = <["/df" := dict_del [("numf", mkField Numeric "/df/numf" true)]
                         "numf"]> (frames test_world)
        ∧ HDF5DataFrame.contains "/df" (PyStr "numf") w' = (Ok false, w')
        ∧ HDF5DataFrame.getitem "/df" (PyStr "numf") w'
          = (Raise ValueError, w')
        ∧ HDF5DataFrame.delitem "/df" (PyStr "numf") w'
          = (Raise ValueError, w')
        ∧ ∀ other, other ≠ "numf"%string →
            (HDF5DataFrame.getitem "/df" (PyStr other) w').1
            = (HDF5DataFrame.getitem "/df" (PyStr other) test_world).1
            ∧ (HDF5DataFrame.contains "/df" (PyStr other) w').1
              = (HDF5DataFrame.contains "/df" (PyStr other) test_world).1.
Proof.
  apply (frame_delitem_present test_world "/df"
           [("numf", mkField Numeric "/df/numf" true)] "numf").
  - reflexivity.
  - simpl. apply list_elem_of_here.
  - eexists. reflexivity.
Defined.

(** ** Calls between dataframe.py and fields.py *)

(** More positional arguments than parameters. *)
Lemma bind_positional_too_many params : ∀ args,
  (length params < length args)%nat →
  bind_positional params args = Raise TypeError.
Proof.
  induction params as [|p params IH]; intros [|a args] Hlen; simpl in *;
    try lia; [done|].
  by rewrite IH by lia.
Qed.

Lemma bind_arguments_too_many sg args kwargs :
  (length sg < length args)%nat →
  bind_arguments sg args kwargs = Raise TypeError.
Proof.
  intros Hlen. unfold bind_arguments.
  by rewrite bind_positional_too_many by (by rewrite length_fmap).
Qed.

(** [create_like] hands [group.create_<encoding>] one positional argument
    more than the method of a data frame takes. *)
Lemma call_create_like_arity c d a1 a2 args w :
  length args = match c with
                | IndexedString | Timestamp => 2%nat
                | FixedString | Numeric => 3%nat
                | Categorical => 4%nat
                end →
  HDF5DataFrame.call_create c d (a1 :: a2 :: args) [] w = (Raise TypeError, w).
Proof.
  intros Hlen. unfold HDF5DataFrame.call_create.
  destruct c; (erewrite bind_raise; [done|]);
    unfold lift; rewrite bind_arguments_too_many; try done;
    simpl; lia.
Qed.

Lemma create_like_frame st s fr f d name :
  described st f →
  create_like f (λ c, HDF5DataFrame.call_create c d) name PyNone
    (mkWorld s st fr)
  = (Raise TypeError, mkWorld s st fr).
Proof.
  intros (g & Hg & [ts Hts] & [cs Hcs] & Hcls).
  assert (Htime : in_file (Field.timestamp f) (mkWorld s st fr)
                  = (Ok ts, mkWorld s st fr)).
  { unfold in_file, Field.timestamp, bind, group, lift, attr_of. simpl.
    by rewrite Hg, Hts. }
  assert (Hchunk : in_file (Field.chunksize f) (mkWorld s st fr)
                   = (Ok cs, mkWorld s st fr)).
  { unfold in_file, Field.chunksize, bind, group, lift, attr_of. simpl.
    by rewrite Hg, Hcs. }
  assert (Hgroup : in_file (group (_field f)) (mkWorld s st fr)
                   = (Ok g, mkWorld s st fr)).
  { unfold in_file, group. simpl. by rewrite Hg. }
  unfold create_like.
  erewrite bind_ok by (erewrite bind_ok by exact Htime; reflexivity).
  destruct (cls f).
  - erewrite bind_ok by exact Hchunk. by apply call_create_like_arity.
  - destruct Hcls as [a Ha].
    erewrite bind_ok by exact Hgroup.
    erewrite bind_ok by (apply lift_ok; unfold attr_of; by rewrite Ha).
    erewrite bind_ok by exact Hchunk. by apply call_create_like_arity.
  - destruct Hcls as [a Ha].
    erewrite bind_ok by exact Hgroup.
    erewrite bind_ok by (apply lift_ok; unfold attr_of; by rewrite Ha).
    erewrite bind_ok by exact Hchunk. by apply call_create_like_arity.
  - destruct Hcls as (dtype & v & kv & kn & Hd).
    erewrite bind_ok by exact Hgroup.
    erewrite bind_ok
      by (unfold categorical_keys; erewrite bind_ok by exact Hgroup;
          rewrite Hd; reflexivity).
    erewrite bind_ok by exact Hchunk. by apply call_create_like_arity.
  - erewrite bind_ok by exact Hchunk. by apply call_create_like_arity.
Qed.

Section conversion.
Context {conversion : Conversion}.

(** The keywords [in_place] and [target] are not parameters of the
    [apply_filter] and [apply_index] of a field. *)
Lemma call_apply_filter_keyword f mask k v w :
  k ≠ "dstfld"%string → k ≠ "filter_to_apply"%string →
  call_apply_filter f [PyMask mask] [(k, v)] w = (Raise TypeError, w).
Proof.
  intros H1 H2. unfold call_apply_filter.
  erewrite bind_raise; [done|]. unfold lift. f_equal.
  unfold bind_arguments. simpl.
  rewrite bool_decide_eq_false_2; [done|].
  rewrite !not_elem_of_cons. repeat split; try done. apply not_elem_of_nil.
Qed.

Lemma call_apply_index_keyword f idx k v w :
  k ≠ "dstfld"%string → k ≠ "index_to_apply"%string →
  call_apply_index f [PyIndex idx] [(k, v)] w = (Raise TypeError, w).
Proof.
  intros H1 H2. unfold call_apply_index.
  erewrite bind_raise; [done|]. unfold lift. f_equal.
  unfold bind_arguments. simpl.
  rewrite bool_decide_eq_false_2; [done|].
  rewrite !not_elem_of_cons. repeat split; try done. apply not_elem_of_nil.
Qed.

End conversion.

(** X12. In this snapshot no [create_...] method of a data frame returns:
    the field constructor runs and makes the group, then the field class is
    called with five arguments where [write_enabled] is both the fourth
    positional one and a keyword, which is a [TypeError].  The group stays
    in the file, no column is recorded, and calling [create_...] again with
    that name raises [ValueError]. *)
Theorem frame_create_raises (e : encoding) (df name : string) (ts : pyobj)
    (cs : option Z) (w : World) :
  fresh_name w (FrameParent df) name →
  ∃ w', HDF5DataFrame.create e df name ts cs w = (Raise TypeError, w')
        ∧ is_Some (file w' !! child df name)
        ∧ frames w' = frames w
        ∧ (∀ q, q ≠ child df name → file w' !! q = file w !! q)
        ∧ ∀ e' ts' cs',
            HDF5DataFrame.create e' df name ts' cs' w' = (Raise ValueError, w').
Proof.
  intros Hfresh.
  destruct (field_constructor_fresh e (session w) (FrameParent df) name ts cs
              w Hfresh) as (g & Hrun & _).
  simpl in Hrun.
  eexists. split; [|split; [|split; [|split]]].
  - unfold HDF5DataFrame.create.
    erewrite bind_ok by reflexivity.
    erewrite bind_ok by exact Hrun.
    erewrite bind_raise; [reflexivity|].
    unfold HDF5DataFrame.new_field. erewrite bind_raise; [reflexivity|].
    reflexivity.
  - simpl. rewrite lookup_insert_eq. eauto.
  - done.
  - intros q Hq. simpl. by rewrite lookup_insert_ne.
  - intros e' ts' cs'. unfold HDF5DataFrame.create.
    erewrite bind_ok by reflexivity.
    erewrite bind_raise; [reflexivity|].
    apply field_constructor_taken.
    by apply (taken_after_constructor w (FrameParent df)).
Qed.

Lemma frame_create_raises_witness :
  ∃ w', HDF5DataFrame.create (ENumeric "bool") "/df2" "valid_r" PyNone None
          test_world = (Raise TypeError, w')
        ∧ is_Some (file w' !! child "/df2" "valid_r")
        ∧ frames w' = frames test_world
        ∧ (∀ q, q ≠ child "/df2" "valid_r" →
                file w' !! q = file test_world !! q)
        ∧ ∀ e' ts' cs',
            HDF5DataFrame.create e' "/df2" "valid_r" ts' cs' w'
            = (Raise ValueError, w').
Proof.
  apply (frame_create_raises (ENumeric "bool") "/df2" "valid_r" PyNone None
           test_world).
  split; [reflexivity|].
  exists []. split; [reflexivity|]. simpl. apply not_elem_of_nil.
Defined.

Section conversion.
Context {conversion : Conversion}.

(** X13. In this snapshot [apply_filter] and [apply_index] of a data frame
    that has a column raise [TypeError] and change nothing.  Without a
    destination the first field is called with the keyword [in_place], with
    a destination data frame [create_like] calls its [create_...] method
    with the session as one positional argument too many (and the field
    would then be called with the keyword [target]); a destination that
    is neither [None] nor a data frame is a [TypeError] of the method
    itself. *)
Theorem frame_apply_raises (w : World) (df : string) (name : string)
    (f : HDF5Field) (c : dict HDF5Field) (mask : list bool) (idx : list Z) :
  frames w !! df = Some ((name, f) :: c) →
  described (file w) f →
  HDF5DataFrame.apply_filter df mask PyNone w = (Raise TypeError, w)
  ∧ HDF5DataFrame.apply_index df idx PyNone w = (Raise TypeError, w)
  ∧ (∀ d, HDF5DataFrame.apply_filter df mask (PyFrame d) w
          = (Raise TypeError, w)
          ∧ HDF5DataFrame.apply_index df idx (PyFrame d) w
            = (Raise TypeError, w))
  ∧ (∀ o, o ≠ PyNone → (∀ d, o ≠ PyFrame d) →
          HDF5DataFrame.apply_filter df mask o w = (Raise TypeError, w)
          ∧ HDF5DataFrame.apply_index df idx o w = (Raise TypeError, w)).
Proof.
  intros Hc Hdesc.
  pose proof (columns_ok w df _ Hc) as Hcols.
  split; [|split; [|split]].
  - unfold HDF5DataFrame.apply_filter.
    erewrite bind_ok by exact Hcols.
    erewrite bind_raise; [reflexivity|]. simpl.
    erewrite bind_raise; [reflexivity|].
    erewrite bind_raise; [reflexivity|].
    by apply call_apply_filter_keyword.
  - unfold HDF5DataFrame.apply_index.
    erewrite bind_ok by exact Hcols.
    erewrite bind_raise; [reflexivity|]. simpl.
    erewrite bind_raise; [reflexivity|].
    erewrite bind_raise; [reflexivity|].
    by apply call_apply_index_keyword.
  - intros d. destruct w as [s st fr]. simpl in Hdesc. split.
    + unfold HDF5DataFrame.apply_filter.
      erewrite bind_ok by exact Hcols.
      erewrite bind_raise; [reflexivity|]. simpl.
      erewrite bind_raise; [reflexivity|].
      erewrite bind_raise; [reflexivity|].
      by apply create_like_frame.
    + unfold HDF5DataFrame.apply_index.
      erewrite bind_ok by exact Hcols.
      erewrite bind_raise; [reflexivity|]. simpl.
      erewrite bind_raise; [reflexivity|].
      erewrite bind_raise; [reflexivity|].
      by apply create_like_frame.
  - intros o Hnone Hframe. destruct o; try done. by destruct (Hframe df0).
Qed.

End conversion.

Section examples.
#[local] Existing Instance example_conversion.

Lemma frame_apply_raises_witness :
  HDF5DataFrame.apply_filter "/df" test_filter PyNone test_world
  = (Raise TypeError, test_world)
  ∧ HDF5DataFrame.apply_index "/df" [7; 0; 3] PyNone test_world
    = (Raise TypeError, test_world)
  ∧ (∀ d, HDF5DataFrame.apply_filter "/df" test_filter (PyFrame d) test_world
          = (Raise TypeError, test_world)
          ∧ HDF5DataFrame.apply_index "/df" [7; 0; 3] (PyFrame d) test_world
            = (Raise TypeError, test_world))
  ∧ (∀ o, o ≠ PyNone → (∀ d, o ≠ PyFrame d) →
          HDF5DataFrame.apply_filter "/df" test_filter o test_world
          = (Raise TypeError, test_world)
          ∧ HDF5DataFrame.apply_index "/df" [7; 0; 3] o test_world
            = (Raise TypeError, test_world)).
Proof.
  apply (frame_apply_raises test_world "/df" "numf"
           (mkField Numeric "/df/numf" true) [] test_filter [7; 0; 3]).
  - reflexivity.
  - eexists. split; [reflexivity|]. simpl.
    split; [by eexists|]. split; by eexists.
Defined.

End examples.

(** * The fixed-width fields: filtering into a destination, composing
      gathers *)

(** What a field of a fixed-width class holds, as its [values] array. *)
Lemma flat_field_rows st f rows :
  cls f ≠ IndexedString → field_rows st f rows →
  ∃ g v, st !! _field f = Some g ∧ is_Some (attrs g !! "fieldtype")
         ∧ flat_values g = Ok v ∧ rows = map RowCell v.
Proof.
  intros Hc [(g & Hg & Hft & _) (g' & Hg' & Hrows)].
  rewrite Hg in Hg'. injection Hg' as <-.
  assert (∃ v, flat_values g = Ok v ∧ rows = map RowCell v) as (v & Hv & ->)
    by (destruct (cls f); done).
  eauto 10.
Qed.

Lemma flat_field_rows_intro st f g v :
  cls f ≠ IndexedString →
  st !! _field f = Some g → is_Some (attrs g !! "fieldtype") →
  flat_values g = Ok v →
  field_rows st f (map RowCell v).
Proof.
  intros Hc Hg Hft Hv. split.
  - exists g. split; [done|]. split; [done|]. destruct (cls f); eauto; done.
  - exists g. split; [done|]. destruct (cls f); eauto; done.
Qed.

Section conversion.
Context {conversion : Conversion}.

(** X14. [apply_filter] of a fixed-width field (numeric, fixed string,
    categorical, timestamp) with a destination field on another group, of
    the same class and with an array of the same dtype: the destination
    ends up with exactly the rows where the mask is true, in order, whatever
    it held and whether or not it was opened for writing; the source keeps
    its rows and no other group changes.  A mask whose length is not the
    field's is an [IndexError], and nothing is written. *)
Theorem flat_apply_filter_into_destination (st : Store) (self d : HDF5Field)
    (rows : list row) (mask : list bool) :
  cls self ≠ IndexedString →
  field_rows st self rows →
  destination st self (Some d) → _field d ≠ _field self →
  (length mask = length rows →
   ∃ d' st', apply_filter self mask (Some d) st = (Ok d', st')
     ∧ _field d' = _field d ∧ _write_enabled d' = true
     ∧ field_rows st' d' (select rows mask)
     ∧ field_rows st' self rows
     ∧ ∀ p, p ≠ _field d → st' !! p = st !! p)
  ∧ (length mask ≠ length rows →
     apply_filter self mask (Some d) st = (Raise IndexError, st)).
Proof.
  intros Hc Hrows Hdst Hne. pose proof Hdst as (Hcd & Hbd & _).
  destruct (flat_field_rows st self rows Hc Hrows)
    as (g & v & Hg & Hft & Hv & ->).
  rewrite length_map. rewrite apply_filter_flat by done.
  destruct Hbd as (gd & Hgd & Hftd & Hclsd).
  assert (∃ vd, flat_values gd = Ok vd) as [vd Hvd]
    by (rewrite Hcd in Hclsd; destruct (cls self); done).
  destruct (destination_dtype st self (Some d) g v gd vd Hdst Hg Hv Hgd Hvd)
    as (dtype & Hdt & Hdtd).
  split.
  - intros Hlen.
    exists (mkField (cls d) (_field d) true),
      (<[_field d := set_flat_values gd (select v mask)]> st).
    split; [by eapply (flat_apply_filter_ok st self (Some d))|].
    split; [done|]. split; [done|]. split; [|split].
    + rewrite select_map.
      apply (flat_field_rows_intro _ _ (set_flat_values gd (select v mask))).
      * simpl. by rewrite Hcd.
      * apply lookup_insert_eq.
      * by rewrite attrs_set_flat_values.
      * by eapply flat_values_set.
    + apply (flat_field_rows_intro _ _ g); try done.
      by rewrite lookup_insert_ne.
    + intros p Hp. by rewrite lookup_insert_ne.
  - intros Hlen. by eapply flat_apply_filter_raise.
Qed.

End conversion.

Section examples.
#[local] Existing Instance example_conversion.

Lemma flat_apply_filter_into_destination_witness :
  (length test_filter = length (RowCell <$> (CInt <$> [1; 2; 3; 4; 5; 6; 7; 8])) →
   ∃ d' st',
     apply_filter (mkField Numeric "/df/numf" false) test_filter
       (Some (mkField Numeric "/df2/numf" false))
       (<["/df2/numf" := key_group 0]> test_store) = (Ok d', st')
     ∧ _field d' = _field (mkField Numeric "/df2/numf" false)
     ∧ _write_enabled d' = true
     ∧ field_rows st' d'
         (select (RowCell <$> (CInt <$> [1; 2; 3; 4; 5; 6; 7; 8])) test_filter)
     ∧ field_rows st' (mkField Numeric "/df/numf" false)
         (RowCell <$> (CInt <$> [1; 2; 3; 4; 5; 6; 7; 8]))
     ∧ ∀ p, p ≠ _field (mkField Numeric "/df2/numf" false) →
            st' !! p = (<["/df2/numf" := key_group 0]> test_store) !! p)
  ∧ (length test_filter
     ≠ length (RowCell <$> (CInt <$> [1; 2; 3; 4; 5; 6; 7; 8])) →
     apply_filter (mkField Numeric "/df/numf" false) test_filter
       (Some (mkField Numeric "/df2/numf" false))
       (<["/df2/numf" := key_group 0]> test_store)
     = (Raise IndexError, <["/df2/numf" := key_group 0]> test_store)).
Proof.
  apply (flat_apply_filter_into_destination
           (<["/df2/numf" := key_group 0]> test_store)
           (mkField Numeric "/df/numf" false)
           (mkField Numeric "/df2/numf" false)
           (RowCell <$> (CInt <$> [1; 2; 3; 4; 5; 6; 7; 8])) test_filter).
  - done.
  - eapply (flat_field_rows_intro _ (mkField Numeric "/df/numf" false));
      [done | reflexivity | by eexists | reflexivity].
  - split; [done|]. split; [|reflexivity]. eexists. split; [reflexivity|].
    split; [by eexists|]. by eexists.
  - done.
Defined.

End examples.

(** ** Gathers compose *)

Lemma np_item_position {A} (v : list A) i x :
  np_item v i = Ok x →
  - Z.of_nat (length v) ≤ i < Z.of_nat (length v)
  ∧ v !! position_row (Z.of_nat (length v)) i = Some x.
Proof.
  intros Hx.
  destruct (decide (- Z.of_nat (length v) ≤ i < Z.of_nat (length v)))
    as [Hi|Hi].
  - split; [done|]. destruct (np_item_ok v i Hi) as (x' & Hx' & Hl).
    congruence.
  - rewrite np_item_out in Hx by done. discriminate.
Qed.

(** Gathering from a gather is gathering through the gathered positions. *)
Lemma np_take_take {A} (v : list A) (idx1 idx2 idx12 : list Z) v1 :
  np_take v idx1 = Ok v1 → np_take idx1 idx2 = Ok idx12 →
  np_take v1 idx2 = np_take v idx12.
Proof.
  intros H1. unfold np_take in *.
  pose proof (traverse_length _ _ _ H1) as Hlen.
  revert idx12. induction idx2 as [|i idx2 IH]; intros idx12 H12; simpl in *.
  - by injection H12 as <-.
  - destruct (np_item idx1 i) as [i1|] eqn:Hi; simpl in H12; [|discriminate].
    destruct (traverse (np_item idx1) idx2) as [rest|] eqn:Hrest;
      simpl in H12; [|discriminate].
    injection H12 as <-. simpl. rewrite (IH rest eq_refl).
    apply np_item_position in Hi as [Hin Hlook].
    destruct (traverse_lookup _ _ _ _ _ H1 Hlook) as (x & Hx & Hitem).
    rewrite Hitem.
    assert (Hv1 : np_item v1 i = Ok x).
    { rewrite <- Hlen in Hin.
      destruct (np_item_ok v1 i Hin) as (x' & Hx' & Hl).
      rewrite Hlen in Hl. congruence. }
    by rewrite Hv1.
Qed.

Section conversion.
Context {conversion : Conversion}.

(** X15. Gathers of a fixed-width field compose: [apply_index] with the
    positions [idx1] and then, on the field it returns, with the positions
    [idx2] leaves the field and the file exactly as one [apply_index] with
    the positions [idx1[idx2]] does, negative positions included. *)
Theorem flat_apply_index_composes (st : Store) (self : HDF5Field)
    (rows : list row) (idx1 idx2 : list Z) :
  cls self ≠ IndexedString →
  field_rows st self rows →
  Forall (λ i, - Z.of_nat (length rows) ≤ i < Z.of_nat (length rows)) idx1 →
  Forall (λ i, - Z.of_nat (length idx1) ≤ i < Z.of_nat (length idx1)) idx2 →
  ∃ idx12 d1 st1 d2 st2,
    np_take idx1 idx2 = Ok idx12
    ∧ apply_index self idx1 None st = (Ok d1, st1)
    ∧ apply_index d1 idx2 None st1 = (Ok d2, st2)
    ∧ apply_index self idx12 None st = (Ok d2, st2).
Proof.
  intros Hc Hrows H1 H2.
  destruct (flat_field_rows st self rows Hc Hrows)
    as (g & v & Hg & Hft & Hv & ->).
  rewrite length_map in H1.
  destruct (traverse_ok (np_item v) idx1) as [v1 Hv1].
  { eapply Forall_impl; [exact H1|]. intros i Hi.
    destruct (np_item_ok v i Hi) as (x & Hx & _). eauto. }
  destruct (traverse_ok (np_item idx1) idx2) as [idx12 H12].
  { eapply Forall_impl; [exact H2|]. intros i Hi.
    destruct (np_item_ok idx1 i Hi) as (x & Hx & _). eauto. }
  pose proof (traverse_length _ _ _ Hv1) as Hlen1.
  destruct (traverse_ok (np_item v1) idx2) as [v2 Hv2].
  { eapply Forall_impl; [exact H2|]. intros i Hi. rewrite <- Hlen1 in Hi.
    destruct (np_item_ok v1 i Hi) as (x & Hx & _). eauto. }
  pose proof (np_take_take v idx1 idx2 idx12 v1 Hv1 H12) as Hcomp.
  unfold np_take in Hcomp. rewrite Hv2 in Hcomp. symmetry in Hcomp.
  destruct (flat_dtype_values g v Hv) as [dtype Hdt].
  set (d := mkField (cls self) (_field self) true).
  exists idx12, d, (<[_field self := set_flat_values g v1]> st),
    d, (<[_field self := set_flat_values g v2]> st).
  split; [done|].
  rewrite !apply_index_flat by done.
  split; [by eapply (flat_apply_index_ok st self None)|].
  split; [|by eapply (flat_apply_index_ok st self None)].
  erewrite (flat_apply_index_ok _ d None (set_flat_values g v1) v1
              (set_flat_values g v1) v1 dtype idx2 v2); simpl.
  - by rewrite insert_insert_eq, (set_flat_values_twice g v).
  - apply lookup_insert_eq.
  - by eapply flat_values_set.
  - apply lookup_insert_eq.
  - by rewrite attrs_set_flat_values.
  - by eapply flat_values_set.
  - by rewrite flat_dtype_set.
  - by rewrite flat_dtype_set.
  - done.
Qed.

End conversion.

Section examples.
#[local] Existing Instance example_conversion.

Lemma flat_apply_index_composes_witness :
  ∃ idx12 d1 st1 d2 st2,
    np_take [7; 0; -2; 3] [-1; 1; 1] = Ok idx12
    ∧ apply_index (mkField Numeric "/df/numf" false) [7; 0; -2; 3] None
        test_store = (Ok d1, st1)
    ∧ apply_index d1 [-1; 1; 1] None st1 = (Ok d2, st2)
    ∧ apply_index (mkField Numeric "/df/numf" false) idx12 None test_store
      = (Ok d2, st2).
Proof.
  apply (flat_apply_index_composes test_store
           (mkField Numeric "/df/numf" false)
           (RowCell <$> (CInt <$> [1; 2; 3; 4; 5; 6; 7; 8]))
           [7; 0; -2; 3] [-1; 1; 1]).
  - done.
  - eapply (flat_field_rows_intro _ (mkField Numeric "/df/numf" false));
      [done | reflexivity | by eexists | reflexivity].
  - repeat constructor; simpl; lia.
  - repeat constructor; simpl; lia.
Defined.

End examples.

(** * IndexedStringImporter (field_importers.py) *)

Lemma offsets_from_shift ss : ∀ acc a,
  (λ x, x + a) <$> offsets_from acc ss = offsets_from (acc + a) ss.
Proof.
  induction ss as [|s ss IH]; intros acc a; simpl; [done|].
  rewrite IH. f_equal; [lia|]. f_equal. lia.
Qed.

Lemma py_slice_tail {A} (x : A) l :
  py_slice (x :: l) 1 (Z.of_nat (length (x :: l))) = l.
Proof.
  unfold py_slice, slice_bound. rewrite !decide_False by lia.
  rewrite !Z.min_l by (simpl; lia). change (Z.to_nat 1) with 1%nat.
  simpl drop. rewrite drop_0. apply take_ge. simpl. lia.
Qed.

(** One chunk appended to a field that holds [ss]. *)
Lemma import_chunk_holds self ss c :
  ISI.indices self = 0 :: offsets_from 0 ss →
  ISI.values self = flat ss →
  ISI.chunk_accumulated self = Z.of_nat (length (flat ss)) →
  chunk_encodes c →
  ∃ self', import_chunk self c = Ok self'
    ∧ ISI.indices self' = 0 :: offsets_from 0 (ss ++ chunk_rows c)
    ∧ ISI.values self' = flat (ss ++ chunk_rows c)
    ∧ ISI.chunk_accumulated self'
      = Z.of_nat (length (flat (ss ++ chunk_rows c))).
Proof.
  intros Hi Hv Ha (row & off & rest & Hrow & -> & Hoff & Hoff0 & Hvals).
  set (rs := chunk_rows c) in *.
  unfold import_chunk, ISI.import_part. fold rs.
  rewrite (np_item_nonneg _ _ _ Hrow). cbn [rbind].
  assert (Hcount : np_item ((0 :: offsets_from 0 rs) ++ rest)
                     (Z.of_nat (length rs))
                   = Ok (Z.of_nat (length (flat rs)))).
  { apply np_item_nonneg. rewrite lookup_app_l
      by (simpl; rewrite length_offsets_from; lia).
    rewrite offsets_lookup by lia. by rewrite take_ge by lia. }
  rewrite Hcount. cbn [rbind].
  rewrite (np_item_nonneg _ _ _ Hoff). cbn [rbind].
  rewrite Hvals.
  assert (Hindex : py_slice ((0 :: offsets_from 0 rs) ++ rest) 0
                     (Z.of_nat (length rs) + 1)
                   = 0 :: offsets_from 0 rs).
  { replace (Z.of_nat (length rs) + 1)
      with (Z.of_nat (length (0 :: offsets_from 0 rs)))
      by (simpl; rewrite length_offsets_from; lia).
    apply py_slice_prefix. }
  rewrite Hindex. rewrite fmap_cons, offsets_from_shift. simpl Z.add.
  eexists. split; [reflexivity|].
  unfold ISI.write_part. cbn [ISI.indices ISI.values ISI.chunk_accumulated].
  rewrite py_slice_tail. unfold DataWriter.write.
  rewrite !firstn_all, Hi, Hv, Ha.
  rewrite flat_app, offsets_from_app, length_app. simpl.
  split; [done|]. split; [done|]. lia.
Qed.

(** X16. [IndexedStringImporter.import_part] of field_importers.py keeps
    the indexed-string encoding from chunk to chunk.  Started on a field
    whose index array is [[0]] (what [__init__] writes into the field it
    made), after any sequence of chunks that carry their strings in the
    reader's layout the index array is [0] followed by the running end
    offsets of all the strings imported, the values array is their bytes,
    [complete()] changes neither, and the rows read back through a
    read-only handle are the strings of the chunks, in order. *)
Theorem indexed_string_importer_chunks (chunks : list chunk) :
  Forall chunk_encodes chunks →
  let ss := concat (chunk_rows <$> chunks) in
  ∃ imp, for_each import_chunk chunks (ISI.mk [0] [] 0) = Ok imp
    ∧ ISI.indices (ISI.complete imp) = 0 :: offsets_from 0 ss
    ∧ ISI.values (ISI.complete imp) = flat ss
    ∧ ∀ (i : nat) s, ss !! i = Some s →
        ROIFA.getitem
          (ROIFA.mk (ISI.indices (ISI.complete imp))
             (ISI.values (ISI.complete imp))) (Z.of_nat i) = Ok s.
Proof.
  intros Hall ss.
  assert (Hgen : ∀ chunks self done_,
    Forall chunk_encodes chunks →
    ISI.indices self = 0 :: offsets_from 0 done_ →
    ISI.values self = flat done_ →
    ISI.chunk_accumulated self = Z.of_nat (length (flat done_)) →
    ∃ imp, for_each import_chunk chunks self = Ok imp
      ∧ ISI.indices imp
        = 0 :: offsets_from 0 (done_ ++ concat (chunk_rows <$> chunks))
      ∧ ISI.values imp = flat (done_ ++ concat (chunk_rows <$> chunks))).
  { clear. induction chunks as [|c chunks IH]; intros self done_ Hall Hi Hv Ha.
    - simpl. exists self. by rewrite app_nil_r.
    - apply Forall_cons in Hall as [Hc Hall]. simpl.
      destruct (import_chunk_holds self done_ c Hi Hv Ha Hc)
        as (self1 & -> & Hi1 & Hv1 & Ha1). simpl.
      destruct (IH self1 _ Hall Hi1 Hv1 Ha1) as (imp & -> & Hi2 & Hv2).
      exists imp. by rewrite app_assoc. }
  destruct (Hgen chunks (ISI.mk [0] [] 0) [] Hall eq_refl eq_refl eq_refl)
    as (imp & Hrun & Hi & Hv).
  simpl in Hi, Hv. fold ss in Hi, Hv.
  exists imp. split; [done|]. split; [done|]. split; [done|].
  intros i s Hs. unfold ISI.complete, DataWriter.flush. simpl.
  rewrite Hi, Hv.
  by apply (indexed_getitem_holds ss _ _ 0%nat i s);
    [split; [done|by left]|].
Qed.

Lemma indexed_string_importer_chunks_witness :
  let chunks :=
    [mkChunk [[0; 9; 9]; [0; 2; 2; 5; 0]]
       (flat ["q"; "ab"; ""; "cde"]) [0; 1] 1 ["ab"; ""; "cde"];
     mkChunk [[0; 1; 3]] (flat ["f"; "gh"]) [0] 0 ["f"; "gh"]]%string in
  let ss := concat (chunk_rows <$> chunks) in
  ∃ imp, for_each import_chunk chunks (ISI.mk [0] [] 0) = Ok imp
    ∧ ISI.indices (ISI.complete imp) = 0 :: offsets_from 0 ss
    ∧ ISI.values (ISI.complete imp) = flat ss
    ∧ ∀ (i : nat) s, ss !! i = Some s →
        ROIFA.getitem
          (ROIFA.mk (ISI.indices (ISI.complete imp))
             (ISI.values (ISI.complete imp))) (Z.of_nat i) = Ok s.
Proof.
  apply (indexed_string_importer_chunks
    [mkChunk [[0; 9; 9]; [0; 2; 2; 5; 0]]
       (flat ["q"; "ab"; ""; "cde"]) [0; 1] 1 ["ab"; ""; "cde"];
     mkChunk [[0; 1; 3]] (flat ["f"; "gh"]) [0] 0 ["f"; "gh"]]%string).
  constructor; [|constructor; [|constructor]].
  - exists [0; 2; 2; 5; 0], 1, [0]. simpl. repeat split; done.
  - exists [0; 1; 3], 0, []. simpl. repeat split; done.
Defined.

(** * NumericImporter and DateTimeImporter (fields.py) *)

Lemma traverse_cons_ok {A B} (f : A → result B) x xs ys :
  traverse f (x :: xs) = Ok ys →
  ∃ y ys', f x = Ok y ∧ traverse f xs = Ok ys' ∧ ys = y :: ys'.
Proof.
  simpl. destruct (f x) as [y|]; simpl; [|discriminate].
  destruct (traverse f xs) as [ys'|]; simpl; [|discriminate].
  intros [= <-]. eauto.
Qed.

Lemma py_slice_prefix_at {A} (l1 l2 : list A) (n : nat) :
  length l1 = n → py_slice (l1 ++ l2) 0 (Z.of_nat n) = l1.
Proof. intros <-. apply py_slice_prefix. Qed.

Lemma np_setitem_app `{!Conversion} dtype (l1 l2 : list cell) (k : nat) x y z :
  length l1 = k → np_assign dtype x = Ok z →
  np_setitem dtype (l1 ++ y :: l2) k x = Ok (l1 ++ z :: l2).
Proof.
  intros Hk Hx. unfold np_setitem.
  rewrite decide_True by (rewrite length_app; simpl; lia).
  rewrite Hx. cbn [rbind]. by apply setitem_app_at.
Qed.

Lemma np_setitem_beyond `{!Conversion} dtype (l : list cell) (i : nat) x :
  (length l ≤ i)%nat → np_setitem dtype l i x = Raise IndexError.
Proof. intros Hi. unfold np_setitem. by rewrite decide_False by lia. Qed.

Section conversion.
Context {conversion : Conversion}.

Lemma imported_ok parser dtype v y :
  imported parser dtype v = Ok y →
  ∃ vv, parser v = Ok vv ∧ np_assign dtype vv.2 = Ok y.2 ∧ y.1 = vv.1.
Proof.
  unfold imported. destruct (parser v) as [vv|]; simpl; [|discriminate].
  destruct (np_assign dtype vv.2) as [x|] eqn:Hx; simpl; [|discriminate].
  intros [= <-]. exists vv. by rewrite Hx.
Qed.

(** The loop of [NumericImporter.write_part] over cells that all parse and
    whose values the buffer takes. *)
Lemma numeric_loop parser dtype vs :
  ∀ parsed (k : nat) done_v done_f rest_v rest_f,
  traverse (imported parser dtype) vs = Ok parsed →
  length done_v = k → length done_f = k →
  (length vs ≤ length rest_v)%nat → (length vs ≤ length rest_f)%nat →
  for_each (NumericImporter.parse_into parser dtype)
    (imap (λ i v, ((k + i)%nat, v)) vs) (done_v ++ rest_v, done_f ++ rest_f)
  = Ok (done_v ++ parsed.*2 ++ drop (length vs) rest_v,
        done_f ++ parsed.*1 ++ drop (length vs) rest_f).
Proof.
  induction vs as [|v vs IH];
    intros parsed k dv df rv rf Hp Hv Hf Hlv Hlf.
  - injection Hp as <-. done.
  - apply traverse_cons_ok in Hp as (y & ys & Hy & Hys & ->).
    apply imported_ok in Hy as (vv & Hvv & Hy2 & Hy1).
    destruct rv as [|v0 rv]; [simpl in Hlv; lia|].
    destruct rf as [|f0 rf]; [simpl in Hlf; lia|].
    simpl in Hlv, Hlf. cbn [imap for_each].
    unfold NumericImporter.parse_into at 1. cbn [fst snd].
    rewrite Hvv. cbn [rbind]. rewrite Nat.add_0_r.
    rewrite (np_setitem_app _ _ _ k _ _ _ Hv Hy2). cbn [rbind].
    rewrite (setitem_app_at _ _ k _ _ Hf). cbn [rbind].
    rewrite (imap_ext _ (λ i v, ((S k + i)%nat, v)))
      by (intros; simpl; f_equal; lia).
    rewrite <- Hy1.
    rewrite (cons_middle y.2 dv rv), (cons_middle y.1 df rf).
    rewrite (app_assoc dv [y.2] rv), (app_assoc df [y.1] rf).
    rewrite (IH ys (S k) (dv ++ [y.2]) (df ++ [y.1]) rv rf Hys)
      by (rewrite ?length_app; simpl; lia).
    rewrite !fmap_cons. simpl. by rewrite <- !app_assoc.
Qed.

(** X17. [NumericImporter.write_part] on a chunk within the chunk size
    whose cells all parse to values that the buffer, an array of the dtype
    of the field, takes: the field receives the parsed values of the chunk
    as the buffer has converted them to that dtype, and the [_valid] field
    their validity flags, one per cell and in order, whatever the buffers
    held from earlier chunks; a cell on which the parser raises, or whose
    value the buffer refuses, makes [write_part] raise the same, and a
    chunk longer than the buffers is an [IndexError]. *)
Theorem numeric_importer_write_part
    (parser : string → result (bool * cell)) (imp : NumericImporter.t)
    (values : list string) :
  length (NumericImporter._filter_values imp)
  = length (NumericImporter._values imp) →
  (∀ parsed,
     traverse (imported parser (NumericImporter.dtype imp)) values
     = Ok parsed →
     (length values ≤ length (NumericImporter._values imp))%nat →
     ∃ imp', NumericImporter.write_part parser imp values = Ok imp'
       ∧ NumericImporter._field_data imp'
         = NumericImporter._field_data imp ++ parsed.*2
       ∧ NumericImporter._filter_field_data imp'
         = NumericImporter._filter_field_data imp ++ (CBool <$> parsed.*1)
       ∧ NumericImporter.dtype imp' = NumericImporter.dtype imp
       ∧ length (NumericImporter._values imp')
         = length (NumericImporter._values imp))
  ∧ (∀ parsed,
       traverse (imported parser (NumericImporter.dtype imp)) values
       = Ok parsed →
       (length (NumericImporter._values imp) < length values)%nat →
       NumericImporter.write_part parser imp values = Raise IndexError)
  ∧ (∀ before v after e,
       values = before ++ v :: after →
       (length before < length (NumericImporter._values imp))%nat →
       Forall (λ x, ∃ y, imported parser (NumericImporter.dtype imp) x = Ok y)
         before →
       imported parser (NumericImporter.dtype imp) v = Raise e →
       NumericImporter.write_part parser imp values = Raise e).
Proof.
  intros Hbuf. destruct imp as [data fdata dtype vals filt]. simpl in *.
  split; [|split].
  - intros parsed Hp Hlen.
    pose proof (traverse_length _ _ _ Hp) as Hpl.
    unfold NumericImporter.write_part. simpl.
    pose proof (numeric_loop parser dtype values parsed 0 [] [] vals filt Hp
                  eq_refl eq_refl) as Hloop.
    simpl in Hloop. rewrite Hloop by lia. clear Hloop. cbn [rbind fst snd].
    assert (H2 : length parsed.*2 = length values)
      by by rewrite length_fmap.
    assert (H1 : length parsed.*1 = length values)
      by by rewrite length_fmap.
    rewrite (py_slice_prefix_at _ _ _ H2), (py_slice_prefix_at _ _ _ H1).
    eexists. split; [reflexivity|]. simpl. unfold DataWriter.write.
    rewrite !firstn_all.
    split; [done|]. split; [done|]. split; [done|].
    rewrite length_app, length_drop. lia.
  - intros parsed Hp Hlen.
    unfold NumericImporter.write_part. simpl.
    rewrite <- (take_drop (length vals) values) in Hp |- *.
    destruct (drop (length vals) values) as [|v rest] eqn:Hdrop.
    { apply (f_equal length) in Hdrop. rewrite length_drop in Hdrop.
      simpl in Hdrop. lia. }
    rewrite imap_app, for_each_app.
    assert (∃ p1 y,
              traverse (imported parser dtype) (take (length vals) values)
              = Ok p1
              ∧ imported parser dtype v = Ok y) as (p1 & y & Hp1 & Hy).
    { apply traverse_Forall2 in Hp.
      apply Forall2_app_inv_l in Hp as (p1 & p2 & H1 & H2 & _).
      inversion H2 as [|? y ? ? Hy _]; subst.
      exists p1, y. split; [|done].
      clear -H1. induction H1 as [|x y' l l' Hxy _ IH]; [done|].
      simpl. by rewrite Hxy, IH. }
    apply imported_ok in Hy as (vv & Hvv & _).
    pose proof (numeric_loop parser dtype (take (length vals) values) p1 0
                  [] [] vals filt Hp1 eq_refl eq_refl) as Hloop.
    simpl in Hloop. rewrite Hloop by (rewrite length_take; lia). clear Hloop.
    rewrite length_take, Nat.min_l by lia.
    rewrite drop_all, <- Hbuf, drop_all, !app_nil_r. cbn [rbind imap for_each].
    unfold NumericImporter.parse_into at 1. cbn [fst snd]. rewrite Hvv.
    cbn [rbind]. rewrite np_setitem_beyond; [done|].
    rewrite length_fmap, (traverse_length _ _ _ Hp1), length_take. lia.
  - intros before v after e -> Hlen Hall Hv.
    unfold NumericImporter.write_part. simpl.
    rewrite imap_app, for_each_app.
    destruct (traverse_ok (imported parser dtype) before Hall) as [p1 Hp1].
    pose proof (numeric_loop parser dtype before p1 0 [] [] vals filt Hp1
                  eq_refl eq_refl) as Hloop.
    simpl in Hloop. rewrite Hloop by lia. clear Hloop.
    cbn [rbind imap for_each].
    unfold NumericImporter.parse_into at 1. cbn [fst snd].
    rewrite Nat.add_0_r.
    pose proof (traverse_length _ _ _ Hp1) as Hl1.
    unfold imported in Hv.
    destruct (parser v) as [vv|e'] eqn:Hvv; simpl in Hv |- *;
      [|by injection Hv as ->].
    destruct (np_assign dtype vv.2) as [x|e'] eqn:Hx; simpl in Hv;
      [discriminate|]. injection Hv as ->.
    unfold np_setitem.
    rewrite decide_True
      by (rewrite !length_app, !length_fmap, length_drop; lia).
    by rewrite Hx.
Qed.

End conversion.

Section examples.
#[local] Existing Instance example_conversion.

Lemma numeric_importer_write_part_witness :
  (∀ parsed,
     traverse (imported example_parser
                 (NumericImporter.dtype example_numeric_importer))
       ["ab"; ""] = Ok parsed →
     (length ["ab"; ""]
      ≤ length (NumericImporter._values example_numeric_importer))%nat →
     ∃ imp', NumericImporter.write_part example_parser
               example_numeric_importer ["ab"; ""] = Ok imp'
       ∧ NumericImporter._field_data imp'
         = NumericImporter._field_data example_numeric_importer ++ parsed.*2
       ∧ NumericImporter._filter_field_data imp'
         = NumericImporter._filter_field_data example_numeric_importer
             ++ (CBool <$> parsed.*1)
       ∧ NumericImporter.dtype imp'
         = NumericImporter.dtype example_numeric_importer
       ∧ length (NumericImporter._values imp')
         = length (NumericImporter._values example_numeric_importer))
  ∧ (∀ parsed,
       traverse (imported example_parser
                   (NumericImporter.dtype example_numeric_importer))
         ["ab"; ""] = Ok parsed →
       (length (NumericImporter._values example_numeric_importer)
        < length ["ab"; ""])%nat →
       NumericImporter.write_part example_parser example_numeric_importer
         ["ab"; ""] = Raise IndexError)
  ∧ (∀ before v after e,
       ["ab"; ""]%string = before ++ v :: after →
       (length before
        < length (NumericImporter._values example_numeric_importer))%nat →
       Forall (λ x, ∃ y, imported example_parser
                           (NumericImporter.dtype example_numeric_importer) x
                         = Ok y) before →
       imported example_parser
         (NumericImporter.dtype example_numeric_importer) v = Raise e →
       NumericImporter.write_part example_parser example_numeric_importer
         ["ab"; ""] = Raise e).
Proof.
  apply (numeric_importer_write_part example_parser example_numeric_importer
           ["ab"; ""]%string).
  reflexivity.
Defined.

End examples.

(** ** DateTimeImporter *)

Lemma datetime_loop strptime optional vs : ∀ parsed (k : nat) done_ rest,
  traverse (DateTimeImporter.parse_cell strptime optional) vs = Ok parsed →
  length done_ = k → (length vs ≤ length rest)%nat →
  for_each (DateTimeImporter.parse_into strptime optional)
    (imap (λ i v, ((k + i)%nat, v)) vs) (done_ ++ rest)
  = Ok (done_ ++ parsed ++ drop (length vs) rest).
Proof.
  induction vs as [|v vs IH]; intros parsed k dn rest Hp Hk Hl.
  - injection Hp as <-. done.
  - apply traverse_cons_ok in Hp as (y & ys & Hy & Hys & ->).
    destruct rest as [|r0 rest]; [simpl in Hl; lia|]. simpl in Hl.
    cbn [imap for_each].
    unfold DateTimeImporter.parse_into at 1. cbn [fst snd].
    rewrite Hy. cbn [rbind]. rewrite Nat.add_0_r.
    rewrite (setitem_app_at _ _ k _ _ Hk). cbn [rbind].
    rewrite (imap_ext _ (λ i v, ((S k + i)%nat, v)))
      by (intros; simpl; f_equal; lia).
    rewrite (cons_middle y dn rest), (app_assoc dn [y] rest).
    rewrite (IH ys (S k) (dn ++ [y]) rest Hys)
      by (rewrite ?length_app; simpl; lia).
    simpl. by rewrite <- !app_assoc.
Qed.

(** X18. [DateTimeImporter.write_part] of fields.py hands the whole chunk
    buffer to the field, not the part it has just filled: for a chunk of
    cells that all parse, however short, the field grows by the chunk
    size; the timestamps of the chunk come first and what the rest of the
    buffer held (zeros at first, timestamps of an earlier chunk later)
    follows them. *)
Theorem datetime_importer_writes_whole_buffer
    (strptime : string → string → result Z) (imp : DateTimeImporter.t)
    (values : list string) (parsed : list cell) :
  traverse (DateTimeImporter.parse_cell strptime
              (DateTimeImporter._optional imp)) values = Ok parsed →
  (length values ≤ length (DateTimeImporter._results imp))%nat →
  ∃ imp', DateTimeImporter.write_part strptime imp values = Ok imp'
    ∧ DateTimeImporter._results imp'
      = parsed ++ drop (length values) (DateTimeImporter._results imp)
    ∧ DateTimeImporter._field_data imp'
      = DateTimeImporter._field_data imp
          ++ parsed ++ drop (length values) (DateTimeImporter._results imp)
    ∧ length (DateTimeImporter._field_data imp')
      = (length (DateTimeImporter._field_data imp)
         + length (DateTimeImporter._results imp))%nat.
Proof.
  intros Hp Hlen. destruct imp as [data results optional]. simpl in *.
  pose proof (traverse_length _ _ _ Hp) as Hpl.
  unfold DateTimeImporter.write_part. simpl.
  pose proof (datetime_loop strptime optional values parsed 0 [] results Hp
                eq_refl Hlen) as Hloop.
  simpl in Hloop. rewrite Hloop. clear Hloop. cbn [rbind].
  eexists. split; [reflexivity|]. simpl. unfold DataWriter.write.
  rewrite firstn_all. split; [done|]. split; [done|].
  rewrite !length_app, length_drop. lia.
Qed.

Lemma datetime_importer_writes_whole_buffer_witness :
  ∃ imp', DateTimeImporter.write_part example_strptime
            example_datetime_importer ["2020-05-01 10:11:12+00:00"; ""]
          = Ok imp'
    ∧ DateTimeImporter._results imp'
      = [CFloat 1588327872; DateTimeImporter.nan]
          ++ drop (length ["2020-05-01 10:11:12+00:00"; ""])
               (DateTimeImporter._results example_datetime_importer)
    ∧ DateTimeImporter._field_data imp'
      = DateTimeImporter._field_data example_datetime_importer
          ++ [CFloat 1588327872; DateTimeImporter.nan]
          ++ drop (length ["2020-05-01 10:11:12+00:00"; ""])
               (DateTimeImporter._results example_datetime_importer)
    ∧ length (DateTimeImporter._field_data imp')
      = (length (DateTimeImporter._field_data example_datetime_importer)
         + length (DateTimeImporter._results example_datetime_importer))%nat.
Proof.
  apply (datetime_importer_writes_whole_buffer example_strptime
           example_datetime_importer ["2020-05-01 10:11:12+00:00"; ""]%string
           [CFloat 1588327872; DateTimeImporter.nan]).
  - vm_compute. reflexivity.
  - simpl. lia.
Defined.

(** * merge *)

Lemma idle_ret {A} (a : A) : idle (ret a).
Proof. intros w. exists (Ok a), w. by repeat split. Qed.

Lemma idle_raise {A} e : idle (@raise World A e).
Proof. intros w. exists (Raise e), w. by repeat split. Qed.

Lemma idle_lift {A} (r : result A) : idle (lift r).
Proof. intros w. exists r, w. by repeat split. Qed.

Lemma idle_bind {A B} (m : M World A) (k : A → M World B) :
  idle m → (∀ a, idle (k a)) → idle (bind m k).
Proof.
  intros Hm Hk w. destruct (Hm w) as (r & w1 & Hrun & Hf & Hs & Hok).
  unfold bind. rewrite Hrun. destruct r as [a|e].
  - rewrite (Hok a eq_refl). apply Hk.
  - exists (Raise e), w1. by repeat split.
Qed.

Lemma stuck_bind {A B} (m : M World A) (k : A → M World B) :
  stuck m → stuck (bind m k).
Proof.
  intros Hm w. destruct (Hm w) as (e & w1 & Hrun & Hf & Hs).
  unfold bind. rewrite Hrun. eauto.
Qed.

Lemma idle_then_stuck {A B} (m : M World A) (k : A → M World B) :
  idle m → (∀ a, stuck (k a)) → stuck (bind m k).
Proof.
  intros Hm Hk w. destruct (Hm w) as (r & w1 & Hrun & Hf & Hs & Hok).
  unfold bind. rewrite Hrun. destruct r as [a|e].
  - rewrite (Hok a eq_refl). apply Hk.
  - eauto.
Qed.

Lemma stuck_idle {A} (m : M World A) : stuck m → idle m.
Proof.
  intros Hm w. destruct (Hm w) as (e & w1 & Hrun & Hf & Hs).
  exists (Raise e), w1. by repeat split.
Qed.

(** Reading the file changes nothing. *)
Lemma idle_in_file {A} (m : M Store A) :
  (∀ st, ∃ r, m st = (r, st)) → idle (in_file m).
Proof.
  intros Hm w. destruct (Hm (file w)) as [r Hr].
  exists r, w. unfold in_file. rewrite Hr, world_eta. by repeat split.
Qed.

Lemma read_group path st : ∃ r, group path st = (r, st).
Proof. unfold group. destruct (st !! path); eauto. Qed.

Lemma read_attr (f : HDF5Field) k st :
  ∃ r, (let* g := group (_field f) in lift (attr_of g k)) st = (r, st).
Proof.
  unfold bind, group, lift. destruct (st !! _field f); eauto.
Qed.

Lemma read_on_values {A} f (m : M (list cell) A) st :
  (∀ v, ∃ r, m v = (r, v)) → ∃ r, Field.on_values f m st = (r, st).
Proof.
  intros Hm. unfold Field.on_values.
  destruct (st !! _field f) as [g|] eqn:Hg; [|eauto].
  destruct (flat_values g) as [v|] eqn:Hv; [|eauto].
  destruct (Hm v) as [r Hr]. rewrite Hr. destruct r; [|eauto].
  rewrite set_flat_values_id, insert_id by done. eauto.
Qed.

Lemma read_getitem_all {A} we (v : list A) :
  ∃ r, FieldArray.getitem_all we v = (r, v).
Proof. destruct we; eauto. Qed.

Lemma idle_columns df : idle (columns df).
Proof.
  intros w. unfold columns. destruct (frames w !! df) as [c|].
  - exists (Ok c), w. by repeat split.
  - exists (Raise KeyError), w. by repeat split.
Qed.

Lemma idle_contains df name : idle (HDF5DataFrame.contains df name).
Proof.
  unfold HDF5DataFrame.contains, frame_contains.
  destruct name; try apply idle_raise.
  apply idle_bind; [apply idle_columns|]. intros c. apply idle_ret.
Qed.

Lemma idle_getitem df name : idle (HDF5DataFrame.getitem df name).
Proof.
  unfold HDF5DataFrame.getitem. destruct name; try apply idle_raise.
  apply idle_bind; [apply idle_contains|]. intros present.
  destruct present; cbn [negb]; [|apply idle_raise].
  apply idle_bind; [apply idle_columns|]. intros c.
  destruct (dict_get c s); [apply idle_ret|apply idle_raise].
Qed.

Lemma idle_key_column f : idle (key_column f).
Proof.
  unfold key_column. destruct (cls f).
  - apply idle_bind; [apply idle_in_file, read_group|]. intros g.
    apply idle_bind; [apply idle_lift|]. intros iv.
    apply idle_bind; [|intros; apply idle_ret].
    destruct (_write_enabled f); [|apply idle_lift].
    apply idle_bind; [apply idle_lift|]. intros [c|c]; [|apply idle_raise].
    destruct (decide (c < 0)); [apply idle_raise|apply idle_lift].
  - apply idle_bind; [|intros; apply idle_ret].
    apply idle_in_file. intros st. apply read_on_values, read_getitem_all.
  - apply idle_bind; [|intros; apply idle_ret].
    apply idle_in_file. intros st. apply read_on_values, read_getitem_all.
  - apply idle_bind; [|intros; apply idle_ret].
    apply idle_in_file. intros st. apply read_on_values, read_getitem_all.
  - apply idle_bind; [|intros; apply idle_ret].
    apply idle_in_file. intros st. apply read_on_values, read_getitem_all.
Qed.

Lemma read_len {A} we (v : list A) : ∃ r, FieldArray.len we v = (r, v).
Proof. destruct we; eauto. Qed.

Lemma read_indexed_data_len f st : ∃ r, indexed_data_len f st = (r, st).
Proof.
  unfold indexed_data_len, bind, group, lift, raise.
  destruct (st !! _field f) as [g|]; [|eauto].
  destruct (indexed_arrays g) as [iv|]; [|eauto].
  destruct (_write_enabled f); [|eauto].
  destruct (attr_of g "chunksize") as [[c|c]|]; eauto.
  destruct (decide (c < 0)); eauto.
Qed.

Lemma idle_key_len f : idle (key_len f).
Proof.
  unfold key_len.
  destruct (cls f); apply idle_in_file; intros st;
    first [apply read_indexed_data_len | apply read_on_values, read_len].
Qed.

(** [create_like] towards a data frame never returns and writes nothing. *)
Lemma stuck_call_create c d a1 a2 args :
  length args = match c with
                | IndexedString | Timestamp => 2%nat
                | FixedString | Numeric => 3%nat
                | Categorical => 4%nat
                end →
  stuck (HDF5DataFrame.call_create c d (a1 :: a2 :: args) []).
Proof.
  intros Hlen w. exists TypeError, w.
  by rewrite call_create_like_arity.
Qed.

Lemma idle_timestamp f : idle (in_file (Field.timestamp f)).
Proof. apply idle_in_file. intros st. apply read_attr. Qed.

Lemma idle_chunksize f : idle (in_file (Field.chunksize f)).
Proof. apply idle_in_file. intros st. apply read_attr. Qed.

Lemma idle_categorical_keys f : idle (categorical_keys f).
Proof.
  unfold categorical_keys.
  apply idle_bind; [apply idle_in_file, read_group|]. intros g.
  destruct (dsets g); first [apply idle_ret | apply idle_raise].
Qed.

Lemma stuck_create_like f d name ts :
  stuck (create_like f (λ c, HDF5DataFrame.call_create c d) name ts).
Proof.
  unfold create_like. apply idle_then_stuck.
  { destruct ts; try apply idle_ret.
    apply idle_bind; [apply idle_timestamp|]. intros a. apply idle_ret. }
  intros ts'. destruct (cls f).
  - apply idle_then_stuck; [apply idle_chunksize|]. intros cs.
    by apply stuck_call_create.
  - apply idle_then_stuck; [apply idle_in_file, read_group|]. intros g.
    apply idle_then_stuck; [apply idle_lift|]. intros len.
    apply idle_then_stuck; [apply idle_chunksize|]. intros cs.
    by apply stuck_call_create.
  - apply idle_then_stuck; [apply idle_in_file, read_group|]. intros g.
    apply idle_then_stuck; [apply idle_lift|]. intros nformat.
    apply idle_then_stuck; [apply idle_chunksize|]. intros cs.
    by apply stuck_call_create.
  - apply idle_then_stuck; [apply idle_in_file, read_group|]. intros g.
    apply idle_then_stuck; [apply idle_categorical_keys|]. intros keys.
    apply idle_then_stuck; [apply idle_chunksize|]. intros cs.
    by apply stuck_call_create.
  - apply idle_then_stuck; [apply idle_chunksize|]. intros cs.
    by apply stuck_call_create.
Qed.

(** The three cases of a name under a group or a data frame. *)
Lemma name_cases w p name :
  fresh_name w p name ∨ taken_name w p name
  ∨ ∃ df, p = FrameParent df ∧ frames w !! df = None.
Proof.
  destruct p as [path|df]; simpl.
  - destruct (file w !! child path name) as [g|] eqn:Hg.
    + right. left. eauto.
    + left. by split.
  - destruct (frames w !! df) as [c|] eqn:Hc; [|right; right; eauto].
    destruct (decide (name ∈ c.*1)) as [Hin|Hin].
    { right. left. exists c. split; [done|]. by left. }
    destruct (file w !! child df name) as [g|] eqn:Hg.
    + right. left. exists c. split; [done|]. right. eauto.
    + left. split; [done|]. exists c. by split.
Qed.

Lemma field_constructor_no_frame e s df name ts cs w :
  frames w !! df = None →
  field_constructor e s (FrameParent df) name ts cs w = (Raise KeyError, w).
Proof.
  intros Hnone.
  assert (Hbase : base_field_contructor s (FrameParent df) name ts cs w
                  = (Raise KeyError, w)).
  { unfold base_field_contructor, bind at 1. simpl.
    unfold frame_contains, bind, columns. by rewrite Hnone. }
  destruct e; simpl;
    [ unfold indexed_string_field_constructor
    | unfold fixed_string_field_constructor
    | unfold numeric_field_constructor
    | unfold categorical_field_constructor
    | unfold timestamp_field_constructor ];
    by erewrite bind_raise by exact Hbase.
Qed.

(** No [create_...] of a data frame returns, whatever the state. *)
Lemma stuck_create e df name ts cs :
  stuck (HDF5DataFrame.create e df name ts cs).
Proof.
  intros w. unfold HDF5DataFrame.create.
  erewrite bind_ok by reflexivity.
  destruct (name_cases w (FrameParent df) name)
    as [Hfresh|[Htaken|(df' & [= <-] & Hnone)]].
  - destruct (field_constructor_fresh e (session w) (FrameParent df) name ts
                cs w Hfresh) as (g & Hrun & _).
    erewrite bind_ok by exact Hrun.
    eexists _, _. split.
    { erewrite bind_raise; [reflexivity|].
      unfold HDF5DataFrame.new_field. erewrite bind_raise; reflexivity. }
    split; reflexivity.
  - erewrite bind_raise by (by apply field_constructor_taken). eauto.
  - erewrite bind_raise by (by apply field_constructor_no_frame). eauto.
Qed.

Lemma idle_merge_side src dest fields other suffix to_d_map to_d_filt :
  idle (merge_side src dest fields other suffix to_d_map to_d_filt).
Proof.
  unfold merge_side. destruct fields as [|f fields].
  - apply idle_bind; [apply idle_ret|]. intros _.
    destruct (negb (forallb id to_d_filt)); [|apply idle_ret].
    apply stuck_idle, stuck_bind, stuck_create.
  - apply stuck_idle, stuck_bind. cbn [for_]. apply stuck_bind.
    apply idle_then_stuck; [apply idle_getitem|]. intros r.
    apply stuck_bind, stuck_create_like.
Qed.

Lemma stuck_merge_side src dest f fields other suffix to_d_map to_d_filt :
  stuck (merge_side src dest (f :: fields) other suffix to_d_map to_d_filt).
Proof.
  unfold merge_side. apply stuck_bind. cbn [for_]. apply stuck_bind.
  apply idle_then_stuck; [apply idle_getitem|]. intros r.
  apply stuck_bind, stuck_create_like.
Qed.

(** [merge] up to the two sides of the mapping, which [k] stands for. *)
Lemma merge_shape {P : M World unit → Prop} left right dest left_on right_on
    left_fields right_fields left_suffix right_suffix h :
  (∀ A (m : M World A) (k : A → M World unit),
     idle m → (∀ a, P (k a)) → P (bind m k)) →
  (∀ (lc rc : dict HDF5Field) (df : list (option nat * option nat)),
     P (let* _ := merge_side right dest (default rc.*1 right_fields)
                    (default lc.*1 left_fields) right_suffix
                    ((λ lr, to_int32 lr.2) <$> df)
                    ((λ lr, bool_decide (is_Some lr.2)) <$> df) in
        merge_side left dest (default lc.*1 left_fields)
          (default rc.*1 right_fields) left_suffix
          ((λ lr, to_int32 lr.1) <$> df)
          ((λ lr, bool_decide (is_Some lr.1)) <$> df))) →
  P (merge left right dest left_on right_on left_fields right_fields
       left_suffix right_suffix h).
Proof.
  intros Hbind Hsides. unfold merge.
  apply Hbind.
  { destruct left_on; first [apply idle_raise | apply idle_ret
                            | apply idle_getitem]. }
  intros left_on_. apply Hbind.
  { destruct right_on; first [apply idle_raise | apply idle_ret
                             | apply idle_getitem]. }
  intros right_on_.
  apply Hbind; [apply idle_key_len|]. intros n_left.
  apply Hbind.
  { destruct (decide (n_left < 2 ^ 31)); [|apply idle_ret].
    apply idle_bind; [apply idle_key_len|]. intros _. apply idle_ret. }
  intros _.
  apply Hbind; [apply idle_key_column|]. intros l_k.
  apply Hbind; [apply idle_key_len|]. intros _.
  apply Hbind; [apply idle_key_column|]. intros r_k.
  apply Hbind; [apply idle_key_len|]. intros _.
  apply Hbind; [apply idle_columns|]. intros lc.
  apply Hbind; [apply idle_columns|]. intros rc.
  apply Hsides.
Qed.

(** X19. In this snapshot [merge] records no column, on any input and
    whatever rows the join of the two key columns gives.  Whatever it
    does, the session and the columns of the data frames are afterwards as
    they were; when it returns it has changed nothing at all;
    and when it is given a field to map, on the left or on the right, it
    raises. *)
Theorem merge_records_no_column (left right dest : string)
    (left_on right_on : pyobj) (left_fields right_fields : option (list string))
    (left_suffix right_suffix : string) (h : how) (w : World) :
  ∃ r w',
    merge left right dest left_on right_on left_fields right_fields
      left_suffix right_suffix h w = (r, w')
    ∧ frames w' = frames w ∧ session w' = session w
    ∧ (∀ a, r = Ok a → w' = w)
    ∧ (∀ f fs, left_fields = Some (f :: fs) ∨ right_fields = Some (f :: fs) →
               ∃ e, r = Raise e).
Proof.
  assert (Hidle : idle (merge left right dest left_on right_on left_fields
                          right_fields left_suffix right_suffix h)).
  { apply (merge_shape (P := idle)); [intros; by apply idle_bind|].
    intros lc rc df.
    apply idle_bind; [apply idle_merge_side|]. intros _.
    apply idle_merge_side. }
  destruct (Hidle w) as (r & w' & Hrun & Hf & Hs & Hok).
  exists r, w'. split; [done|]. split; [done|]. split; [done|].
  split; [done|].
  intros f fs Hfields.
  assert (Hstuck : stuck (merge left right dest left_on right_on left_fields
                            right_fields left_suffix right_suffix h)).
  { apply (merge_shape (P := stuck)); [intros; by apply idle_then_stuck|].
    intros lc rc df. destruct Hfields as [-> | ->]; simpl.
    - apply idle_then_stuck; [apply idle_merge_side|]. intros _.
      apply stuck_merge_side.
    - apply stuck_bind, stuck_merge_side. }
  destruct (Hstuck w) as (e & w'' & Hrun' & _).
  rewrite Hrun in Hrun'. injection Hrun' as -> _. eauto.
Qed.

(** * len() of an indexed string *)

(** X20. [len(field.data)], which is also [len(field)], of an indexed
    string.  On a field in which nothing was ever written the read-only
    handle answers 0 and the writable handle raises [ValueError]: its
    [__len__] returns [-1], which [len()] refuses.  Once the index array
    starts with its [0] both handles answer the number of rows. *)
Theorem indexed_len_of_handles (st : Store) (f : HDF5Field) (g : H5Group)
    (i : list Z) (v : list byte) (c : Z) :
  cls f = IndexedString →
  st !! _field f = Some g → dsets g = Indexed i v →
  attrs g !! "chunksize" = Some (AttrInt c) → 0 ≤ c →
  (i = [] →
   indexed_data_len f st
   = (if _write_enabled f then Raise ValueError else Ok 0, st))
  ∧ (∀ ss, i = 0 :: offsets_from 0 ss →
       indexed_data_len f st = (Ok (Z.of_nat (length ss)), st)).
Proof.
  intros _ Hg Hd Hc Hc0.
  assert (Hrun : indexed_data_len f st
                 = (if _write_enabled f
                    then py_len (Z.of_nat (length i) - 1)
                    else py_len (Z.max (Z.of_nat (length i) - 1) 0), st)).
  { unfold indexed_data_len.
    erewrite bind_ok by (by apply group_ok).
    erewrite bind_ok by (apply lift_ok; unfold indexed_arrays; by rewrite Hd).
    simpl. destruct (_write_enabled f); [|done].
    erewrite bind_ok by (apply lift_ok; unfold attr_of; by rewrite Hc).
    cbn beta iota. by rewrite decide_False by lia. }
  rewrite Hrun. split.
  - intros ->. by destruct (_write_enabled f).
  - intros ss ->. simpl length. rewrite length_offsets_from.
    unfold py_len.
    destruct (_write_enabled f); rewrite decide_False by lia; f_equal;
      f_equal; lia.
Qed.

Lemma indexed_len_of_handles_witness :
  (@nil Z = [] →
   indexed_data_len example_target example_store
   = (if _write_enabled example_target then Raise ValueError else Ok 0,
      example_store))
  ∧ (∀ ss, [] = 0 :: offsets_from 0 ss →
       indexed_data_len example_target example_store
       = (Ok (Z.of_nat (length ss)), example_store)).
Proof.
  apply (indexed_len_of_handles example_store example_target
           (mkGroup (example_attrs "indexedstring") (Indexed [] []))
           [] [] 4).
  - reflexivity.
  - reflexivity.
  - reflexivity.
  - reflexivity.
  - lia.
Defined.

(** * Adding and dropping columns *)

(** X21. In this snapshot no column can be added to a data frame:
    [df[name] = field], [df.add(field)] and [copy(field, df, name)] all
    start with [field.create_like(df, ...)], which calls the [create_...]
    method of the data frame with the session as one positional argument
    too many; each raises [TypeError] and changes nothing.  [add] of a
    field whose path has no second [/] raises [ValueError] before that,
    and [df[name] = field] with a name that is not a [str] or a value that
    is not a field is a [TypeError] of its own. *)
Theorem frame_add_column_raises (w : World) (df name : string)
    (f : HDF5Field) :
  described (file w) f →
  frame_setitem df (PyStr name) (PyField f) w = (Raise TypeError, w)
  ∧ copy f df name w = (Raise TypeError, w)
  ∧ frame_add df f w
    = (Raise match String.index 1 "/" (_field f) with
           | Some _ => TypeError
           | None => ValueError
           end,
       w)
  ∧ (∀ o, (∀ n, o ≠ PyStr n) →
          frame_setitem df o (PyField f) w = (Raise TypeError, w))
  ∧ (∀ o, (∀ f', o ≠ PyField f') →
          frame_setitem df (PyStr name) o w = (Raise TypeError, w)).
Proof.
  intros Hdesc. destruct w as [s st fr]. simpl in Hdesc.
  split; [|split; [|split; [|split]]].
  - unfold frame_setitem. apply bind_raise. by apply create_like_frame.
  - unfold copy. apply bind_raise. by apply create_like_frame.
  - unfold frame_add. destruct (String.index 1 "/" (_field f)); [|done].
    apply bind_raise. by apply create_like_frame.
  - intros o Ho. destruct o; try done. by destruct (Ho s0).
  - intros o Ho. destruct o; try done. by destruct (Ho f0).
Qed.

Lemma frame_add_column_raises_witness :
  frame_setitem "/df2" (PyStr "numf")
    (PyField (mkField Numeric "/df/numf" true)) test_world
  = (Raise TypeError, test_world)
  ∧ copy (mkField Numeric "/df/numf" true) "/df2" "numf" test_world
    = (Raise TypeError, test_world)
  ∧ frame_add "/df2" (mkField Numeric "/df/numf" true) test_world
    = (Raise match String.index 1 "/"
                     (_field (mkField Numeric "/df/numf" true)) with
             | Some _ => TypeError
             | None => ValueError
             end, test_world)
  ∧ (∀ o, (∀ n, o ≠ PyStr n) →
          frame_setitem "/df2" o (PyField (mkField Numeric "/df/numf" true))
            test_world = (Raise TypeError, test_world))
  ∧ (∀ o, (∀ f', o ≠ PyField f') →
          frame_setitem "/df2" (PyStr "numf") o test_world
          = (Raise TypeError, test_world)).
Proof.
  apply (frame_add_column_raises test_world "/df2" "numf"
           (mkField Numeric "/df/numf" true)).
  eexists. split; [reflexivity|]. simpl.
  split; [by eexists|]. split; by eexists.
Defined.

(** X22. [df.drop(name)] removes the column before the group, where
    [del df[name]] checks first and removes the group first.  For a name
    that is no column [drop] raises [KeyError] (and [del] [ValueError]),
    and nothing changes; for a column whose group is in the file the two
    leave the same data frame and file; for a column whose group is missing
    both raise [KeyError], but [drop] has forgotten the column by then and
    [del] has not. *)
Theorem frame_drop_and_delitem (w : World) (df : string)
    (c : dict HDF5Field) (name : string) :
  frames w !! df = Some c →
  (name ∉ c.*1 → frame_drop df name w = (Raise KeyError, w))
  ∧ (name ∈ c.*1 → is_Some (file w !! child df name) →
     frame_drop df name w = HDF5DataFrame.delitem df (PyStr name) w
     ∧ (frame_drop df name w).1 = Ok tt)
  ∧ (name ∈ c.*1 → file w !! child df name = None →
     frame_drop df name w
     = (Raise KeyError,
        mkWorld (session w) (file w) (<[df := dict_del c name]> (frames w)))
     ∧ HDF5DataFrame.delitem df (PyStr name) w = (Raise KeyError, w)).
Proof.
  intros Hc.
  pose proof (columns_ok w df c Hc) as Hcols.
  pose proof (contains_ok w df c name Hc) as Hcont.
  split; [|split].
  - intros Hn. apply dict_contains_false in Hn.
    unfold frame_drop. erewrite bind_ok by exact Hcols. by rewrite Hn.
  - intros Hin [g Hg]. apply dict_contains_true in Hin.
    unfold frame_drop, HDF5DataFrame.delitem.
    erewrite bind_ok by exact Hcols. erewrite bind_ok by exact Hcont.
    rewrite Hin. cbn [negb].
    unfold bind, set_columns, h5_delete, columns. simpl. rewrite Hg.
    cbn [frames]. by rewrite Hc.
  - intros Hin Hnone. apply dict_contains_true in Hin.
    unfold frame_drop, HDF5DataFrame.delitem.
    erewrite bind_ok by exact Hcols. erewrite bind_ok by exact Hcont.
    rewrite Hin. cbn [negb].
    unfold bind, set_columns, h5_delete. simpl. by rewrite Hnone.
Qed.

Lemma frame_drop_and_delitem_witness :
  ("numf" ∉ [("numf", mkField Numeric "/df/numf" true)].*1 →
   frame_drop "/df" "numf" test_world = (Raise KeyError, test_world))
  ∧ ("numf" ∈ [("numf", mkField Numeric "/df/numf" true)].*1 →
     is_Some (file test_world !! child "/df" "numf") →
     frame_drop "/df" "numf" test_world
     = HDF5DataFrame.delitem "/df" (PyStr "numf") test_world
     ∧ (frame_drop "/df" "numf" test_world).1 = Ok tt)
  ∧ ("numf" ∈ [("numf", mkField Numeric "/df/numf" true)].*1 →
     file test_world !! child "/df" "numf" = None →
     frame_drop "/df" "numf" test_world
     = (Raise KeyError,
        mkWorld (session test_world) (file test_world)
          (<["/df" := dict_del [("numf", mkField Numeric "/df/numf" true)]
                        "numf"]> (frames test_world)))
     ∧ HDF5DataFrame.delitem "/df" (PyStr "numf") test_world
       = (Raise KeyError, test_world)).
Proof.
  apply (frame_drop_and_delitem test_world "/df"
           [("numf", mkField Numeric "/df/numf" true)] "numf").
  reflexivity.
Defined.

(** * The leaky importer, deleting a column, the timestamp of a field *)

(** ** LeakyCategoricalImporter of fields.py *)

Lemma dict_get_elem_of {V} (d : dict V) k v :
  dict_get d k = Some v → (k, v) ∈ d.
Proof.
  induction d as [|[k' v'] d IH]; [done|].
  rewrite dict_get_cons. destruct (decide (k' = k)) as [->|Hne].
  - intros [= ->]. apply list_elem_of_here.
  - intros H. apply list_elem_of_further. by apply IH.
Qed.

(** With no key of code [-1], a text is kept exactly when it is no key. *)
Lemma leaky_text_no_sentinel keys v :
  Forall (λ kv : string * Z, kv.2 ≠ -1) keys →
  leaky_text keys v
  = match dict_get keys v with Some _ => EmptyString | None => v end.
Proof.
  intros Hkeys. unfold leaky_text, leaky_code.
  destruct (dict_get keys v) as [c|] eqn:Hget.
  - apply dict_get_elem_of in Hget.
    rewrite Forall_forall in Hkeys. specialize (Hkeys _ Hget). simpl in Hkeys.
    change (default (-1) (Some c)) with c. by rewrite decide_False.
  - change (default (-1) None) with (-1). by rewrite decide_True.
Qed.

(** Codes within the bounds of a signed dtype are stored as they are, the
    sentinel included. *)
Lemma leaky_stored_in_range keys dtype bits v :
  int_dtype dtype = Some (true, bits) →
  Forall (λ kv : string * Z, int_min true bits ≤ kv.2 ≤ int_max true bits)
    keys →
  leaky_stored keys dtype v = leaky_code keys v.
Proof.
  intros Hdt Hkeys. pose proof (int_dtype_bits _ _ _ Hdt) as Hbits.
  unfold leaky_stored.
  apply (cast_int_in_range dtype true bits); [done|].
  unfold leaky_code.
  destruct (dict_get keys v) as [c|] eqn:Hget; simpl.
  - apply dict_get_elem_of in Hget.
    rewrite Forall_forall in Hkeys. by specialize (Hkeys _ Hget).
  - assert (0 < 2 ^ (bits - 1)) by (apply Z.pow_pos_nonneg; lia).
    unfold int_min, int_max. lia.
Qed.




(** ** Deleting a column that is not there *)

(** C9 (as amended). [del df[name]] for a name that is no column of the data
    frame raises [ValueError], and the data frame, its columns and the file
    are as they were. *)
Theorem C9_delitem_absent (w : World) (df : string) (c : dict HDF5Field)
    (name : string) :
  frames w !! df = Some c → name ∉ c.*1 →
  ∃ w', HDF5DataFrame.delitem df (PyStr name) w = (Raise ValueError, w')
        ∧ w' = w
        ∧ columns df w' = (Ok c, w').
Proof.
  intros Hc Hn. exists w. split; [by eapply delitem_no_column|].
  split; [done|]. by apply columns_ok.
Qed.

Lemma C9_delitem_absent_witness :
  ∃ w', HDF5DataFrame.delitem "/df" (PyStr "age") test_world
        = (Raise ValueError, w')
        ∧ w' = test_world
        ∧ columns "/df" w'
          = (Ok [("numf", mkField Numeric "/df/numf" true)], w').
Proof.
  apply (C9_delitem_absent test_world "/df"
           [("numf", mkField Numeric "/df/numf" true)] "age").
  - reflexivity.
  - simpl. rewrite not_elem_of_cons. split; [done|apply not_elem_of_nil].
Defined.

(** C9 (as stated) fails: the error is a [ValueError], which is no
    [KeyError]. *)
Lemma C9_counterexample :
  HDF5DataFrame.delitem "/df" (PyStr "age") test_world
  = (Raise ValueError, test_world)
  ∧ HDF5DataFrame.delitem "/df" (PyStr "age") test_world
    ≠ (Raise KeyError, test_world).
Proof. split; [reflexivity|discriminate]. Qed.

(** ** The timestamp of a field *)

(** C10. Every field constructor, called with a free name, records the
    chunk size (the session's when no [chunksize] is given, else the one
    given) as the [timestamp] attribute of the field as well as its
    [chunksize]; the [timestamp] property of a handle on the field returns
    it; and the [timestamp] argument plays no part: with any other
    [timestamp] the constructor returns the same and leaves the same
    file. *)
Theorem C10_timestamp_is_chunksize (e : encoding) (s : Session) (p : parent)
    (name : string) (ts : pyobj) (cs : option Z) (w : World) :
  fresh_name w p name →
  let path := child (parent_path p) name in
  let c := chunksize_or_default s cs in
  ∃ w' g, field_constructor e s p name ts cs w = (Ok path, w')
          ∧ file w' !! path = Some g
          ∧ attrs g !! "timestamp" = Some (AttrInt c)
          ∧ attrs g !! "chunksize" = Some (AttrInt c)
          ∧ (∀ write_enabled,
               Field.timestamp (mkField (encoding_class e) path write_enabled)
                 (file w')
               = (Ok (AttrInt c), file w'))
          ∧ ∀ ts', field_constructor e s p name ts' cs w = (Ok path, w').
Proof.
  intros Hfresh path c.
  destruct (field_constructor_fresh e s p name ts cs w Hfresh)
    as (g & Hrun & Hts & Hcs & _ & _).
  fold path in Hrun. fold c in Hts, Hcs.
  eexists _, g. split; [exact Hrun|]. simpl.
  assert (Hg : (<[path := g]> (file w) : Store) !! path = Some g)
    by apply lookup_insert_eq.
  split; [done|]. split; [done|]. split; [done|]. split.
  - intros we. unfold Field.timestamp.
    erewrite bind_ok by (by apply group_ok).
    apply lift_ok. unfold attr_of. simpl. by rewrite Hts.
  - intros ts'. rewrite <- Hrun. by destruct e.
Qed.

Lemma C10_timestamp_is_chunksize_witness :
  let path := child (parent_path (FrameParent "/df2")) "age" in
  let c := chunksize_or_default (mkSession 16) None in
  ∃ w' g, field_constructor (ENumeric "int32") (mkSession 16)
            (FrameParent "/df2") "age" (PyInt 1600000000) None test_world
          = (Ok path, w')
          ∧ file w' !! path = Some g
          ∧ attrs g !! "timestamp" = Some (AttrInt c)
          ∧ attrs g !! "chunksize" = Some (AttrInt c)
          ∧ (∀ write_enabled,
               Field.timestamp
                 (mkField (encoding_class (ENumeric "int32")) path
                    write_enabled) (file w')
               = (Ok (AttrInt c), file w'))
          ∧ ∀ ts', field_constructor (ENumeric "int32") (mkSession 16)
                     (FrameParent "/df2") "age" ts' None test_world
                   = (Ok path, w').
Proof.
  apply (C10_timestamp_is_chunksize (ENumeric "int32") (mkSession 16)
           (FrameParent "/df2") "age" (PyInt 1600000000) None test_world).
  split; [reflexivity|].
  exists []. split; [reflexivity|]. simpl. apply not_elem_of_nil.
Defined.

(** ** merge on the smallest data frames *)

(** [merge(left, right, dest, 'k', 'k')] on two data frames that have the
    key column [k] only, [[1]] on the left and [[2]] on the right, or [[1]]
    on both sides: the call raises [TypeError] and records nothing. *)
Lemma merge_example_raises :
  merge "/left" "/right" "/dest" (PyStr "k") (PyStr "k") None None "_l" "_r"
    Left (merge_world 1 2)
  = (Raise TypeError, merge_world 1 2)
  ∧ merge "/left" "/right" "/dest" (PyStr "k") (PyStr "k") None None "_l" "_r"
      Left (merge_world 1 1)
    = (Raise TypeError, merge_world 1 1).
Proof. split; vm_compute; reflexivity. Qed.
